(** * AID Commander v4.1: validation consensus engine and hallucination detector

    A shallow embedding of

    - [knowledge_graph/graphiti/temporal_engine.py] (pattern usage update,
      confidence of a temporal query),
    - [validation/multi_layer/validation_engine.py] (code analyser, the six
      validators, the orchestrator),
    - [validation/hallucination/detection_engine.py] (detector and
      correction generator),
    - [knowledge_graph/rag/hybrid_search.py] (ranking of search results,
      search confidence, verdict on an API call),

    followed by the properties of the specification that were checked
    against it, and by further properties of the code.

    Conventions of the embedding.

    - Python [float] values are exact rationals ([Q]); equalities between
      scores are stated with [==] ([Qeq]).  Rounding is not modelled.
    - [str] is [string] (a sequence of bytes); case folding and white space
      are the ASCII ones.
    - A Python [dict] is an association list in insertion order, without
      duplicate keys; a Python [list] is a [list].
    - A call that may raise returns an [outcome]; [try]/[except] is a match
      on it.
    - The external collaborators (the Neo4j store behind the Graphiti
      engine, the retrieval system, the memory bank, the Python runtime's
      parser and clock) are records of functions: the code only ever calls
      them.  They answer as functions of their arguments: the knowledge
      base does not change while a validation or a detection runs.
    - [async]/[await] is sequential composition; the tasks that
      [asyncio.gather] runs share no state, so their results are those of
      the calls made one after the other. *)

From Stdlib Require Import QArith Qminmax Lqa Lia ZArith List String Ascii Bool Arith.
From Stdlib Require Import Permutation Sorted.
Import ListNotations.

Set Implicit Arguments.
Set Warnings "-register-all".

(** ** Python runtime *)

Module Py.

(** Exceptions carry their message ([str(e)]). *)
Definition exn := string.

Inductive outcome (A : Type) : Type :=
| Ok (a : A)
| Raise (e : exn).
Arguments Ok {A} a.
Arguments Raise {A} e.

Definition bind {A B : Type} (m : outcome A) (k : A -> outcome B) : outcome B :=
  match m with
  | Ok a => k a
  | Raise e => Raise e
  end.

(** [for x in xs: acc = body(acc, x)] where the body may raise. *)
Fixpoint for_each {A S : Type} (body : S -> A -> outcome S) (xs : list A) (acc : S)
  : outcome S :=
  match xs with
  | [] => Ok acc
  | x :: rest => bind (body acc x) (for_each body rest)
  end.

(** *** Numbers *)

Definition Qlt_bool (x y : Q) : bool := negb (Qle_bool y x).

Definition float_of_nat (n : nat) : Q := inject_Z (Z.of_nat n).

(** [sum(xs)] *)
Definition sum (xs : list Q) : Q := fold_left Qplus xs 0%Q.

(** [len(xs)] as a float operand *)
Definition len {A : Type} (xs : list A) : Q := float_of_nat (List.length xs).

(** [min(a, b)] and [max(a, b)]: Python returns the first argument on a tie. *)
Definition min (a b : Q) : Q := if Qlt_bool b a then b else a.
Definition max (a b : Q) : Q := if Qlt_bool a b then b else a.

(** [xs.append(x)] and [xs.extend(ys)] *)
Definition append {A : Type} (xs : list A) (x : A) : list A := (xs ++ [x])%list.
Definition extend {A : Type} (xs ys : list A) : list A := (xs ++ ys)%list.

(** *** Dictionaries (insertion ordered) *)

Section Dict.
Variables K V : Type.
Variable eqb : K -> K -> bool.

Definition dict := list (K * V).

Fixpoint get (d : dict) (k : K) : option V :=
  match d with
  | [] => None
  | (k', v) :: rest => if eqb k' k then Some v else get rest k
  end.

(** [d[k] = v]: an existing key keeps its position. *)
Fixpoint set (d : dict) (k : K) (v : V) : dict :=
  match d with
  | [] => [(k, v)]
  | (k', v') :: rest => if eqb k' k then (k', v) :: rest else (k', v') :: set rest k v
  end.

Definition values (d : dict) : list V := map snd d.
Definition keys (d : dict) : list K := map fst d.
Definition contains (d : dict) (k : K) : bool :=
  match get d k with Some _ => true | None => false end.
End Dict.

(** *** Strings *)

Definition is_upper (c : ascii) : bool :=
  let n := nat_of_ascii c in (65 <=? n)%nat && (n <=? 90)%nat.

Definition lower_char (c : ascii) : ascii :=
  if is_upper c then ascii_of_nat (nat_of_ascii c + 32) else c.

(** [s.lower()] on ASCII text: the letters A..Z are folded and every
    other byte is kept. *)
Fixpoint lower (s : string) : string :=
  match s with
  | EmptyString => EmptyString
  | String c rest => String (lower_char c) (lower rest)
  end.

(** White space of [str.split()]: tab, line feed, vertical tab, form feed,
    carriage return, the four separators 28..31 and the space. *)
Definition is_space (c : ascii) : bool :=
  let n := nat_of_ascii c in
  ((9 <=? n)%nat && (n <=? 13)%nat) || ((28 <=? n)%nat && (n <=? 32)%nat).

(** Word characters of the regular expression [\w]. *)
Definition is_word_char (c : ascii) : bool :=
  let n := nat_of_ascii c in
  ((48 <=? n)%nat && (n <=? 57)%nat) || ((65 <=? n)%nat && (n <=? 90)%nat)
  || ((97 <=? n)%nat && (n <=? 122)%nat) || (n =? 95)%nat.

(** Maximal runs of characters satisfying [keep], in order. *)
Fixpoint runs (keep : ascii -> bool) (s : string) (cur : string) : list string :=
  match s with
  | EmptyString => match cur with EmptyString => [] | _ => [cur] end
  | String c rest =>
      if keep c then runs keep rest (cur ++ String c EmptyString)
      else match cur with
           | EmptyString => runs keep rest EmptyString
           | _ => cur :: runs keep rest EmptyString
           end
  end.

(** [s.split()] *)
Definition split (s : string) : list string := runs (fun c => negb (is_space c)) s EmptyString.

(** [re.findall(r'\w+', s)] *)
Definition findall_words (s : string) : list string := runs is_word_char s EmptyString.

Fixpoint mem (x : string) (xs : list string) : bool :=
  match xs with
  | [] => false
  | y :: rest => String.eqb y x || mem x rest
  end.

(** [set(xs)], kept as a duplicate-free list. *)
Fixpoint to_set (xs : list string) : list string :=
  match xs with
  | [] => []
  | x :: rest => let s := to_set rest in if mem x s then s else x :: s
  end.

Definition intersection (a b : list string) : list string := filter (fun x => mem x b) a.
Definition union (a b : list string) : list string := a ++ filter (fun x => negb (mem x a)) b.

(** [sub in s] *)
Fixpoint contains_str (sub s : string) : bool :=
  String.prefix sub s
  || match s with
     | EmptyString => false
     | String _ rest => contains_str sub rest
     end.

(** [c in s] for a single character *)
Fixpoint char_in (c : ascii) (s : string) : bool :=
  match s with
  | EmptyString => false
  | String d rest => Ascii.eqb d c || char_in c rest
  end.

(** [s[:n]] *)
Fixpoint take (n : nat) (s : string) : string :=
  match n, s with
  | S k, String c rest => String c (take k rest)
  | _, _ => EmptyString
  end.

(** [sep.join(xs)] *)
Fixpoint join (sep : string) (xs : list string) : string :=
  match xs with
  | [] => EmptyString
  | [x] => x
  | x :: rest => x ++ sep ++ join sep rest
  end.

(** [s.replace(old, new)] for a non-empty [old]: non-overlapping
    occurrences, leftmost first.  [skip] counts the characters of a match
    still to be dropped. *)
Fixpoint replace_from (old new s : string) (skip : nat) : string :=
  match s with
  | EmptyString => EmptyString
  | String c rest =>
      match skip with
      | S k => replace_from old new rest k
      | O =>
          if String.prefix old s
          then new ++ replace_from old new rest (String.length old - 1)
          else String c (replace_from old new rest 0)
      end
  end.

(** With an empty [old] Python inserts [new] before every character and
    at the end. *)
Fixpoint intersperse (new s : string) : string :=
  match s with
  | EmptyString => new
  | String c rest => new ++ String c (intersperse new rest)
  end.

Definition replace (s old new : string) : string :=
  match old with
  | EmptyString => intersperse new s
  | _ => replace_from old new s 0
  end.

(** [repr] of a list of strings, as an f-string prints it. *)
Definition repr_list (xs : list string) : string :=
  ("[" ++ join ", " (map (fun x => "'" ++ x ++ "'") xs) ++ "]")%string.

(** A stable sort by a rational key; [sorted(xs, key=key)] and, with
    [reverse=True], the descending order that still keeps equal keys in
    their original order. *)
Section Sorting.
Variable A : Type.
Variable key : A -> Q.

Fixpoint insert_asc (x : A) (xs : list A) : list A :=
  match xs with
  | [] => [x]
  | y :: rest => if Qle_bool (key y) (key x) then y :: insert_asc x rest else x :: xs
  end.

Fixpoint insert_desc (x : A) (xs : list A) : list A :=
  match xs with
  | [] => [x]
  | y :: rest => if Qle_bool (key x) (key y) then y :: insert_desc x rest else x :: xs
  end.

Definition sorted (xs : list A) : list A :=
  fold_left (fun acc x => insert_asc x acc) xs [].

Definition sorted_reverse (xs : list A) : list A :=
  fold_left (fun acc x => insert_desc x acc) xs [].
End Sorting.

End Py.

Import Py.

Notation "'let!' x ':=' m 'in' k" := (Py.bind m (fun x => k))
  (at level 10, x name, m at level 100, k at level 200).

Local Open Scope string_scope.
Local Open Scope Q_scope.

(** ** knowledge_graph/graphiti/temporal_engine.py *)

Module TemporalEngine.

(** [Pattern]; the two timestamps are seconds on the store's clock. *)
Record Pattern := {
  id : string;
  name : string;
  framework : string;
  pattern_type : string;
  code_template : string;
  success_rate : Q;
  use_cases : list string;
  metadata : list (string * string);
  created_at : Q;
  last_used : Q;
  usage_count : Z
}.

(** *** The Cypher update of [update_pattern_usage]

    The query text is

      MATCH (p:Pattern {id: $pattern_id})
      SET p.usage_count = p.usage_count + 1,
          p.last_used = datetime()
          , p.success_rate = (p.success_rate * p.usage_count + 1.0) / (p.usage_count + 1)
      RETURN p.success_rate as new_success_rate

    (without the [+ 1.0] when [success] is false).  The items of one SET
    clause are executed by the store one after the other, from left to
    right, each on the property values left by the items before it: a
    [set_item] is therefore a function on the node's properties and the
    clause is their composition in the order written. *)

Definition set_item := Pattern -> Pattern.

Definition set_usage_count (e : Pattern -> Z) : set_item := fun p =>
  {| id := id p; name := name p; framework := framework p;
     pattern_type := pattern_type p; code_template := code_template p;
     success_rate := success_rate p; use_cases := use_cases p;
     metadata := metadata p; created_at := created_at p;
     last_used := last_used p; usage_count := e p |}.

Definition set_last_used (e : Pattern -> Q) : set_item := fun p =>
  {| id := id p; name := name p; framework := framework p;
     pattern_type := pattern_type p; code_template := code_template p;
     success_rate := success_rate p; use_cases := use_cases p;
     metadata := metadata p; created_at := created_at p;
     last_used := e p; usage_count := usage_count p |}.

Definition set_success_rate (e : Pattern -> Q) : set_item := fun p =>
  {| id := id p; name := name p; framework := framework p;
     pattern_type := pattern_type p; code_template := code_template p;
     success_rate := e p; use_cases := use_cases p;
     metadata := metadata p; created_at := created_at p;
     last_used := last_used p; usage_count := usage_count p |}.

(** [SET item1, item2, ...] *)
Definition cypher_set (items : list set_item) (p : Pattern) : Pattern :=
  fold_left (fun node item => item node) items p.

(** The SET items that [update_pattern_usage] assembles; [now] is the
    store's [datetime()]. *)
Definition update_query (success : bool) (now : Q) : list set_item :=
  [ set_usage_count (fun p => (usage_count p + 1)%Z);
    set_last_used (fun _ => now) ]
  ++ (if success
      then [ set_success_rate (fun p =>
               (success_rate p * inject_Z (usage_count p) + 1)
               / inject_Z (usage_count p + 1)) ]
      else [ set_success_rate (fun p =>
               (success_rate p * inject_Z (usage_count p))
               / inject_Z (usage_count p + 1)) ]).

(** The store: its patterns, in order, and its clock. *)
Record Store := {
  patterns : list Pattern;
  now : Q
}.

(** [MATCH (p:Pattern {id: $pattern_id}) SET ... RETURN p.success_rate]:
    every pattern with that id is updated and yields one record. *)
Fixpoint run_update (items : list set_item) (pattern_id : string) (ps : list Pattern)
  : list Pattern * list Q :=
  match ps with
  | [] => ([], [])
  | p :: rest =>
      let '(rest', records) := run_update items pattern_id rest in
      if String.eqb (id p) pattern_id
      then let p' := cypher_set items p in (p' :: rest', success_rate p' :: records)
      else (p :: rest', records)
  end.

(** [result.single()]: the first record, [None] when there is none. *)
Definition single {A : Type} (records : list A) : option A :=
  match records with
  | r :: _ => Some r
  | [] => None
  end.

(** [update_pattern_usage(pattern_id, success)]: the new store and the
    returned value ([record["new_success_rate"] if record else None]). *)
Definition update_pattern_usage (st : Store) (pattern_id : string) (success : bool)
  : Store * option Q :=
  let '(ps, records) := run_update (update_query success (now st)) pattern_id (patterns st) in
  ({| patterns := ps; now := now st |}, single records).

End TemporalEngine.

(** ** The external collaborators *)

(** The syntax tree of [ast.parse], reduced to what the code inspects: the
    class of a node, the attributes it reads, and the child nodes in the
    order of [ast.iter_child_nodes]. *)
Module Ast.

(** [node.func] of a [Call]: an [Attribute] (with its value, an
    expression named by its source text, and its [attr]), a [Name] (with
    its [id]) or anything else. *)
Inductive call_func :=
| Attribute (value_src attr : string)
| Name (id : string)
| OtherFunc.

Inductive node_kind :=
| Import (names : list string)
| ImportFrom (module : option string) (names : list string)
| ClassDef (name : string)
| FunctionDef (name : string) (returns : bool) (arg_annotations : list bool)
| AsyncFunctionDef (name : string)
| Call (func : call_func) (lineno : Z)
| Try
| Await
| Other.

Inductive ast := Node (kind : node_kind) (children : list ast).

Definition kind_of (t : ast) : node_kind := let 'Node k _ := t in k.
Definition children_of (t : ast) : list ast := let 'Node _ cs := t in cs.

Fixpoint size (t : ast) : nat :=
  match t with
  | Node _ cs => S (list_sum (map size cs))
  end.

Definition forest_size (ts : list ast) : nat := list_sum (map size ts).

(** [ast.walk]: breadth first, from a queue ([todo.popleft()] then
    [todo.extend(children)]).  The fuel bounds the number of nodes
    yielded. *)
Fixpoint walk_queue (fuel : nat) (todo : list ast) : list ast :=
  match fuel, todo with
  | S f, t :: rest => t :: walk_queue f (rest ++ children_of t)
  | _, _ => []
  end.

Definition walk (t : ast) : list ast := walk_queue (size t) [t].

End Ast.

(** The parser and the renderer of the [ast] module, [datetime.now()]
    differences, [** 0.5] and the float formats of the f-strings.

    An expression that is the receiver of a call is named in the tree by
    its source text; [ast.unparse] of it is a call that may raise (it
    raises [RecursionError] on a deeply nested expression that the parser
    still accepts), and the module has no [unparse] before Python 3.9
    ([setup.py] asks for 3.8 or later). *)
Record Runtime := {
  ast_parse : string -> outcome Ast.ast;
  has_unparse : bool;                (* hasattr(ast, 'unparse') *)
  unparse : string -> outcome string;  (* ast.unparse(node.func.value) *)
  node_str : string -> string;       (* str(node.func.value) *)
  sqrt : Q -> Q;
  format_percent : Q -> string;      (* f"{x:.1%}" *)
  format_fixed2 : Q -> string;       (* f"{x:.2f}" *)
  format_int : Z -> string;          (* f"{n}" *)
  layer_seconds : string -> Q;       (* time spent in one layer *)
  total_seconds : Q;                 (* time spent in one validation call *)
  detection_seconds : Q              (* time spent in one detection call *)
}.

(** What the validators ask of the Graphiti engine and its Neo4j session. *)
Record AIDGraphitiEngine := {
  (* query_successful_patterns(framework, min_success_rate, time_window_days) *)
  query_successful_patterns : string -> Q -> Z -> outcome (list TemporalEngine.Pattern);
  (* query_failed_patterns(framework, time_window_days) *)
  query_failed_patterns : string -> Z -> outcome (list TemporalEngine.Pattern);
  (* MATCH ... WHERE c.name = $class_name AND m.name = $method_name:
     framework, class, method; the record's signature and confidence *)
  match_method : string -> string -> string -> outcome (option (string * Q));
  (* MATCH ... WHERE m.name CONTAINS $method_name OR c.name = $class_name
     LIMIT 3: the (c.name, m.name) records *)
  match_similar : string -> string -> string -> outcome (list (string * string));
  (* MATCH ... WHERE levenshtein(m.name, $method_name) <= 2 LIMIT 1 *)
  match_levenshtein : string -> string -> outcome (option (string * string))
}.

(** [hybrid_search] and [validate_api_usage] of the retrieval system. *)
Record SearchResult := {
  search_confidence : Q;
  api_references : list string
}.

Record RAGValidationResult := {
  is_valid : bool;
  rag_confidence : Q;
  rag_issues : list string
}.

Record HybridRAGSystem := {
  (* hybrid_search(query, framework, max_results) *)
  hybrid_search : string -> string -> Z -> outcome SearchResult;
  (* validate_api_usage(api_call, framework) *)
  validate_api_usage : string -> string -> outcome RAGValidationResult
}.

(** [MemoryContext] and [get_relevant_context] of the memory bank. *)
Record MemoryContext := {
  relevant_decisions : list string;
  success_factors : list string;
  warnings : list string;
  memory_confidence : Q
}.

Record MemoryBank := {
  get_relevant_context : string -> outcome MemoryContext
}.

(** ** validation/multi_layer/validation_engine.py *)

Module ValidationEngine.

Inductive ValidationLayer :=
| STRUCTURAL | TEMPORAL | DOCUMENTATION | MEMORY | TYPE_SAFETY | CONSENSUS.

(** [layer.value] *)
Definition value (l : ValidationLayer) : string :=
  match l with
  | STRUCTURAL => "structural"
  | TEMPORAL => "temporal"
  | DOCUMENTATION => "documentation"
  | MEMORY => "memory"
  | TYPE_SAFETY => "type_safety"
  | CONSENSUS => "consensus"
  end.

Inductive ValidationSeverity := CRITICAL | HIGH | MEDIUM | LOW | INFO.

Definition is_critical (s : ValidationSeverity) : bool :=
  match s with CRITICAL => true | _ => false end.

Record ValidationIssue := {
  issue_layer : ValidationLayer;
  severity : ValidationSeverity;
  issue_type : string;
  description : string;
  code_location : option string;
  suggestion : option string;
  issue_confidence : Q;
  issue_metadata : option (list (string * string))
}.

(** The constructor call with the defaults of the dataclass. *)
Definition mkIssue (l : ValidationLayer) (s : ValidationSeverity) (t d : string)
           (sugg : option string) : ValidationIssue :=
  {| issue_layer := l; severity := s; issue_type := t; description := d;
     code_location := None; suggestion := sugg; issue_confidence := 1;
     issue_metadata := None |}.

(** A value of a [Dict[str, Any]] metadata bag. *)
Inductive py_value :=
| PyStr (s : string)
| PyFloat (x : Q)
| PyInt (n : Z)
| PyList (xs : list string).

Record LayerValidationResult := {
  layer : ValidationLayer;
  confidence : Q;
  issues : list ValidationIssue;
  validated_items : list string;
  metadata : list (string * py_value);
  processing_time : Q
}.

(** [result.processing_time = t] *)
Definition set_processing_time (r : LayerValidationResult) (t : Q) : LayerValidationResult :=
  {| layer := layer r; confidence := confidence r; issues := issues r;
     validated_items := validated_items r; metadata := metadata r;
     processing_time := t |}.

Record ValidationResult := {
  consensus_score : Q;
  layer_results : Py.dict string LayerValidationResult;
  overall_issues : list ValidationIssue;
  validated_approach : option string;
  confidence_breakdown : Py.dict string Q;
  recommendations : list string;
  result_processing_time : Q
}.

Record ApiCall := {
  object : string;
  method : string;
  full_call : string;
  line : option Z
}.

Record CodeAnalysis := {
  imports : list string;
  classes : list string;
  methods : list string;
  function_calls : list string;
  api_calls : list ApiCall;
  frameworks : list string;
  patterns : list string;
  ast_tree : option Ast.ast
}.

(** The analysis of the [except] branch. *)
Definition empty_analysis : CodeAnalysis :=
  {| imports := []; classes := []; methods := []; function_calls := [];
     api_calls := []; frameworks := []; patterns := []; ast_tree := None |}.

(** *** _analyze_code_structure *)

(** The five lists filled while walking the tree. *)
Record Collected := {
  c_imports : list string;
  c_classes : list string;
  c_methods : list string;
  c_function_calls : list string;
  c_api_calls : list ApiCall
}.

Definition nothing_collected : Collected :=
  {| c_imports := []; c_classes := []; c_methods := [];
     c_function_calls := []; c_api_calls := [] |}.

(** [ast.unparse(node.func.value) if hasattr(ast, 'unparse') else 'unknown'] *)
Definition receiver_name (rt : Runtime) (value_src : string) : outcome string :=
  if has_unparse rt then unparse rt value_src else Ok "unknown".

(** The body of [for node in ast.walk(tree)]; an exception raised by
    [ast.unparse] leaves the loop. *)
Definition visit (rt : Runtime) (acc : Collected) (node : Ast.ast) : outcome Collected :=
  match Ast.kind_of node with
  | Ast.Import names =>
      Ok {| c_imports := Py.extend (c_imports acc) names; c_classes := c_classes acc;
            c_methods := c_methods acc; c_function_calls := c_function_calls acc;
            c_api_calls := c_api_calls acc |}
  | Ast.ImportFrom (Some (String c m)) names =>
      Ok {| c_imports := Py.append (c_imports acc)
              ("from " ++ String c m ++ " import " ++ Py.join ", " names);
            c_classes := c_classes acc;
            c_methods := c_methods acc; c_function_calls := c_function_calls acc;
            c_api_calls := c_api_calls acc |}
  | Ast.ClassDef name =>
      Ok {| c_imports := c_imports acc; c_classes := Py.append (c_classes acc) name;
            c_methods := c_methods acc; c_function_calls := c_function_calls acc;
            c_api_calls := c_api_calls acc |}
  | Ast.FunctionDef name _ _ =>
      Ok {| c_imports := c_imports acc; c_classes := c_classes acc;
            c_methods := Py.append (c_methods acc) name;
            c_function_calls := c_function_calls acc;
            c_api_calls := c_api_calls acc |}
  | Ast.Call (Ast.Attribute value_src method_name) _ =>
      let! obj_name := receiver_name rt value_src in
      Ok {| c_imports := c_imports acc; c_classes := c_classes acc;
            c_methods := c_methods acc;
            c_function_calls :=
              Py.append (c_function_calls acc) (obj_name ++ "." ++ method_name);
            c_api_calls := Py.append (c_api_calls acc)
              {| object := obj_name; method := method_name;
                 full_call := obj_name ++ "." ++ method_name;
                 line := None |} |}
  | Ast.Call (Ast.Name id) _ =>
      Ok {| c_imports := c_imports acc; c_classes := c_classes acc;
            c_methods := c_methods acc;
            c_function_calls := Py.append (c_function_calls acc) id;
            c_api_calls := c_api_calls acc |}
  | _ => Ok acc
  end.

(** Frameworks named by the imports. *)
Definition detect_frameworks (imports : list string) : list string :=
  flat_map (fun imp =>
    if Py.contains_str "pydantic_ai" imp then ["PydanticAI"]
    else if Py.contains_str "fastapi" imp then ["FastAPI"]
    else if Py.contains_str "django" imp then ["Django"]
    else []) imports.

(** The [try] block once the text is parsed, and its [except]. *)
Definition analyze_tree (rt : Runtime) (tree : Ast.ast) : CodeAnalysis :=
  match Py.for_each (visit rt) (Ast.walk tree) nothing_collected with
  | Ok acc =>
      {| imports := c_imports acc;
         classes := c_classes acc;
         methods := c_methods acc;
         function_calls := c_function_calls acc;
         api_calls := c_api_calls acc;
         frameworks := detect_frameworks (c_imports acc);
         patterns := map (fun api_call =>
                       (object api_call ++ "." ++ method api_call ++ " pattern")%string)
                       (c_api_calls acc);
         ast_tree := Some tree |}
  | Raise _ => empty_analysis
  end.

Definition _analyze_code_structure (rt : Runtime) (code : string) : CodeAnalysis :=
  match ast_parse rt code with
  | Ok tree => analyze_tree rt tree
  | Raise _ => empty_analysis
  end.

(** *** The validators

    The common contract: [validate(code_intent, framework, code_analysis)]. *)

Definition validator :=
  string -> string -> option CodeAnalysis -> outcome LayerValidationResult.

(** A [code_analysis] that the conditions of the validators treat as
    present, and its API calls ([[]] without one). *)
Definition calls_of (code_analysis : option CodeAnalysis) : list ApiCall :=
  match code_analysis with
  | Some a => api_calls a
  | None => []
  end.

Module StructuralValidator.

(** The dict returned by [_validate_api_call]. *)
Record ApiValidation := {
  exists_ : bool;
  alternative : option string;   (* "suggestion" *)
  error : option string
}.

Definition _validate_api_call (g : AIDGraphitiEngine) (api_call : ApiCall)
           (framework : string) : ApiValidation :=
  match match_method g framework (object api_call) (method api_call) with
  | Raise e => {| exists_ := false; alternative := None; error := Some e |}
  | Ok (Some _) => {| exists_ := true; alternative := None; error := None |}
  | Ok None =>
      match match_similar g framework (object api_call) (method api_call) with
      | Raise e => {| exists_ := false; alternative := None; error := Some e |}
      | Ok similar =>
          let suggestions := map (fun r => (fst r ++ "." ++ snd r)%string) similar in
          {| exists_ := false;
             alternative := Some (match suggestions with
                                  | s :: _ => s
                                  | [] => "Check documentation"
                                  end);
             error := None |}
      end
  end.

(** One turn of [for api_call in code_analysis.api_calls]. *)
Definition check (g : AIDGraphitiEngine) (framework : string)
           (acc : list ValidationIssue * list string) (api_call : ApiCall)
  : list ValidationIssue * list string :=
  let validation := _validate_api_call g api_call framework in
  if exists_ validation
  then (fst acc, Py.append (snd acc) (object api_call ++ "." ++ method api_call))
  else (Py.append (fst acc)
          (mkIssue STRUCTURAL CRITICAL "non_existent_api"
             ("API " ++ full_call api_call ++ " not found in " ++ framework)
             (Some ("Use validated alternative: "
                    ++ match alternative validation with
                       | Some s => s
                       | None => "Unknown"
                       end))),
        snd acc).

Definition validate (g : AIDGraphitiEngine) : validator :=
  fun code_intent framework code_analysis =>
    let '(issues, validated_items) :=
      fold_left (check g framework) (calls_of code_analysis) ([], []) in
    let confidence :=
      match calls_of code_analysis with
      | _ :: _ => Py.len validated_items / Py.len (calls_of code_analysis)
      | [] => 0.8
      end in
    Ok {| layer := STRUCTURAL; confidence := confidence; issues := issues;
          validated_items := validated_items;
          metadata := [("framework", PyStr framework)];
          processing_time := 0 |}.

End StructuralValidator.

Module TemporalValidator.

Definition _pattern_similarity (pattern1 pattern2 : string) : Q :=
  let words1 := Py.to_set (Py.split (Py.lower pattern1)) in
  let words2 := Py.to_set (Py.split (Py.lower pattern2)) in
  match words1, words2 with
  | [], _ | _, [] => 0
  | _, _ =>
      let intersection := List.length (Py.intersection words1 words2) in
      let union := List.length (Py.union words1 words2) in
      if (0 <? union)%nat then Py.float_of_nat intersection / Py.float_of_nat union else 0
  end.

(** [for success_pattern in successful_patterns: if ...: append; break] *)
Definition first_success (pattern : string) (successful : list TemporalEngine.Pattern)
  : option TemporalEngine.Pattern :=
  find (fun sp => Py.Qlt_bool 0.7 (_pattern_similarity pattern (TemporalEngine.code_template sp)))
       successful.

(** [for fail_pattern in failed_patterns: if ...: issues.append(...)] *)
Definition failures (pattern : string) (failed : list TemporalEngine.Pattern)
  : list ValidationIssue :=
  map (fun fp => mkIssue TEMPORAL HIGH "historically_failed_pattern"
                   ("Pattern similar to historically failed: " ++ TemporalEngine.name fp)
                   (Some "Use alternative approach from successful patterns"))
      (filter (fun fp => Py.Qlt_bool 0.8 (_pattern_similarity pattern (TemporalEngine.code_template fp)))
              failed).

(** One turn of [for pattern in code_analysis.patterns]. *)
Definition check (successful failed : list TemporalEngine.Pattern)
           (acc : list ValidationIssue * list string) (pattern : string)
  : list ValidationIssue * list string :=
  (Py.extend (fst acc) (failures pattern failed),
   match first_success pattern successful with
   | Some sp => Py.append (snd acc) ("Pattern: " ++ TemporalEngine.name sp)
   | None => snd acc
   end).

Definition validate (g : AIDGraphitiEngine) : validator :=
  fun code_intent framework code_analysis =>
    let! successful_patterns := query_successful_patterns g framework 0.8 180 in
    let! failed_patterns := query_failed_patterns g framework 180 in
    let '(issues, validated_items) :=
      match code_analysis with
      | Some a => fold_left (check successful_patterns failed_patterns) (patterns a) ([], [])
      | None => ([], [])
      end in
    let confidence := 0.8 in
    let confidence :=
      match successful_patterns with
      | _ :: _ => Py.min 0.95 (confidence + Py.len validated_items * 0.1)
      | [] => confidence
      end in
    let confidence :=
      match issues with
      | _ :: _ => Py.max 0.2 (confidence - Py.len issues * 0.2)
      | [] => confidence
      end in
    Ok {| layer := TEMPORAL; confidence := confidence; issues := issues;
          validated_items := validated_items;
          metadata := [("successful_patterns_found",
                         PyInt (Z.of_nat (List.length successful_patterns)));
                       ("failed_patterns_found",
                         PyInt (Z.of_nat (List.length failed_patterns)))];
          processing_time := 0 |}.

End TemporalValidator.

Module DocumentationValidator.

(** One turn of [for api_call in code_analysis.api_calls]; the
    retrieval call may raise. *)
Definition check (rag : HybridRAGSystem) (framework : string)
           (acc : list ValidationIssue * list string) (api_call : ApiCall)
  : outcome (list ValidationIssue * list string) :=
  let! validation := validate_api_usage rag (full_call api_call) framework in
  if is_valid validation
  then Ok (fst acc, Py.append (snd acc) (full_call api_call))
  else Ok (Py.append (fst acc)
             (mkIssue DOCUMENTATION MEDIUM "undocumented_usage"
                ("API usage not well documented: " ++ full_call api_call)
                (Some "Check official documentation for correct usage")),
           snd acc).

Definition validate (rag : HybridRAGSystem) : validator :=
  fun code_intent framework code_analysis =>
    let! search_result := hybrid_search rag (framework ++ " " ++ code_intent) framework 5 in
    let! checked := Py.for_each (check rag framework) (calls_of code_analysis) ([], []) in
    let '(issues, validated_items) := checked in
    let confidence := search_confidence search_result in
    let confidence :=
      match calls_of code_analysis with
      | _ :: _ =>
          let validation_rate := Py.len validated_items / Py.len (calls_of code_analysis) in
          (confidence + validation_rate) / 2
      | [] => confidence
      end in
    Ok {| layer := DOCUMENTATION; confidence := confidence; issues := issues;
          validated_items := validated_items;
          metadata := [("search_confidence", PyFloat (search_confidence search_result));
                       ("api_references_found",
                         PyInt (Z.of_nat (List.length (api_references search_result))))];
          processing_time := 0 |}.

End DocumentationValidator.

Module MemoryValidator.

Definition mentions (framework text : string) : bool :=
  Py.contains_str (Py.lower framework) (Py.lower text).

Definition validate (memory_bank : MemoryBank) : validator :=
  fun code_intent framework code_analysis =>
    let! memory_context := get_relevant_context memory_bank (framework ++ " " ++ code_intent) in
    let validated_items :=
      map (fun decision => "Memory decision: " ++ Py.take 50 decision ++ "...")
          (filter (mentions framework) (relevant_decisions memory_context)) in
    let issues :=
      map (fun warning =>
             mkIssue MEMORY MEDIUM "memory_warning"
               ("Past experience warning: " ++ Py.take 100 warning ++ "...")
               (Some "Consider alternative based on memory"))
          (filter (mentions framework) (warnings memory_context)) in
    Ok {| layer := MEMORY; confidence := memory_confidence memory_context;
          issues := issues; validated_items := validated_items;
          metadata := [("relevant_decisions",
                         PyInt (Z.of_nat (List.length (relevant_decisions memory_context))));
                       ("success_factors",
                         PyInt (Z.of_nat (List.length (success_factors memory_context))));
                       ("warnings",
                         PyInt (Z.of_nat (List.length (warnings memory_context))))];
          processing_time := 0 |}.

End MemoryValidator.

Module TypeSafetyValidator.

Definition _check_type_annotations (tree : Ast.ast) : bool :=
  existsb (fun node =>
             match Ast.kind_of node with
             | Ast.FunctionDef _ returns arg_annotations =>
                 returns || existsb (fun a => a) arg_annotations
             | _ => false
             end) (Ast.walk tree).

Definition _check_error_handling (tree : Ast.ast) : bool :=
  existsb (fun node => match Ast.kind_of node with Ast.Try => true | _ => false end)
          (Ast.walk tree).

Definition _check_async_consistency (tree : Ast.ast) : bool :=
  let async_functions :=
    filter (fun node => match Ast.kind_of node with
                        | Ast.AsyncFunctionDef _ => true | _ => false end)
           (Ast.walk tree) in
  let await_calls :=
    filter (fun node => match Ast.kind_of node with Ast.Await => true | _ => false end)
           (Ast.walk tree) in
  (List.length async_functions =? 0)%nat || (0 <? List.length await_calls)%nat.

Definition validate : validator :=
  fun code_intent framework code_analysis =>
    let '(issues, validated_items) :=
      match code_analysis with
      | Some {| ast_tree := Some tree |} =>
          let validated_items :=
            if _check_type_annotations tree then ["Type annotations present"] else [] in
          let issues :=
            if _check_error_handling tree then []
            else [ mkIssue TYPE_SAFETY LOW "missing_error_handling"
                     "No error handling detected"
                     (Some "Add try/except blocks for robustness") ] in
          let issues :=
            if _check_async_consistency tree then issues
            else Py.append issues
                   (mkIssue TYPE_SAFETY MEDIUM "async_inconsistency"
                      "Inconsistent async/await usage"
                      (Some "Ensure async functions are awaited")) in
          (issues, validated_items)
      | _ => ([], [])
      end in
    let confidence := 0.8 in
    let confidence :=
      match validated_items with _ :: _ => confidence + 0.1 | [] => confidence end in
    let confidence :=
      match issues with
      | _ :: _ => confidence - Py.len issues * 0.1
      | [] => confidence
      end in
    let confidence := Py.max 0.0 (Py.min 1.0 confidence) in
    Ok {| layer := TYPE_SAFETY; confidence := confidence; issues := issues;
          validated_items := validated_items;
          metadata := [("checks_performed",
                         PyList ["type_annotations"; "error_handling"; "async_consistency"])];
          processing_time := 0 |}.

End TypeSafetyValidator.

Module ConsensusValidator.

Definition _calculate_std_dev (rt : Runtime) (values : list Q) : Q :=
  match values with
  | [] => 0.0
  | _ =>
      let mean := Py.sum values / Py.len values in
      let variance := Py.sum (map (fun x => (x - mean) * (x - mean)) values) / Py.len values in
      sqrt rt variance
  end.

Definition validate (rt : Runtime) (code_intent framework : string)
           (code_analysis : option CodeAnalysis)
           (layer_results : Py.dict string LayerValidationResult)
  : LayerValidationResult :=
  let confidence_values := map confidence (Py.values layer_results) in
  let confidence_std := _calculate_std_dev rt confidence_values in
  let critical_issues :=
    flat_map (fun result => filter (fun issue => is_critical (severity issue)) (issues result))
             (Py.values layer_results) in
  let issues :=
    if Py.Qlt_bool 0.3 confidence_std
    then [ mkIssue CONSENSUS MEDIUM "layer_disagreement"
             ("High disagreement between validation layers (std: "
              ++ format_fixed2 rt confidence_std ++ ")")
             (Some "Review individual layer results for conflicts") ]
    else [] in
  let issues :=
    match critical_issues with
    | _ :: _ =>
        Py.append issues
          (mkIssue CONSENSUS CRITICAL "critical_consensus_failure"
             ("Multiple layers report critical issues ("
              ++ format_int rt (Z.of_nat (List.length critical_issues)) ++ " total)")
             (Some "Address critical issues before proceeding"))
    | [] => issues
    end in
  let consensus_confidence := Py.max 0.0 (1.0 - confidence_std) in
  let validated_items :=
    match confidence_values with
    | _ :: _ => ["Layer agreement: " ++ format_percent rt consensus_confidence]
    | [] => []
    end in
  {| layer := CONSENSUS; confidence := consensus_confidence; issues := issues;
     validated_items := validated_items;
     metadata := [("confidence_std_dev", PyFloat confidence_std);
                  ("layer_count", PyInt (Z.of_nat (List.length layer_results)));
                  ("critical_issues", PyInt (Z.of_nat (List.length critical_issues)))];
     processing_time := 0 |}.

End ConsensusValidator.

(** *** MultiLayerValidationEngine

    [self.validators] always holds the six entries that [__init__] puts
    there, in the order of the enumeration.  The five entries that
    [validate_code_generation] runs through [_run_validation_layer] are
    fields of the engine; the sixth is the [ConsensusValidator] above.
    The counters [validation_count] and [total_validation_time] do not
    influence any result and are left out. *)

Module MultiLayerValidationEngine.

Record engine := {
  rt : Runtime;
  structural : validator;
  temporal : validator;
  documentation : validator;
  memory : validator;
  type_safety : validator;
  confidence_threshold : Q
}.

Definition __init__ (rt : Runtime) (graphiti_engine : AIDGraphitiEngine)
           (rag_system : HybridRAGSystem) (memory_bank : MemoryBank)
           (confidence_threshold : Q) : engine :=
  {| rt := rt;
     structural := StructuralValidator.validate graphiti_engine;
     temporal := TemporalValidator.validate graphiti_engine;
     documentation := DocumentationValidator.validate rag_system;
     memory := MemoryValidator.validate memory_bank;
     type_safety := TypeSafetyValidator.validate;
     confidence_threshold := confidence_threshold |}.

(** [self.validators.items()] without the consensus entry. *)
Definition validators (self : engine) : list (ValidationLayer * validator) :=
  [ (STRUCTURAL, structural self);
    (TEMPORAL, temporal self);
    (DOCUMENTATION, documentation self);
    (MEMORY, memory self);
    (TYPE_SAFETY, type_safety self) ].

Definition _analyze_code_structure (self : engine) (code : string) : CodeAnalysis :=
  ValidationEngine._analyze_code_structure (rt self) code.

(** The result built when a layer fails, in [_run_validation_layer]
    ([issue_type] "validation_error") and in the loop over the gathered
    results ([issue_type] "layer_failure"). *)
Definition failed_layer (l : ValidationLayer) (issue_type message : string) (e : exn)
           (seconds : Q) : LayerValidationResult :=
  {| layer := l; confidence := 0.0;
     issues := [ mkIssue l CRITICAL issue_type (message ++ e) None ];
     validated_items := [];
     metadata := [("error", PyStr e)];
     processing_time := seconds |}.

Definition _run_validation_layer (self : engine) (v : validator) (l : ValidationLayer)
           (code_intent framework : string) (code_analysis : option CodeAnalysis)
  : outcome LayerValidationResult :=
  match v code_intent framework code_analysis with
  | Ok result => Ok (set_processing_time result (layer_seconds (rt self) (value l)))
  | Raise e =>
      Ok (failed_layer l "validation_error" "Layer validation failed: " e
            (layer_seconds (rt self) (value l)))
  end.

Definition layer_weights : Py.dict string Q :=
  [ (value STRUCTURAL, 0.25);
    (value TEMPORAL, 0.20);
    (value DOCUMENTATION, 0.20);
    (value MEMORY, 0.15);
    (value TYPE_SAFETY, 0.15);
    (value CONSENSUS, 0.05) ].

(** [layer_weights.get(layer_name, 0.0)] *)
Definition weight_of (layer_name : string) : Q :=
  match Py.get String.eqb layer_weights layer_name with
  | Some w => w
  | None => 0.0
  end.

(** The loop [for layer_name, result in layer_results.items()] on
    [(weighted_score, total_weight, confidence_breakdown)]. *)
Definition accumulate (acc : Q * Q * Py.dict string Q)
           (item : string * LayerValidationResult) : Q * Q * Py.dict string Q :=
  let '(weighted_score, total_weight, confidence_breakdown) := acc in
  let '(layer_name, result) := item in
  let weight := weight_of layer_name in
  (weighted_score + confidence result * weight,
   total_weight + weight,
   Py.set String.eqb confidence_breakdown layer_name (confidence result)).

Definition _calculate_consensus_score (layer_results : Py.dict string LayerValidationResult)
  : Q :=
  let '(weighted_score, total_weight, _) := fold_left accumulate layer_results (0.0, 0.0, []) in
  if Py.Qlt_bool 0 total_weight then weighted_score / total_weight else 0.0.

Definition severity_order (s : ValidationSeverity) : Q :=
  match s with
  | CRITICAL => 0 | HIGH => 1 | MEDIUM => 2 | LOW => 3 | INFO => 4
  end.

(** [layer_results.get(name)] is present and its confidence is below 0.8 *)
Definition layer_below (layer_results : Py.dict string LayerValidationResult)
           (l : ValidationLayer) : bool :=
  match Py.get String.eqb layer_results (value l) with
  | Some result => Py.Qlt_bool (confidence result) 0.8
  | None => false
  end.

(** The messages are given without their leading pictograph. *)
Definition _generate_recommendations (self : engine)
           (layer_results : Py.dict string LayerValidationResult)
           (consensus_score : Q) (framework : string) : list string :=
  let critical_issues :=
    flat_map (fun result => filter (fun issue => is_critical (severity issue)) (issues result))
             (Py.values layer_results) in
  ((if Py.Qlt_bool consensus_score 0.5
    then ["Very low confidence - consider alternative approach";
          "Review API documentation for correct usage patterns"]
    else if Py.Qlt_bool consensus_score (confidence_threshold self)
    then ["Moderate confidence - review and refine approach"]
    else [])
   ++ (if layer_below layer_results STRUCTURAL
       then ["Verify API methods exist in framework documentation"] else [])
   ++ (if layer_below layer_results TEMPORAL
       then ["Consider using proven patterns from successful projects"] else [])
   ++ (if layer_below layer_results DOCUMENTATION
       then ["Cross-reference with official framework documentation"] else [])
   ++ (if layer_below layer_results MEMORY
       then ["Review past project decisions for similar use cases"] else [])
   ++ (match critical_issues with
       | _ :: _ => ["Address critical validation issues before proceeding"]
       | [] => []
       end))%list.

Definition newline : string := String (ascii_of_nat 10) EmptyString.

(** [layer_results.get(name).validated_items], [[]] without the layer *)
Definition validated_of (layer_results : Py.dict string LayerValidationResult)
           (l : ValidationLayer) : list string :=
  match Py.get String.eqb layer_results (value l) with
  | Some result => validated_items result
  | None => []
  end.

Definition _generate_validated_approach (self : engine) (code_intent framework : string)
           (layer_results : Py.dict string LayerValidationResult) : string :=
  let proven := validated_of layer_results TEMPORAL in
  let apis := validated_of layer_results STRUCTURAL in
  let approach_parts :=
    [ "# Validated approach for: " ++ code_intent;
      "# Framework: " ++ framework;
      "# Validation confidence: "
        ++ format_percent (rt self) (_calculate_consensus_score layer_results);
      "" ] in
  let approach_parts :=
    match proven with
    | _ :: _ =>
        Py.append
          (Py.extend (Py.append approach_parts "# Proven patterns:")
                     (map (fun item => "# " ++ item) (firstn 3 proven)))
          ""
    | [] => approach_parts
    end in
  let approach_parts :=
    match apis with
    | _ :: _ =>
        Py.append
          (Py.extend (Py.append approach_parts "# Validated APIs:")
                     (map (fun item => "# " ++ item) (firstn 5 apis)))
          ""
    | [] => approach_parts
    end in
  let approach_parts :=
    if String.eqb framework "PydanticAI"
    then Py.extend approach_parts
           [ "from pydantic_ai import Agent";
             "from pydantic import BaseModel";
             "";
             "# Validated agent creation pattern";
             "agent = Agent('openai:gpt-4')  # Correct model format";
             "";
             "# Validated synchronous usage";
             "result = agent.run_sync(user_prompt)";
             "response = result.data  # Correct data access";
             "";
             "# Validated asynchronous usage";
             "# result = await agent.run(user_prompt)";
             "# response = result.data" ]
    else approach_parts in
  Py.join newline approach_parts.

Definition _calculate_final_result (self : engine)
           (layer_results : Py.dict string LayerValidationResult)
           (code_intent framework : string) : ValidationResult :=
  let '(weighted_score, total_weight, confidence_breakdown) :=
    fold_left accumulate layer_results (0.0, 0.0, []) in
  let consensus_score :=
    if Py.Qlt_bool 0 total_weight then weighted_score / total_weight else 0.0 in
  let all_issues := flat_map issues (Py.values layer_results) in
  let all_issues := Py.sorted (fun x => severity_order (severity x)) all_issues in
  let recommendations :=
    _generate_recommendations self layer_results consensus_score framework in
  let validated_approach :=
    if Qle_bool (confidence_threshold self) consensus_score
    then Some (_generate_validated_approach self code_intent framework layer_results)
    else None in
  {| consensus_score := consensus_score;
     layer_results := layer_results;
     overall_issues := all_issues;
     validated_approach := validated_approach;
     confidence_breakdown := confidence_breakdown;
     recommendations := recommendations;
     result_processing_time := 0.0 |}.

(** [validation_result.processing_time = t] *)
Definition set_result_time (r : ValidationResult) (t : Q) : ValidationResult :=
  {| consensus_score := consensus_score r;
     layer_results := layer_results r;
     overall_issues := overall_issues r;
     validated_approach := validated_approach r;
     confidence_breakdown := confidence_breakdown r;
     recommendations := recommendations r;
     result_processing_time := t |}.

(** Step 3 of [validate_code_generation]: what is recorded for one
    gathered result. *)
Definition process (l : ValidationLayer) (gathered : outcome LayerValidationResult)
  : LayerValidationResult :=
  match gathered with
  | Raise e => failed_layer l "layer_failure" "Validation layer failed: " e 0.0
  | Ok result => result
  end.

(** What steps 2 and 3 record for the layer [l] run by the validator
    [v]. *)
Definition recorded (self : engine) (l : ValidationLayer) (v : validator)
           (code_intent framework : string) (code_analysis : option CodeAnalysis)
  : LayerValidationResult :=
  process l (_run_validation_layer self v l code_intent framework code_analysis).

(** Steps 2 and 3: the tasks are gathered with [return_exceptions=True]
    and recorded under [layer.value], in the order of the validators. *)
Definition run_layers (self : engine) (code_intent framework : string)
           (code_analysis : option CodeAnalysis) : Py.dict string LayerValidationResult :=
  let layer_results :=
    map (fun item =>
           _run_validation_layer self (snd item) (fst item) code_intent framework code_analysis)
        (validators self) in
  fold_left (fun processed_results item =>
               Py.set String.eqb processed_results (value (fst (fst item)))
                      (process (fst (fst item)) (snd item)))
            (combine (validators self) layer_results) [].

(** Step 1: [code_analysis = None], replaced by the analysis when
    [generated_code] is given and not empty. *)
Definition analysis_of (self : engine) (generated_code : option string)
  : option CodeAnalysis :=
  match generated_code with
  | Some (String c rest) => Some (_analyze_code_structure self (String c rest))
  | _ => None
  end.

Definition validate_code_generation (self : engine) (code_intent framework : string)
           (generated_code : option string) : outcome ValidationResult :=
  let code_analysis := analysis_of self generated_code in
  let processed_results := run_layers self code_intent framework code_analysis in
  let consensus_result :=
    ConsensusValidator.validate (rt self) code_intent framework code_analysis
                                processed_results in
  let processed_results :=
    Py.set String.eqb processed_results (value CONSENSUS) consensus_result in
  let validation_result :=
    _calculate_final_result self processed_results code_intent framework in
  Ok (set_result_time validation_result (total_seconds (rt self))).

End MultiLayerValidationEngine.

End ValidationEngine.

(** ** validation/hallucination/detection_engine.py *)

Module DetectionEngine.

Import ValidationEngine.

Inductive HallucinationType :=
| NON_EXISTENT_CLASS
| NON_EXISTENT_METHOD
| NON_EXISTENT_PARAMETER
| INCORRECT_IMPORT
| INVALID_SIGNATURE
| INCORRECT_USAGE_PATTERN
| MIXED_FRAMEWORK_APIS
| DEPRECATED_API.

Record Hallucination := {
  type : HallucinationType;
  h_description : string;
  incorrect_usage : string;
  correct_usage : option string;
  h_confidence : Q;
  line_number : option Z;
  h_framework : option string;
  evidence : option (list string)
}.

Record CorrectionSuggestion := {
  original_code : string;
  s_corrected_code : string;
  explanation : string;
  s_confidence : Q;
  validation_sources : list string
}.

(** One entry of [validation_breakdown]. *)
Record Breakdown := {
  b_consensus_score : Q;
  b_issues : nat
}.

Record HallucinationResult := {
  is_hallucination : bool;
  confidence_score : Q;
  detected_hallucinations : list Hallucination;
  corrected_code : option string;
  correction_suggestions : list CorrectionSuggestion;
  validation_breakdown : Py.dict string Breakdown;
  processing_time : Q
}.

(** One value of [framework_patterns]; a key that the literal leaves out
    is the default of the [.get] that reads it. *)
Record FrameworkPatterns := {
  valid_classes : list string;
  invalid_classes : list string;
  valid_methods : Py.dict string (list string);
  invalid_methods : Py.dict string (list string);
  valid_imports : list string;
  invalid_imports : list string;
  common_hallucinations : list string
}.

Definition _load_framework_patterns : Py.dict string FrameworkPatterns :=
  [ ("PydanticAI",
     {| valid_classes := ["Agent"; "RunResult"; "StreamEvent"];
        invalid_classes := ["PydanticAgent"; "AIAgent"; "PydanticAIAgent"];
        valid_methods := [("Agent", ["run"; "run_sync"; "stream"; "__init__"])];
        invalid_methods :=
          [("Agent", ["run_async"; "execute"; "execute_sync"; "sync_run";
                      "add_validation_rule"; "execute_with_memory"; "chat"; "complete"])];
        valid_imports := ["from pydantic_ai import Agent"; "import pydantic_ai"];
        invalid_imports := ["from pydantic_ai import PydanticAgent";
                            "from pydantic import Agent"];
        common_hallucinations :=
          ["agent.add_validation_rule("; "agent.execute_with_memory("; "PydanticAgent(";
           "agent.run_async("; "agent.execute("; "agent.chat("; "agent.complete("] |});
    ("FastAPI",
     {| valid_classes := ["FastAPI"; "Request"; "Response"; "HTTPException"];
        invalid_classes := ["FastAPIApp"; "APIFast"; "FastApp"];
        valid_methods :=
          [("FastAPI", ["get"; "post"; "put"; "delete"; "patch"; "options"; "head"])];
        invalid_methods :=
          [("FastAPI", ["create_route"; "add_endpoint"; "register_handler"])];
        valid_imports := [];
        invalid_imports := [];
        common_hallucinations :=
          ["app.create_route("; "app.add_endpoint("; "FastAPIApp("; "app.register_handler("] |}) ].

Record detector := {
  validation_engine : MultiLayerValidationEngine.engine;
  graphiti_engine : AIDGraphitiEngine;
  rag_system : HybridRAGSystem;
  confidence_threshold : Q;
  hallucination_threshold : Q;
  framework_patterns : Py.dict string FrameworkPatterns
}.

Definition __init__ (validation_engine : MultiLayerValidationEngine.engine)
           (graphiti_engine : AIDGraphitiEngine) (rag_system : HybridRAGSystem) : detector :=
  {| validation_engine := validation_engine;
     graphiti_engine := graphiti_engine;
     rag_system := rag_system;
     confidence_threshold := 0.92;
     hallucination_threshold := 0.3;
     framework_patterns := _load_framework_patterns |}.

Definition runtime (self : detector) : Runtime :=
  MultiLayerValidationEngine.rt (validation_engine self).

(** *** _analyze_code_structure *)

(** [ast.unparse(node.func.value) if hasattr(ast, 'unparse') else
    str(node.func.value)] *)
Definition receiver_name (rt : Runtime) (value_src : string) : outcome string :=
  if has_unparse rt then unparse rt value_src else Ok (node_str rt value_src).

(** The body of [for node in ast.walk(tree)]; the inner [try] ...
    [except: pass] skips a call whose receiver cannot be rendered. *)
Definition visit (rt : Runtime) (acc : Collected) (node : Ast.ast) : Collected :=
  match Ast.kind_of node with
  | Ast.Import names =>
      {| c_imports := Py.extend (c_imports acc) (map (fun n => "import " ++ n) names);
         c_classes := c_classes acc;
         c_methods := c_methods acc; c_function_calls := c_function_calls acc;
         c_api_calls := c_api_calls acc |}
  | Ast.ImportFrom (Some (String c m)) names =>
      {| c_imports := Py.extend (c_imports acc)
           (map (fun n => "from " ++ String c m ++ " import " ++ n) names);
         c_classes := c_classes acc;
         c_methods := c_methods acc; c_function_calls := c_function_calls acc;
         c_api_calls := c_api_calls acc |}
  | Ast.ClassDef name =>
      {| c_imports := c_imports acc; c_classes := Py.append (c_classes acc) name;
         c_methods := c_methods acc; c_function_calls := c_function_calls acc;
         c_api_calls := c_api_calls acc |}
  | Ast.FunctionDef name _ _ =>
      {| c_imports := c_imports acc; c_classes := c_classes acc;
         c_methods := Py.append (c_methods acc) name;
         c_function_calls := c_function_calls acc;
         c_api_calls := c_api_calls acc |}
  | Ast.Call (Ast.Attribute value_src method_name) lineno =>
      match receiver_name rt value_src with
      | Ok obj_name =>
          {| c_imports := c_imports acc; c_classes := c_classes acc;
             c_methods := c_methods acc;
             c_function_calls :=
               Py.append (c_function_calls acc) (obj_name ++ "." ++ method_name);
             c_api_calls := Py.append (c_api_calls acc)
               {| object := obj_name; method := method_name;
                  full_call := obj_name ++ "." ++ method_name;
                  line := Some lineno |} |}
      | Raise _ => acc
      end
  | Ast.Call (Ast.Name id) _ =>
      {| c_imports := c_imports acc; c_classes := c_classes acc;
         c_methods := c_methods acc;
         c_function_calls := Py.append (c_function_calls acc) id;
         c_api_calls := c_api_calls acc |}
  | _ => acc
  end.

Definition _analyze_code_structure (self : detector) (code : string) : CodeAnalysis :=
  match ast_parse (runtime self) code with
  | Ok tree =>
      let acc := fold_left (visit (runtime self)) (Ast.walk tree) nothing_collected in
      {| imports := c_imports acc;
         classes := c_classes acc;
         methods := c_methods acc;
         function_calls := c_function_calls acc;
         api_calls := c_api_calls acc;
         frameworks := detect_frameworks (c_imports acc);
         patterns := [];
         ast_tree := Some tree |}
  | Raise _ => empty_analysis
  end.

(** *** Similarities and the search for a correct name *)

Definition _calculate_pattern_similarity (code1 code2 : string) : Q :=
  let tokens1 := Py.to_set (Py.findall_words (Py.lower code1)) in
  let tokens2 := Py.to_set (Py.findall_words (Py.lower code2)) in
  match tokens1, tokens2 with
  | [], _ | _, [] => 0.0
  | _, _ =>
      let intersection := List.length (Py.intersection tokens1 tokens2) in
      let union := List.length (Py.union tokens1 tokens2) in
      if (0 <? union)%nat then Py.float_of_nat intersection / Py.float_of_nat union else 0.0
  end.

Definition _string_similarity (s1 s2 : string) : Q :=
  let s1_lower := Py.lower s1 in
  let s2_lower := Py.lower s2 in
  if String.eqb s1_lower s2_lower then 1.0
  else
    let common_chars :=
      List.length (filter (fun c => Py.char_in c s2_lower) (list_ascii_of_string s1_lower)) in
    let total_chars := (String.length s1_lower + String.length s2_lower)%nat in
    if (0 <? total_chars)%nat
    then (2 * Py.float_of_nat common_chars) / Py.float_of_nat total_chars
    else 0.0.

(** [for v in valid: if similarity(incorrect, v) > bound: return v], then
    [valid[0] if valid else None]. *)
Definition most_similar (bound : Q) (incorrect : string) (valid : list string)
  : option string :=
  match find (fun v => Py.Qlt_bool bound (_string_similarity incorrect v)) valid with
  | Some v => Some v
  | None => hd_error valid
  end.

Definition _find_correct_class (incorrect_class : string) (valid_classes : list string)
  : option string :=
  most_similar 0.6 incorrect_class valid_classes.

Definition method_mappings : Py.dict string string :=
  [ ("run_async", "run");
    ("execute", "run_sync");
    ("execute_sync", "run_sync");
    ("sync_run", "run_sync");
    ("chat", "run_sync");
    ("complete", "run_sync") ].

Definition _find_correct_method (incorrect_method : string) (valid_methods : list string)
  : option string :=
  match Py.get String.eqb method_mappings incorrect_method with
  | Some m => Some m
  | None => most_similar 0.6 incorrect_method valid_methods
  end.

Definition _find_correct_import (incorrect_import : string) (valid_imports : list string)
  : option string :=
  if Py.contains_str "PydanticAgent" incorrect_import
  then Some "from pydantic_ai import Agent"
  else most_similar 0.5 incorrect_import valid_imports.

(** *** _detect_framework_hallucinations *)

Definition lookup_methods (table : Py.dict string (list string)) (obj_name : string)
  : list string :=
  match Py.get String.eqb table obj_name with
  | Some ms => ms
  | None => []
  end.

Definition invalid_class_findings (framework : string) (patterns : FrameworkPatterns)
           (code_analysis : CodeAnalysis) : list Hallucination :=
  map (fun class_name =>
         {| type := NON_EXISTENT_CLASS;
            h_description := "Class '" ++ class_name ++ "' does not exist in " ++ framework;
            incorrect_usage := class_name;
            correct_usage := _find_correct_class class_name (valid_classes patterns);
            h_confidence := 0.95;
            line_number := None;
            h_framework := Some framework;
            evidence := Some ["Valid classes: " ++ Py.repr_list (valid_classes patterns)] |})
      (filter (fun class_name => Py.mem class_name (invalid_classes patterns))
              (classes code_analysis)).

(** The finding for one API call found in [invalid_methods]. *)
Definition invalid_method_finding (framework : string) (patterns : FrameworkPatterns)
           (api_call : ApiCall) : Hallucination :=
  let obj_name := object api_call in
  let method_name := method api_call in
  let valid := lookup_methods (valid_methods patterns) obj_name in
  {| type := NON_EXISTENT_METHOD;
     h_description := "Method '" ++ obj_name ++ "." ++ method_name
                      ++ "' does not exist in " ++ framework;
     incorrect_usage := obj_name ++ "." ++ method_name;
     correct_usage :=
       match _find_correct_method method_name valid with
       | Some (String c m) => Some (obj_name ++ "." ++ String c m)
       | _ => None
       end;
     h_confidence := 0.98;
     line_number := line api_call;
     h_framework := Some framework;
     evidence := Some ["Valid methods for " ++ obj_name ++ ": " ++ Py.repr_list valid] |}.

Definition is_invalid_method (patterns : FrameworkPatterns) (api_call : ApiCall) : bool :=
  Py.mem (method api_call) (lookup_methods (invalid_methods patterns) (object api_call)).

Definition invalid_method_findings (framework : string) (patterns : FrameworkPatterns)
           (code_analysis : CodeAnalysis) : list Hallucination :=
  map (invalid_method_finding framework patterns)
      (filter (is_invalid_method patterns) (api_calls code_analysis)).

Definition invalid_import_findings (framework : string) (patterns : FrameworkPatterns)
           (code_analysis : CodeAnalysis) : list Hallucination :=
  map (fun import_stmt =>
         {| type := INCORRECT_IMPORT;
            h_description := "Invalid import statement for " ++ framework;
            incorrect_usage := import_stmt;
            correct_usage := _find_correct_import import_stmt (valid_imports patterns);
            h_confidence := 0.9;
            line_number := None;
            h_framework := Some framework;
            evidence := Some ["Valid imports: " ++ Py.repr_list (valid_imports patterns)] |})
      (filter (fun import_stmt =>
                 existsb (fun invalid => Py.contains_str invalid import_stmt)
                         (invalid_imports patterns))
              (imports code_analysis)).

Definition common_pattern_findings (framework : string) (patterns : FrameworkPatterns)
           (code : string) : list Hallucination :=
  map (fun hallucination_pattern =>
         {| type := INCORRECT_USAGE_PATTERN;
            h_description := "Common hallucination pattern detected: " ++ hallucination_pattern;
            incorrect_usage := hallucination_pattern;
            correct_usage := None;
            h_confidence := 0.92;
            line_number := None;
            h_framework := Some framework;
            evidence := Some ["Known common AI hallucination pattern"] |})
      (filter (fun hallucination_pattern => Py.contains_str hallucination_pattern code)
              (common_hallucinations patterns)).

Definition _detect_framework_hallucinations (self : detector) (code : string)
           (code_analysis : CodeAnalysis) (frameworks : list string) : list Hallucination :=
  flat_map (fun framework =>
    match Py.get String.eqb (framework_patterns self) framework with
    | None => []
    | Some patterns =>
        (invalid_class_findings framework patterns code_analysis
         ++ invalid_method_findings framework patterns code_analysis
         ++ invalid_import_findings framework patterns code_analysis
         ++ common_pattern_findings framework patterns code)%list
    end) frameworks.

(** *** _detect_pattern_hallucinations *)

Definition failed_pattern_findings (self : detector) (code framework : string)
           (failed_patterns : list TemporalEngine.Pattern) : list Hallucination :=
  flat_map (fun pattern =>
    let pattern_similarity :=
      _calculate_pattern_similarity code (TemporalEngine.code_template pattern) in
    if Py.Qlt_bool 0.7 pattern_similarity
    then [ {| type := INCORRECT_USAGE_PATTERN;
              h_description := "Code matches historically failed pattern: "
                               ++ TemporalEngine.name pattern;
              incorrect_usage := Py.take 100 (TemporalEngine.code_template pattern);
              correct_usage := None;
              h_confidence := pattern_similarity;
              line_number := None;
              h_framework := Some framework;
              evidence :=
                Some ["Pattern failed "
                      ++ format_int (runtime self) (TemporalEngine.usage_count pattern)
                      ++ " times with "
                      ++ format_percent (runtime self) (TemporalEngine.success_rate pattern)
                      ++ " success rate"] |} ]
    else []) failed_patterns.

Definition _detect_pattern_hallucinations (self : detector) (code : string)
           (code_analysis : CodeAnalysis) (frameworks : list string)
  : outcome (list Hallucination) :=
  Py.for_each (fun hallucinations framework =>
                 let! failed_patterns :=
                   query_failed_patterns (graphiti_engine self) framework 365 in
                 Ok (Py.extend hallucinations
                       (failed_pattern_findings self code framework failed_patterns)))
              frameworks [].

(** *** _detect_knowledge_hallucinations *)

(** The dict returned by [_check_structural_existence]. *)
Record Existence := {
  exists_ : bool;
  suggestion : option string;
  error : option string
}.

Definition _check_structural_existence (self : detector) (api_call : ApiCall)
           (framework : string) : Existence :=
  match match_method (graphiti_engine self) framework (object api_call) (method api_call) with
  | Raise e => {| exists_ := false; suggestion := None; error := Some e |}
  | Ok (Some _) => {| exists_ := true; suggestion := None; error := None |}
  | Ok None =>
      match match_levenshtein (graphiti_engine self) framework (method api_call) with
      | Raise e => {| exists_ := false; suggestion := None; error := Some e |}
      | Ok suggestion_record =>
          {| exists_ := false;
             suggestion := option_map (fun r => fst r ++ "." ++ snd r) suggestion_record;
             error := None |}
      end
  end.

(** One turn of [for api_call in code_analysis.api_calls]. *)
Definition cross_check (self : detector) (framework : string)
           (hallucinations : list Hallucination) (api_call : ApiCall)
  : outcome (list Hallucination) :=
  let! rag_validation :=
    validate_api_usage (rag_system self) (full_call api_call) framework in
  let hallucinations :=
    if negb (is_valid rag_validation) || Py.Qlt_bool (rag_confidence rag_validation) 0.5
    then Py.append hallucinations
           {| type := NON_EXISTENT_METHOD;
              h_description := "API call not validated by documentation: "
                               ++ full_call api_call;
              incorrect_usage := full_call api_call;
              correct_usage := None;
              h_confidence := 1.0 - rag_confidence rag_validation;
              line_number := line api_call;
              h_framework := Some framework;
              evidence := Some (rag_issues rag_validation) |}
    else hallucinations in
  let structural_exists := _check_structural_existence self api_call framework in
  if exists_ structural_exists
  then Ok hallucinations
  else Ok (Py.append hallucinations
             {| type := NON_EXISTENT_METHOD;
                h_description := "API not found in knowledge graph: " ++ full_call api_call;
                incorrect_usage := full_call api_call;
                correct_usage := suggestion structural_exists;
                h_confidence := 0.95;
                line_number := line api_call;
                h_framework := Some framework;
                evidence := Some ["Not found in validated API structure"] |}).

Definition _detect_knowledge_hallucinations (self : detector) (code : string)
           (code_analysis : CodeAnalysis) (frameworks : list string)
  : outcome (list Hallucination) :=
  Py.for_each (fun hallucinations framework =>
                 Py.for_each (cross_check self framework) (api_calls code_analysis)
                             hallucinations)
              frameworks [].

(** *** _calculate_confidence_score *)

Definition is_critical_type (t : HallucinationType) : bool :=
  match t with
  | NON_EXISTENT_CLASS | NON_EXISTENT_METHOD => true
  | _ => false
  end.

Definition _calculate_confidence_score (validation_results : Py.dict string ValidationResult)
           (hallucinations : list Hallucination) : Q :=
  match validation_results with
  | [] => 0.0
  | _ =>
      let avg_validation_confidence :=
        Py.sum (map consensus_score (Py.values validation_results))
        / Py.len validation_results in
      let hallucination_penalty := Py.min 0.8 (Py.len hallucinations * 0.2) in
      let critical_hallucinations :=
        filter (fun h => is_critical_type (type h)) hallucinations in
      let critical_penalty := Py.min 0.5 (Py.len critical_hallucinations * 0.3) in
      let final_confidence :=
        Py.max 0.0 (avg_validation_confidence - hallucination_penalty - critical_penalty) in
      final_confidence
  end.

(** *** _generate_corrections *)

(** One turn of [for hallucination in sorted_hallucinations] on
    [(corrected_code, correction_suggestions)]. *)
Definition apply_correction (acc : string * list CorrectionSuggestion) (h : Hallucination)
  : string * list CorrectionSuggestion :=
  match correct_usage h with
  | Some (String c u) =>
      let old_code := fst acc in
      let corrected_code := Py.replace old_code (incorrect_usage h) (String c u) in
      if negb (String.eqb corrected_code old_code)
      then (corrected_code,
            Py.append (snd acc)
              {| original_code := incorrect_usage h;
                 s_corrected_code := String c u;
                 explanation := h_description h;
                 s_confidence := h_confidence h;
                 validation_sources := match evidence h with
                                       | Some sources => sources
                                       | None => []
                                       end |})
      else (corrected_code, snd acc)
  | _ => acc
  end.

Definition _generate_corrections (self : detector) (original_code : string)
           (hallucinations : list Hallucination) (frameworks : list string)
  : outcome (option string * list CorrectionSuggestion) :=
  let sorted_hallucinations := Py.sorted_reverse h_confidence hallucinations in
  let '(corrected_code, correction_suggestions) :=
    fold_left apply_correction sorted_hallucinations (original_code, []) in
  if negb (String.eqb corrected_code original_code)
  then
    let! validation_result :=
      MultiLayerValidationEngine.validate_code_generation
        (validation_engine self) "corrected code validation"
        (match frameworks with f :: _ => f | [] => "Unknown" end)
        (Some corrected_code) in
    if Py.Qlt_bool (consensus_score validation_result) 0.8
    then Ok (None, correction_suggestions)
    else Ok (Some corrected_code, correction_suggestions)
  else Ok (Some corrected_code, correction_suggestions).

(** *** detect_hallucination *)

(** Step 2: [validation_results[framework] = validation] for every
    requested framework. *)
Definition validate_frameworks (self : detector) (generated_code code_intent : string)
           (frameworks : list string) : outcome (Py.dict string ValidationResult) :=
  Py.for_each (fun validation_results framework =>
                 let! validation :=
                   MultiLayerValidationEngine.validate_code_generation
                     (validation_engine self) code_intent framework (Some generated_code) in
                 Ok (Py.set String.eqb validation_results framework validation))
              frameworks [].

Definition detect_hallucination (self : detector) (generated_code : string)
           (frameworks : list string) (code_intent : option string)
  : outcome HallucinationResult :=
  let code_analysis := _analyze_code_structure self generated_code in
  let! validation_results :=
    validate_frameworks self generated_code
      (match code_intent with
       | Some (String c i) => String c i
       | _ => "code validation"
       end) frameworks in
  let framework_hallucinations :=
    _detect_framework_hallucinations self generated_code code_analysis frameworks in
  let! pattern_hallucinations :=
    _detect_pattern_hallucinations self generated_code code_analysis frameworks in
  let! knowledge_hallucinations :=
    _detect_knowledge_hallucinations self generated_code code_analysis frameworks in
  let all_hallucinations :=
    (framework_hallucinations ++ pattern_hallucinations ++ knowledge_hallucinations)%list in
  let confidence_score := _calculate_confidence_score validation_results all_hallucinations in
  let flagged :=
    (0 <? List.length all_hallucinations)%nat
    && Py.Qlt_bool confidence_score (hallucination_threshold self) in
  let! corrections :=
    match all_hallucinations with
    | _ :: _ =>
        if Py.Qlt_bool confidence_score (hallucination_threshold self)
        then _generate_corrections self generated_code all_hallucinations frameworks
        else Ok (None, [])
    | [] => Ok (None, [])
    end in
  Ok {| is_hallucination := flagged;
        confidence_score := confidence_score;
        detected_hallucinations := all_hallucinations;
        corrected_code := fst corrections;
        correction_suggestions := snd corrections;
        validation_breakdown :=
          map (fun item =>
                 (fst item,
                  {| b_consensus_score := consensus_score (snd item);
                     b_issues := List.length (overall_issues (snd item)) |}))
              validation_results;
        processing_time := detection_seconds (runtime self) |}.

End DetectionEngine.

(** ** Vocabulary of the specification

    The formulas of the specification, written from its words, to be
    compared with what the code computes. *)

Module Spec.

Import ValidationEngine DetectionEngine.

(** A confidence or a rate: a number of [[0,1]]. *)
Definition in_unit (x : Q) : Prop := 0 <= x <= 1.

(** The six layer results that the orchestrator combines, keyed by the
    layer's value in the order in which [validate_code_generation] records
    them. *)
Definition six_layers (s t d m ty c : LayerValidationResult)
  : Py.dict string LayerValidationResult :=
  [ (value STRUCTURAL, s); (value TEMPORAL, t); (value DOCUMENTATION, d);
    (value MEMORY, m); (value TYPE_SAFETY, ty); (value CONSENSUS, c) ].

(** new_rate = (old_rate * count + outcome) / (count + 1) *)
Definition incremental_rate (old_rate : Q) (count : Z) (success : bool) : Q :=
  (old_rate * inject_Z count + (if success then 1 else 0)) / inject_Z (count + 1).

Definition HallucinationType_eq_dec (a b : HallucinationType) : {a = b} + {a <> b}.
Proof. decide equality. Defined.

(** avg *)
Definition average (xs : list Q) : Q :=
  fold_right Qplus 0 xs / inject_Z (Z.of_nat (List.length xs)).

(** A finding whose type is non-existent class or non-existent method. *)
Definition class_or_method (h : Hallucination) : bool :=
  if HallucinationType_eq_dec (type h) NON_EXISTENT_CLASS then true
  else if HallucinationType_eq_dec (type h) NON_EXISTENT_METHOD then true
  else false.

Definition number_of {A : Type} (p : A -> bool) (xs : list A) : Q :=
  inject_Z (Z.of_nat (List.length (filter p xs))).

(** avg(consensus scores) - min(0.8, 0.2 x #findings)
    - min(0.5, 0.3 x #class-or-method findings), floored at 0 *)
Definition overall_confidence (scores : list Q) (findings : list Hallucination) : Q :=
  Qmax 0 (average scores
          - Qmin 0.8 (0.2 * number_of (fun _ => true) findings)
          - Qmin 0.5 (0.3 * number_of class_or_method findings)).

(** Derived patterns with a success pattern of similarity above 0.7. *)
Definition validated_matches (patterns : list string)
           (successful : list TemporalEngine.Pattern) : nat :=
  List.length
    (filter (fun p =>
               existsb (fun sp =>
                          Py.Qlt_bool 0.7
                            (TemporalValidator._pattern_similarity p
                               (TemporalEngine.code_template sp)))
                       successful)
            patterns).

(** Pairs of a derived pattern and a failure pattern of similarity above
    0.8. *)
Definition raised_issues (patterns : list string) (failed : list TemporalEngine.Pattern)
  : nat :=
  list_sum
    (map (fun p =>
            List.length
              (filter (fun fp =>
                         Py.Qlt_bool 0.8
                           (TemporalValidator._pattern_similarity p
                              (TemporalEngine.code_template fp)))
                      failed))
         patterns).

(** base 0.8, +0.1 per validated match (cap 0.95), -0.2 per issue
    (floor 0.2) *)
Definition temporal_confidence (matches issues : nat) : Q :=
  Qmax 0.2 (Qmin 0.95 (0.8 + 0.1 * inject_Z (Z.of_nat matches))
            - 0.2 * inject_Z (Z.of_nat issues)).

End Spec.

(** ** Concrete collaborators

    A small runtime, store, retrieval system and memory bank on which the
    model is run. *)

Module Scenario.
Import ValidationEngine ValidationEngine.MultiLayerValidationEngine DetectionEngine.

(** Heron's iteration for [** 0.5]. *)
Fixpoint heron (steps : nat) (x guess : Q) : Q :=
  match steps with
  | O => guess
  | S k => heron k x (Qred ((guess + x / guess) / 2))
  end.

Definition expr_statement (func : Ast.call_func) : Ast.ast :=
  Ast.Node Ast.Other                                   (* Module *)
    [ Ast.Node Ast.Other                               (* Expr *)
        [ Ast.Node (Ast.Call func 1)                   (* Call *)
            [ Ast.Node Ast.Other                       (* Attribute *)
                [ Ast.Node Ast.Other [Ast.Node Ast.Other []];   (* Name, Load *)
                  Ast.Node Ast.Other [] ];             (* Load *)
              Ast.Node Ast.Other [] ] ] ].             (* Constant *)

(** A parser that knows the empty program and two one-line programs, and
    rejects every other text. *)
Definition parse (code : string) : outcome Ast.ast :=
  if String.eqb code ""
  then Ok (Ast.Node Ast.Other [])
  else if String.eqb code "Agent.chat('hi')"
  then Ok (expr_statement (Ast.Attribute "Agent" "chat"))
  else if String.eqb code "Agent.run_sync('hi')"
  then Ok (expr_statement (Ast.Attribute "Agent" "run_sync"))
  else Raise "SyntaxError: invalid syntax".

Definition runtime : Runtime :=
  {| ast_parse := parse;
     has_unparse := true;
     unparse := fun value_src => Ok value_src;
     node_str := fun _ => "<ast.Name object>";
     sqrt := fun x => heron 4 x 1;
     format_percent := fun _ => "?%";
     format_fixed2 := fun _ => "?";
     format_int := fun _ => "?";
     layer_seconds := fun _ => 0;
     total_seconds := 0;
     detection_seconds := 0 |}.

Definition success_pattern : TemporalEngine.Pattern :=
  {| TemporalEngine.id := "pattern_PydanticAI_sync_run_1";
     TemporalEngine.name := "sync_run";
     TemporalEngine.framework := "PydanticAI";
     TemporalEngine.pattern_type := "success";
     TemporalEngine.code_template := "Agent.run_sync pattern";
     TemporalEngine.success_rate := 0.95;
     TemporalEngine.use_cases := ["chat"];
     TemporalEngine.metadata := [];
     TemporalEngine.created_at := 0;
     TemporalEngine.last_used := 0;
     TemporalEngine.usage_count := 3 |}.

Definition failure_pattern : TemporalEngine.Pattern :=
  {| TemporalEngine.id := "pattern_PydanticAI_chat_call_2";
     TemporalEngine.name := "chat_call";
     TemporalEngine.framework := "PydanticAI";
     TemporalEngine.pattern_type := "failure";
     TemporalEngine.code_template := "Agent.chat pattern";
     TemporalEngine.success_rate := 0.1;
     TemporalEngine.use_cases := [];
     TemporalEngine.metadata := [];
     TemporalEngine.created_at := 0;
     TemporalEngine.last_used := 0;
     TemporalEngine.usage_count := 7 |}.

(** A store that knows [Agent.run], [Agent.run_sync] and [Agent.stream]
    of PydanticAI and holds no pattern. *)
Definition store : AIDGraphitiEngine :=
  {| query_successful_patterns := fun _ _ _ => Ok [];
     query_failed_patterns := fun _ _ => Ok [];
     match_method := fun framework class_name method_name =>
       Ok (if String.eqb framework "PydanticAI" && String.eqb class_name "Agent"
              && Py.mem method_name ["run"; "run_sync"; "stream"]
           then Some ("(prompt)", 1)
           else None);
     match_similar := fun _ _ _ => Ok [];
     match_levenshtein := fun _ _ => Ok None |}.

(** The same store with one success and one failure pattern. *)
Definition store_with_patterns : AIDGraphitiEngine :=
  {| query_successful_patterns := fun _ _ _ => Ok [success_pattern];
     query_failed_patterns := fun _ _ => Ok [failure_pattern];
     match_method := match_method store;
     match_similar := match_similar store;
     match_levenshtein := match_levenshtein store |}.

(** A store whose pattern queries fail. *)
Definition unavailable_store : AIDGraphitiEngine :=
  {| query_successful_patterns := fun _ _ _ => Raise "ServiceUnavailable";
     query_failed_patterns := fun _ _ => Raise "ServiceUnavailable";
     match_method := match_method store;
     match_similar := match_similar store;
     match_levenshtein := match_levenshtein store |}.

Definition rag (search : Q) : HybridRAGSystem :=
  {| hybrid_search := fun _ _ _ => Ok {| search_confidence := search; api_references := [] |};
     validate_api_usage := fun api_call _ =>
       Ok (if String.eqb api_call "Agent.run_sync"
           then {| is_valid := true; rag_confidence := 0.9; rag_issues := [] |}
           else {| is_valid := false; rag_confidence := 0.1;
                   rag_issues := ["not found in the documentation"] |}) |}.

Definition memory_bank (confidence : Q) : MemoryBank :=
  {| get_relevant_context := fun _ =>
       Ok {| relevant_decisions := []; success_factors := []; warnings := [];
             memory_confidence := confidence |} |}.

Definition engine : MultiLayerValidationEngine.engine :=
  MultiLayerValidationEngine.__init__ runtime store (rag 0.9) (memory_bank 0.9) 0.92.

Definition detector : DetectionEngine.detector :=
  DetectionEngine.__init__ engine store (rag 0.9).



Definition unavailable_engine : MultiLayerValidationEngine.engine :=
  MultiLayerValidationEngine.__init__ runtime unavailable_store (rag 0.9) (memory_bank 0.9) 0.92.

Definition layer_result (l : ValidationLayer) (confidence : Q) : LayerValidationResult :=
  {| layer := l; confidence := confidence; issues := []; validated_items := [];
     metadata := []; ValidationEngine.processing_time := 0 |}.

Definition validation_result (score : Q) : ValidationResult :=
  {| consensus_score := score; layer_results := []; overall_issues := [];
     validated_approach := None; confidence_breakdown := []; recommendations := [];
     result_processing_time := 0 |}.

(** A pattern that was never used, alone in its store. *)
Definition fresh_pattern : TemporalEngine.Pattern :=
  {| TemporalEngine.id := "pattern_PydanticAI_sync_run_1";
     TemporalEngine.name := "sync_run";
     TemporalEngine.framework := "PydanticAI";
     TemporalEngine.pattern_type := "neutral";
     TemporalEngine.code_template := "Agent.run_sync pattern";
     TemporalEngine.success_rate := 0;
     TemporalEngine.use_cases := [];
     TemporalEngine.metadata := [];
     TemporalEngine.created_at := 0;
     TemporalEngine.last_used := 0;
     TemporalEngine.usage_count := 0 |}.

Definition pattern_store : TemporalEngine.Store :=
  {| TemporalEngine.patterns := [fresh_pattern]; TemporalEngine.now := 1 |}.

Definition chat_call : ApiCall :=
  {| object := "Agent"; method := "chat"; full_call := "Agent.chat"; line := Some 1%Z |}.

Definition pydantic_patterns : FrameworkPatterns :=
  match Py.get String.eqb _load_framework_patterns "PydanticAI" with
  | Some patterns => patterns
  | None => {| valid_classes := []; invalid_classes := []; valid_methods := [];
               invalid_methods := []; valid_imports := []; invalid_imports := [];
               common_hallucinations := [] |}
  end.

End Scenario.
(** ** knowledge_graph/graphiti/temporal_engine.py: query results *)

Module TemporalQuery.

Import TemporalEngine.

Record TemporalEntity := {
  e_id : string;
  e_name : string;
  e_type : string;
  e_properties : list (string * string);
  e_created_at : Q;
  e_updated_at : Q;
  version : Z;
  e_confidence : Q
}.

Record TemporalRelationship := {
  r_id : string;
  source_id : string;
  target_id : string;
  relationship_type : string;
  r_properties : list (string * string);
  valid_from : Q;
  valid_to : option Q;
  r_confidence : Q;
  r_evidence : option (list string)
}.

(** The three loops of [_calculate_query_confidence] on
    [(total_confidence, total_items)]. *)
Definition add_entity (acc : Q * nat) (entity : TemporalEntity) : Q * nat :=
  (fst acc + e_confidence entity, S (snd acc)).

Definition add_relationship (acc : Q * nat) (relationship : TemporalRelationship) : Q * nat :=
  (fst acc + r_confidence relationship, S (snd acc)).

Definition add_pattern (acc : Q * nat) (pattern : Pattern) : Q * nat :=
  let pattern_confidence := (success_rate pattern + inject_Z (usage_count pattern) / 100) / 2 in
  (fst acc + Py.min pattern_confidence 1.0, S (snd acc)).

Definition _calculate_query_confidence (entities : list TemporalEntity)
           (relationships : list TemporalRelationship) (patterns : list Pattern) : Q :=
  match entities, relationships, patterns with
  | [], [], [] => 0.0
  | _, _, _ =>
      let acc := fold_left add_entity entities (0.0, O) in
      let acc := fold_left add_relationship relationships acc in
      let acc := fold_left add_pattern patterns acc in
      if (0 <? snd acc)%nat then fst acc / Py.float_of_nat (snd acc) else 0.0
  end.

End TemporalQuery.

(** ** knowledge_graph/rag/hybrid_search.py

    The ranking of search results, the confidence of a search and the
    verdict of [validate_api_usage].  The vector store, the graph store and
    [hybrid_search] itself, which only assembles their answers, are calls
    made through [backends]. *)

Module HybridSearch.

Import ValidationEngine.

Record SearchResult := {
  content : string;
  source : string;
  relevance_score : Q;
  metadata : Py.dict string py_value;
  result_type : string
}.

Record APIReference := {
  ref_framework : string;
  ref_class_name : string;
  ref_method_name : string;
  ref_signature : string;
  ref_description : string;
  ref_examples : list string;
  ref_parameters : Py.dict string string;
  ref_return_type : string;
  ref_confidence : Q
}.

Record HybridSearchResult := {
  results : list SearchResult;
  hs_confidence : Q;
  search_metadata : Py.dict string py_value;
  api_references : list APIReference;
  patterns : list string
}.

(** One record of the graph query of [validate_api_usage]. *)
Record ApiStructure := {
  class_name : string;
  method_name : string;
  signature : string;
  description : string;
  item_confidence : Q;
  examples : list string
}.

Record ValidationResult := {
  is_valid : bool;
  v_confidence : Q;
  api_structure : list ApiStructure;
  documentation_examples : list SearchResult;
  issues : list string;
  suggestions : list string
}.

Record backends := {
  (* self.hybrid_search(query, framework, max_results) *)
  hybrid_search : string -> string -> Z -> outcome HybridSearchResult;
  (* MATCH ... WHERE m.name CONTAINS $api_call OR c.name CONTAINS $api_call
     ... ORDER BY m.confidence DESC LIMIT 5: framework, $api_call *)
  match_api : string -> string -> outcome (list ApiStructure)
}.

(** *** Equality of dataclass instances ([==]), used by [list.remove] *)

Fixpoint strings_eqb (xs ys : list string) : bool :=
  match xs, ys with
  | [], [] => true
  | x :: xs', y :: ys' => String.eqb x y && strings_eqb xs' ys'
  | _, _ => false
  end.

Definition py_value_eqb (a b : py_value) : bool :=
  match a, b with
  | PyStr s, PyStr t => String.eqb s t
  | PyFloat x, PyFloat y => Qeq_bool x y
  | PyInt n, PyInt m => Z.eqb n m
  | PyInt n, PyFloat y => Qeq_bool (inject_Z n) y
  | PyFloat x, PyInt m => Qeq_bool x (inject_Z m)
  | PyList xs, PyList ys => strings_eqb xs ys
  | _, _ => false
  end.

(** Two dicts are equal when they have the same keys with equal values,
    in any order. *)
Definition dict_eqb (a b : Py.dict string py_value) : bool :=
  (List.length a =? List.length b)%nat
  && forallb (fun item =>
                match Py.get String.eqb b (fst item) with
                | Some v => py_value_eqb (snd item) v
                | None => false
                end) a.

Definition result_eqb (a b : SearchResult) : bool :=
  String.eqb (content a) (content b)
  && String.eqb (source a) (source b)
  && Qeq_bool (relevance_score a) (relevance_score b)
  && dict_eqb (metadata a) (metadata b)
  && String.eqb (result_type a) (result_type b).

(** [xs.remove(x)]: the first element equal to [x] is dropped. *)
Fixpoint remove (x : SearchResult) (xs : list SearchResult) : list SearchResult :=
  match xs with
  | [] => []
  | y :: rest => if result_eqb y x then rest else y :: remove x rest
  end.

(** *** _calculate_content_similarity *)

Definition _calculate_content_similarity (content1 content2 : string) : Q :=
  let words1 := Py.to_set (Py.split (Py.lower content1)) in
  let words2 := Py.to_set (Py.split (Py.lower content2)) in
  match words1, words2 with
  | [], _ | _, [] => 0.0
  | _, _ =>
      let intersection := List.length (Py.intersection words1 words2) in
      let union := List.length (Py.union words1 words2) in
      if (0 <? union)%nat then Py.float_of_nat intersection / Py.float_of_nat union else 0.0
  end.

(** *** _combine_search_results *)

(** [result.relevance_score *= weight] *)
Definition weighted (weight : Q) (result : SearchResult) : SearchResult :=
  {| content := content result;
     source := source result;
     relevance_score := relevance_score result * weight;
     metadata := metadata result;
     result_type := result_type result |}.

Definition is_duplicate_of (result existing : SearchResult) : bool :=
  Py.Qlt_bool 0.8 (_calculate_content_similarity (content result) (content existing)).

(** One turn of [for result in all_results]: the inner loop stops at the
    first similar result already kept. *)
Definition keep_unique (unique_results : list SearchResult) (result : SearchResult)
  : list SearchResult :=
  match find (is_duplicate_of result) unique_results with
  | Some existing =>
      if Py.Qlt_bool (relevance_score existing) (relevance_score result)
      then Py.append (remove existing unique_results) result
      else unique_results
  | None => Py.append unique_results result
  end.

Definition _combine_search_results (vector_results graph_results : list SearchResult)
  : list SearchResult :=
  let all_results :=
    Py.extend (map (weighted 0.7) vector_results) (map (weighted 0.8) graph_results) in
  let all_results := Py.sorted_reverse relevance_score all_results in
  fold_left keep_unique all_results [].

(** *** _calculate_search_confidence *)

Definition type_weight (result : SearchResult) : Q :=
  if String.eqb (result_type result) "graph" then 1.2
  else if String.eqb (result_type result) "vector" then 1.0
  else 1.0.

Definition add_score (acc : Q * Q) (result : SearchResult) : Q * Q :=
  (fst acc + relevance_score result * type_weight result, snd acc + type_weight result).

Definition _calculate_search_confidence (results : list SearchResult) : Q :=
  match results with
  | [] => 0.0
  | _ =>
      let '(total_score, total_weight) := fold_left add_score results (0.0, 0.0) in
      let base_confidence :=
        if Py.Qlt_bool 0 total_weight then total_score / total_weight else 0.0 in
      let result_types := Py.to_set (map result_type results) in
      let type_diversity_bonus := Py.len result_types * 0.1 in
      Py.min (base_confidence + type_diversity_bonus) 1.0
  end.

(** *** validate_api_usage *)

(** [api_call.split('.')[-1]] *)
Fixpoint last_segment_from (s cur : string) : string :=
  match s with
  | EmptyString => cur
  | String c rest =>
      if Ascii.eqb c "."%char then last_segment_from rest EmptyString
      else last_segment_from rest (cur ++ String c EmptyString)
  end.

Definition last_segment (s : string) : string := last_segment_from s EmptyString.

(** [max(item["confidence"] for item in api_structure)] of a non-empty
    list. *)
Definition max_confidence (first : ApiStructure) (rest : list ApiStructure) : Q :=
  fold_left (fun best item => Py.max best (item_confidence item)) rest (item_confidence first).

Definition validate_api_usage (self : backends) (api_call framework : string)
  : outcome ValidationResult :=
  let! search_result :=
    hybrid_search self (framework ++ " " ++ api_call ++ " usage example") framework 5 in
  let! api_structure := match_api self framework (last_segment api_call) in
  let '(is_valid, confidence, issues, suggestions) :=
    match api_structure with
    | item :: rest => (true, max_confidence item rest, [], [])
    | [] =>
        match api_references search_result with
        | _ :: _ =>
            (true, hs_confidence search_result * 0.8, [],
             ["API found in documentation but not in validated structure"])
        | [] =>
            (false, 0.0,
             ["API '" ++ api_call ++ "' not found in " ++ framework
              ++ " documentation or knowledge graph"],
             ["Check " ++ framework ++ " documentation for correct API usage";
              "Consider using a validated alternative from the knowledge graph"])
        end
    end in
  let '(issues, confidence) :=
    if Py.Qlt_bool (hs_confidence search_result) 0.7
    then (Py.append issues "Low confidence in documentation match", confidence * 0.8)
    else (issues, confidence) in
  Ok {| is_valid := is_valid;
        v_confidence := confidence;
        api_structure := api_structure;
        documentation_examples := firstn 3 (results search_result);
        issues := issues;
        suggestions := suggestions |}.

End HybridSearch.

(** ** Reference definitions

    Structural definitions against which the traversals of the code are
    compared. *)

Module Reference.

Import ValidationEngine.

(** The nodes of a tree, parents before children. *)
Fixpoint nodes (t : Ast.ast) : list Ast.ast :=
  match t with
  | Ast.Node k cs => Ast.Node k cs :: flat_map nodes cs
  end.

(** The receiver and the method of a node that is a call through an
    attribute. *)
Definition attribute_call (node : Ast.ast) : list (string * string) :=
  match Ast.kind_of node with
  | Ast.Call (Ast.Attribute obj_name method_name) _ => [(obj_name, method_name)]
  | _ => []
  end.

Definition attribute_calls (t : Ast.ast) : list (string * string) :=
  flat_map attribute_call (nodes t).

(** Whether the analyser of the validation engine can name the receiver of
    such a call. *)
Definition renders (rt : Runtime) (call : string * string) : bool :=
  match receiver_name rt (fst call) with
  | Ok _ => true
  | Raise _ => false
  end.

(** The Jaccard index of two sets of words: the size of the intersection
    over the size of the union, and 0 when a set is empty. *)
Definition jaccard (a b : list string) : Q :=
  match a, b with
  | [], _ | _, [] => 0
  | _, _ =>
      inject_Z (Z.of_nat (List.length (Py.intersection a b)))
      / inject_Z (Z.of_nat (List.length (Py.union a b)))
  end.

(** The orders that [sorted] and [sorted(..., reverse=True)] establish. *)
Definition ascending {A : Type} (key : A -> Q) (a b : A) : Prop := key a <= key b.
Definition descending {A : Type} (key : A -> Q) (a b : A) : Prop := key b <= key a.

(** The elements with a given key, in order. *)
Definition with_key {A : Type} (key : A -> Q) (k : Q) (xs : list A) : list A :=
  filter (fun a => Qeq_bool (key a) k) xs.

(** A stored pattern is well formed: a rate in [[0,1]] and a count that is
    not negative. *)
Definition well_formed (p : TemporalEngine.Pattern) : Prop :=
  Spec.in_unit (TemporalEngine.success_rate p) /\ (0 <= TemporalEngine.usage_count p)%Z.

End Reference.

(** ** More concrete collaborators *)

Module Examples.

Import ValidationEngine ValidationEngine.MultiLayerValidationEngine DetectionEngine.

(** A store that cannot be reached at all. *)
Definition unreachable_store : AIDGraphitiEngine :=
  {| query_successful_patterns := fun _ _ _ => Raise "ServiceUnavailable";
     query_failed_patterns := fun _ _ => Raise "ServiceUnavailable";
     match_method := fun _ _ _ => Raise "ServiceUnavailable";
     match_similar := fun _ _ _ => Raise "ServiceUnavailable";
     match_levenshtein := fun _ _ => Raise "ServiceUnavailable" |}.

(** A detector whose pattern queries fail, and one whose store cannot be
    reached at all. *)
Definition unavailable_detector : DetectionEngine.detector :=
  DetectionEngine.__init__ Scenario.engine Scenario.unavailable_store (Scenario.rag 0.9).

Definition unreachable_detector : DetectionEngine.detector :=
  DetectionEngine.__init__ Scenario.engine unreachable_store (Scenario.rag 0.9).

(** Two search results and the back ends of a documentation search that
    finds [Agent.run_sync] in the graph. *)
Definition graph_hit : HybridSearch.SearchResult :=
  {| HybridSearch.content := "Method: run_sync Class: Agent";
     HybridSearch.source := "graph";
     HybridSearch.relevance_score := 0.9;
     HybridSearch.metadata := [];
     HybridSearch.result_type := "graph" |}.

Definition vector_hit : HybridSearch.SearchResult :=
  {| HybridSearch.content := "Agent.run_sync runs the agent synchronously";
     HybridSearch.source := "docs";
     HybridSearch.relevance_score := 0.8;
     HybridSearch.metadata := [];
     HybridSearch.result_type := "vector" |}.

Definition documentation : HybridSearch.backends :=
  {| HybridSearch.hybrid_search := fun _ _ _ =>
       Ok {| HybridSearch.results := [graph_hit; vector_hit];
             HybridSearch.hs_confidence := 0.9;
             HybridSearch.search_metadata := [];
             HybridSearch.api_references := [];
             HybridSearch.patterns := [] |};
     HybridSearch.match_api := fun _ api_call =>
       Ok (if String.eqb api_call "run_sync"
           then [ {| HybridSearch.class_name := "Agent";
                     HybridSearch.method_name := "run_sync";
                     HybridSearch.signature := "(prompt)";
                     HybridSearch.description := "";
                     HybridSearch.item_confidence := 0.95;
                     HybridSearch.examples := [] |} ]
           else []) |}.

End Examples.

(** * Properties *)

Unset Implicit Arguments.

(** ** Arithmetic of the runtime *)

Section PyFacts.

Lemma Qlt_bool_iff (x y : Q) : Py.Qlt_bool x y = true <-> x < y.
Proof.
  unfold Py.Qlt_bool. rewrite negb_true_iff.
  split; intro H.
  - apply Qnot_le_lt. intro Hle. apply Qle_bool_iff in Hle. congruence.
  - destruct (Qle_bool y x) eqn:E; [|reflexivity].
    apply Qle_bool_iff in E. exfalso. apply (Qlt_not_le _ _ H E).
Qed.

Lemma Qlt_bool_false_iff (x y : Q) : Py.Qlt_bool x y = false <-> y <= x.
Proof.
  unfold Py.Qlt_bool. rewrite negb_false_iff. apply Qle_bool_iff.
Qed.

Lemma Qlt_bool_cases (x y : Q) :
  (Py.Qlt_bool x y = true /\ x < y) \/ (Py.Qlt_bool x y = false /\ y <= x).
Proof.
  destruct (Py.Qlt_bool x y) eqn:E.
  - left. split; [reflexivity | now apply Qlt_bool_iff].
  - right. split; [reflexivity | now apply Qlt_bool_false_iff].
Qed.

Lemma min_spec (a b : Q) : (b < a /\ Py.min a b = b) \/ (a <= b /\ Py.min a b = a).
Proof.
  unfold Py.min. destruct (Qlt_bool_cases b a) as [[-> H] | [-> H]]; auto.
Qed.

Lemma max_spec (a b : Q) : (a < b /\ Py.max a b = b) \/ (b <= a /\ Py.max a b = a).
Proof.
  unfold Py.max. destruct (Qlt_bool_cases a b) as [[-> H] | [-> H]]; auto.
Qed.

Lemma min_Qmin (a b : Q) : Py.min a b == Qmin a b.
Proof.
  destruct (min_spec a b) as [[H ->] | [H ->]].
  - symmetry. apply Q.min_r. lra.
  - symmetry. apply Q.min_l. exact H.
Qed.

Lemma max_Qmax (a b : Q) : Py.max a b == Qmax a b.
Proof.
  destruct (max_spec a b) as [[H ->] | [H ->]].
  - symmetry. apply Q.max_r. lra.
  - symmetry. apply Q.max_l. exact H.
Qed.

Lemma fold_left_Qplus (xs : list Q) (a : Q) :
  fold_left Qplus xs a == a + fold_right Qplus 0 xs.
Proof.
  revert a. induction xs as [|x xs IH]; intro a; simpl.
  - lra.
  - rewrite IH. lra.
Qed.

Lemma sum_cons (x : Q) (xs : list Q) : Py.sum (x :: xs) == x + Py.sum xs.
Proof.
  unfold Py.sum. simpl. rewrite !fold_left_Qplus. lra.
Qed.

Lemma sum_bounds (xs : list Q) :
  Forall (fun x => 0 <= x <= 1) xs -> 0 <= Py.sum xs <= Py.len xs.
Proof.
  induction 1 as [|x xs Hx _ IH].
  - unfold Py.sum, Py.len, Py.float_of_nat. simpl. change (inject_Z 0) with 0. lra.
  - rewrite sum_cons. unfold Py.len, Py.float_of_nat in *.
    cbn [List.length]. rewrite Nat2Z.inj_succ, <- Z.add_1_r, inject_Z_plus.
    change (inject_Z 1) with 1. lra.
Qed.

Lemma len_app {A : Type} (xs ys : list A) : Py.len (xs ++ ys) == Py.len xs + Py.len ys.
Proof.
  unfold Py.len, Py.float_of_nat.
  rewrite length_app, Nat2Z.inj_add, inject_Z_plus. reflexivity.
Qed.

Lemma len_nonneg {A : Type} (xs : list A) : 0 <= Py.len xs.
Proof.
  unfold Py.len, Py.float_of_nat.
  change 0 with (inject_Z 0). rewrite <- Zle_Qle. lia.
Qed.

Lemma len_cons {A : Type} (x : A) (xs : list A) : Py.len (x :: xs) == 1 + Py.len xs.
Proof.
  change (x :: xs) with ([x] ++ xs)%list. rewrite len_app. reflexivity.
Qed.

End PyFacts.

(** Case analysis on every [min] and [max] of the goal, innermost first,
    leaving linear arithmetic. *)
Ltac case_min_max :=
  repeat match goal with
         | |- context [Py.min ?a ?b] => destruct (min_spec a b) as [[? ->] | [? ->]]
         | |- context [Py.max ?a ?b] => destruct (max_spec a b) as [[? ->] | [? ->]]
         end.

Lemma bind_Ok {A B : Type} (m : outcome A) (k : A -> outcome B) (b : B) :
  Py.bind m k = Ok b -> exists a, m = Ok a /\ k a = Ok b.
Proof.
  destruct m as [a|e]; simpl; intro H; [eauto | discriminate].
Qed.

Lemma filter_true {A : Type} (xs : list A) : filter (fun _ => true) xs = xs.
Proof. induction xs; simpl; congruence. Qed.

Lemma len_filter_le {A : Type} (p : A -> bool) (xs : list A) :
  Py.len (filter p xs) <= Py.len xs.
Proof.
  unfold Py.len, Py.float_of_nat. rewrite <- Zle_Qle.
  apply inj_le. apply filter_length_le.
Qed.

Lemma average_in_unit (xs : list Q) :
  xs <> [] -> Forall Spec.in_unit xs -> Spec.in_unit (Py.sum xs / Py.len xs).
Proof.
  intros Hne H. apply sum_bounds in H.
  assert (Hlen : 0 < Py.len xs).
  { destruct xs as [|x xs]; [congruence|].
    rewrite len_cons. pose proof (len_nonneg xs). lra. }
  split.
  - apply Qle_shift_div_l; [exact Hlen | lra].
  - apply Qle_shift_div_r; [exact Hlen | lra].
Qed.

(** ** The syntax tree walk *)

Section Walk.

Import Ast.

Lemma forest_size_app (ts us : list ast) :
  forest_size (ts ++ us) = (forest_size ts + forest_size us)%nat.
Proof.
  unfold forest_size. now rewrite map_app, list_sum_app.
Qed.

Lemma forest_size_cons (t : ast) (ts : list ast) :
  forest_size (t :: ts) = (S (forest_size (children_of t)) + forest_size ts)%nat.
Proof.
  destruct t as [k cs]. reflexivity.
Qed.

(** The fuel of [walk] is enough: more fuel yields the same nodes, so the
    queue is empty when the walk stops. *)
Lemma walk_queue_more_fuel (n m : nat) (todo : list ast) :
  (forest_size todo <= n)%nat -> walk_queue (n + m) todo = walk_queue n todo.
Proof.
  revert todo. induction n as [|n IH]; intros todo H.
  - destruct todo as [|t rest].
    + destruct m; reflexivity.
    + rewrite forest_size_cons in H. lia.
  - destruct todo as [|t rest]; [reflexivity|].
    cbn [Nat.add walk_queue]. f_equal. apply IH.
    rewrite forest_size_cons in H. rewrite forest_size_app. lia.
Qed.

Lemma walk_length (t : ast) : List.length (walk t) = size t.
Proof.
  unfold walk.
  assert (H : forall n todo, (forest_size todo <= n)%nat ->
                             List.length (walk_queue n todo) = forest_size todo).
  { induction n as [|n IH]; intros todo Hle.
    - destruct todo as [|u rest]; [reflexivity|]. rewrite forest_size_cons in Hle. lia.
    - destruct todo as [|u rest]; [reflexivity|].
      cbn [walk_queue List.length]. rewrite IH.
      + rewrite forest_size_app, forest_size_cons. lia.
      + rewrite forest_size_cons in Hle. rewrite forest_size_app. lia. }
  rewrite H; unfold forest_size; cbn [map list_sum fold_right]; lia.
Qed.

End Walk.

(** ** Pattern usage (temporal_engine.py) *)

Section PatternUsage.

Import TemporalEngine.

(** What the SET clause of [update_pattern_usage] leaves on a node: the
    counter is incremented by one, and the rate is computed from the
    counter that the first item has already incremented. *)
Lemma update_query_effect (success : bool) (now : Q) (p : Pattern) :
  let p' := cypher_set (update_query success now) p in
  usage_count p' = (usage_count p + 1)%Z
  /\ last_used p' = now
  /\ success_rate p'
     == (success_rate p * inject_Z (usage_count p + 1) + (if success then 1 else 0))
        / inject_Z (usage_count p + 1 + 1).
Proof.
  destruct success; cbn; repeat split; try reflexivity.
  apply Qdiv_comp; [ring | reflexivity].
Qed.

(** The rate stays a rate. *)
Lemma update_query_rate_in_unit (success : bool) (now : Q) (p : Pattern) :
  (0 <= usage_count p)%Z -> Spec.in_unit (success_rate p) ->
  Spec.in_unit (success_rate (cypher_set (update_query success now) p)).
Proof.
  unfold Spec.in_unit. intros Hcount Hrate.
  destruct (update_query_effect success now p) as (_ & _ & ->).
  assert (Hc : 0 <= inject_Z (usage_count p)).
  { change 0 with (inject_Z 0). now rewrite <- Zle_Qle. }
  rewrite !inject_Z_plus. change (inject_Z 1) with 1.
  set (c := inject_Z (usage_count p)) in *. set (x := success_rate p) in *.
  assert (Hx : 0 <= x * (c + 1) <= c + 1) by (split; nra).
  split.
  - apply Qle_shift_div_l; [lra|]. destruct success; lra.
  - apply Qle_shift_div_r; [lra|]. destruct success; lra.
Qed.

(** C7, evaluated on a pattern that was never used (rate 0, count 0) and
    is used with success for the first time: the counter becomes 1, and
    the returned rate is 1/2, whereas (old_rate * count + outcome) /
    (count + 1) is 1. *)
Theorem update_pattern_usage_first_success :
  let '(st, returned) :=
    update_pattern_usage Scenario.pattern_store "pattern_PydanticAI_sync_run_1" true in
  map usage_count (patterns st) = [1%Z]
  /\ (exists new_rate, returned = Some new_rate /\ new_rate == 1 # 2)
  /\ Spec.incremental_rate (success_rate Scenario.fresh_pattern)
                           (usage_count Scenario.fresh_pattern) true == 1.
Proof.
  cbn. split; [reflexivity|]. split; [|reflexivity].
  eexists. split; reflexivity.
Qed.

End PatternUsage.

(** ** The orchestrator (validation_engine.py) *)

Section Orchestrator.

Import ValidationEngine ValidationEngine.MultiLayerValidationEngine.

Lemma weights_sum_to_one : Py.sum (Py.values layer_weights) == 1.
Proof. reflexivity. Qed.

(** [validate_code_generation] always returns, and its result holds one
    entry per layer: the five recorded results and the consensus result. *)
Lemma validate_code_generation_layers (self : engine) (code_intent framework : string)
      (generated_code : option string) :
  exists res,
    validate_code_generation self code_intent framework generated_code = Ok res
    /\ let ca := analysis_of self generated_code in
       exists c,
         layer_results res
         = Spec.six_layers
             (recorded self STRUCTURAL (structural self) code_intent framework ca)
             (recorded self TEMPORAL (temporal self) code_intent framework ca)
             (recorded self DOCUMENTATION (documentation self) code_intent framework ca)
             (recorded self MEMORY (memory self) code_intent framework ca)
             (recorded self TYPE_SAFETY (type_safety self) code_intent framework ca)
             c.
Proof.
  eexists. split; [reflexivity|].
  cbv zeta. eexists. reflexivity.
Qed.

(** C1: for six layer results with confidences in [0,1], the consensus
    score of [_calculate_final_result] is structural*0.25 + temporal*0.20 +
    documentation*0.20 + memory*0.15 + type_safety*0.15 + consensus*0.05,
    it lies in [0,1], and the weights sum to 1.0. *)
Theorem consensus_score_fixed_weights
  (self : engine) (code_intent framework : string)
  (s t d m ty c : LayerValidationResult) :
  Spec.in_unit (confidence s) -> Spec.in_unit (confidence t) ->
  Spec.in_unit (confidence d) -> Spec.in_unit (confidence m) ->
  Spec.in_unit (confidence ty) -> Spec.in_unit (confidence c) ->
  let result :=
    _calculate_final_result self (Spec.six_layers s t d m ty c) code_intent framework in
  consensus_score result
  == confidence s * 0.25 + confidence t * 0.20 + confidence d * 0.20
     + confidence m * 0.15 + confidence ty * 0.15 + confidence c * 0.05
  /\ Spec.in_unit (consensus_score result)
  /\ Py.sum (Py.values layer_weights) == 1.0.
Proof.
  intros Hs Ht Hd Hm Hty Hc result. unfold Spec.in_unit in *.
  assert (E : consensus_score result
              == confidence s * 0.25 + confidence t * 0.20 + confidence d * 0.20
                 + confidence m * 0.15 + confidence ty * 0.15 + confidence c * 0.05).
  { subst result. unfold _calculate_final_result, Spec.six_layers.
    cbn [fold_left accumulate consensus_score].
    change (weight_of (value STRUCTURAL)) with 0.25.
    change (weight_of (value TEMPORAL)) with 0.20.
    change (weight_of (value DOCUMENTATION)) with 0.20.
    change (weight_of (value MEMORY)) with 0.15.
    change (weight_of (value TYPE_SAFETY)) with 0.15.
    change (weight_of (value CONSENSUS)) with 0.05.
    change (Py.Qlt_bool 0 (0.0 + 0.25 + 0.20 + 0.20 + 0.15 + 0.15 + 0.05)) with true.
    cbv iota. field. }
  split; [exact E|]. split; [rewrite E; lra | reflexivity].
Qed.

Lemma consensus_score_fixed_weights_witness :
  Spec.in_unit 1 /\ Spec.in_unit 0.8 /\ Spec.in_unit 0.05
  /\ Spec.in_unit
       (consensus_score
          (_calculate_final_result Scenario.engine
             (Spec.six_layers (Scenario.layer_result STRUCTURAL 1)
                              (Scenario.layer_result TEMPORAL 0.8)
                              (Scenario.layer_result DOCUMENTATION 0.8)
                              (Scenario.layer_result MEMORY 0.05)
                              (Scenario.layer_result TYPE_SAFETY 0.8)
                              (Scenario.layer_result CONSENSUS 0.8))
             "create an agent" "PydanticAI")).
Proof.
  assert (H1 : Spec.in_unit 1) by (unfold Spec.in_unit; lra).
  assert (H2 : Spec.in_unit 0.8) by (unfold Spec.in_unit; lra).
  assert (H3 : Spec.in_unit 0.05) by (unfold Spec.in_unit; lra).
  split; [exact H1|]. split; [exact H2|]. split; [exact H3|].
  exact (proj1 (proj2
    (consensus_score_fixed_weights Scenario.engine "create an agent" "PydanticAI"
       (Scenario.layer_result STRUCTURAL 1) (Scenario.layer_result TEMPORAL 0.8)
       (Scenario.layer_result DOCUMENTATION 0.8) (Scenario.layer_result MEMORY 0.05)
       (Scenario.layer_result TYPE_SAFETY 0.8) (Scenario.layer_result CONSENSUS 0.8)
       H1 H2 H2 H3 H2 H2))).
Defined.



(** What is recorded for a layer does not depend on the validators of the
    other layers: two engines on the same runtime that run the same
    validator for a layer record the same result for it. *)
Lemma recorded_layer_is_independent
  (self self' : engine) (code_intent framework : string) (generated_code : option string)
  (l : ValidationLayer) (v : validator) (res res' : ValidationResult) :
  rt self' = rt self ->
  In (l, v) (validators self) -> In (l, v) (validators self') ->
  validate_code_generation self code_intent framework generated_code = Ok res ->
  validate_code_generation self' code_intent framework generated_code = Ok res' ->
  Py.get String.eqb (layer_results res') (value l)
  = Py.get String.eqb (layer_results res) (value l).
Proof.
  intros Hrt Hin Hin' Hres Hres'.
  destruct (validate_code_generation_layers self code_intent framework generated_code)
    as (r & Hr & c & Hlayers).
  destruct (validate_code_generation_layers self' code_intent framework generated_code)
    as (r' & Hr' & c' & Hlayers').
  rewrite Hr in Hres. injection Hres as <-.
  rewrite Hr' in Hres'. injection Hres' as <-.
  rewrite Hlayers, Hlayers'.
  assert (Hca : analysis_of self' generated_code = analysis_of self generated_code).
  { unfold analysis_of, _analyze_code_structure. now rewrite Hrt. }
  assert (Hrec : forall l0 v0 ca, recorded self' l0 v0 code_intent framework ca
                                  = recorded self l0 v0 code_intent framework ca).
  { intros. unfold recorded, _run_validation_layer. now rewrite Hrt. }
  rewrite Hca.
  unfold validators in Hin, Hin'. simpl in Hin, Hin'.
  repeat (destruct Hin as [Hin | Hin];
          [ inversion Hin; subst;
            repeat (destruct Hin' as [Hin' | Hin'];
                    [ first [ discriminate Hin'
                            | inversion Hin'; subst; cbn; rewrite Hrec; congruence ] | ]);
            contradiction | ]).
  contradiction.
Qed.
(** C9 as stated fails on the empty string, which it counts among the
    texts that fail to parse: [ast.parse] accepts the empty string and
    returns a module without statements, so the analyser takes the
    [try] branch to its end and returns an analysis that carries the
    parsed tree, not the analysis with all fields empty. *)
Lemma empty_string_is_parsed :
  ast_parse (rt Scenario.engine) "" = Ok (Ast.Node Ast.Other [])
  /\ ast_tree (_analyze_code_structure Scenario.engine "") = Some (Ast.Node Ast.Other [])
  /\ _analyze_code_structure Scenario.engine "" <> empty_analysis.
Proof.
  split; [reflexivity|]. split; [reflexivity|]. discriminate.
Qed.

(** C9, amended: for a code string that does not parse, the analyser
    returns the analysis with all fields empty (it cannot raise); on that
    analysis the Structural validator returns confidence 0.8 without
    issue; and for such a code string [validate_code_generation] returns a
    result whose structural layer has confidence 0.8.  The empty string is
    not such a string: it parses to a module without statements, and the
    analyser called on it returns empty lists together with the parsed
    tree; the orchestrator does not call the analyser on it, passes no
    analysis to the validators, and returns a result whose structural
    layer has confidence 0.8 as well. *)
Theorem unparsable_code_degrades
  (self : engine) (g : AIDGraphitiEngine) (code_intent framework code : string) (e : exn) :
  structural self = StructuralValidator.validate g ->
  ast_parse (rt self) "" = Ok (Ast.Node Ast.Other []) ->
  ast_parse (rt self) code = Raise e ->
  _analyze_code_structure self code = empty_analysis
  /\ (exists r,
         StructuralValidator.validate g code_intent framework (Some empty_analysis) = Ok r
         /\ confidence r = 0.8 /\ issues r = [])
  /\ (exists res lr,
         validate_code_generation self code_intent framework (Some code) = Ok res
         /\ Py.get String.eqb (layer_results res) (value STRUCTURAL) = Some lr
         /\ confidence lr = 0.8 /\ issues lr = [])
  /\ _analyze_code_structure self ""
     = {| imports := []; classes := []; methods := []; function_calls := [];
          api_calls := []; frameworks := []; patterns := [];
          ast_tree := Some (Ast.Node Ast.Other []) |}
  /\ analysis_of self (Some "") = None
  /\ (exists res lr,
         validate_code_generation self code_intent framework (Some "") = Ok res
         /\ Py.get String.eqb (layer_results res) (value STRUCTURAL) = Some lr
         /\ confidence lr = 0.8 /\ issues lr = []).
Proof.
  intros Hstructural Hempty Hparse.
  assert (Hanalysis : _analyze_code_structure self code = empty_analysis).
  { unfold _analyze_code_structure, ValidationEngine._analyze_code_structure.
    now rewrite Hparse. }
  assert (Hcall : forall text,
             analysis_of self (Some text) = None
             \/ analysis_of self (Some text) = Some empty_analysis ->
             exists res lr,
               validate_code_generation self code_intent framework (Some text) = Ok res
               /\ Py.get String.eqb (layer_results res) (value STRUCTURAL) = Some lr
               /\ confidence lr = 0.8 /\ issues lr = []).
  { intros text Htext.
    destruct (validate_code_generation_layers self code_intent framework (Some text))
      as (res & Hres & c & Hlayers).
    exists res. eexists. split; [exact Hres|]. rewrite Hlayers.
    split; [reflexivity|].
    unfold recorded, _run_validation_layer. rewrite Hstructural.
    destruct Htext as [-> | ->]; split; reflexivity. }
  split; [exact Hanalysis|]. split; [|split; [|split; [|split]]].
  - eexists. split; [reflexivity|]. split; reflexivity.
  - apply Hcall. right.
    destruct code as [|ch rest]; [congruence|].
    cbn [analysis_of]. now rewrite Hanalysis.
  - unfold _analyze_code_structure, ValidationEngine._analyze_code_structure.
    rewrite Hempty. reflexivity.
  - reflexivity.
  - apply Hcall. left. reflexivity.
Qed.

Lemma unparsable_code_degrades_witness :
  _analyze_code_structure Scenario.engine "def broken(:" = empty_analysis
  /\ exists res lr,
       validate_code_generation Scenario.engine "create an agent" "PydanticAI"
         (Some "def broken(:") = Ok res
       /\ Py.get String.eqb (layer_results res) (value STRUCTURAL) = Some lr
       /\ confidence lr = 0.8 /\ issues lr = [].
Proof.
  destruct (unparsable_code_degrades Scenario.engine Scenario.store "create an agent"
              "PydanticAI" "def broken(:" "SyntaxError: invalid syntax"
              eq_refl eq_refl eq_refl)
    as (Hanalysis & _ & Hcall & _).
  split; [exact Hanalysis | exact Hcall].
Defined.

(** The analysis of a program without statements: a module node alone. *)
Lemma analysis_of_empty_module (self : engine) (code : string) :
  ast_parse (rt self) code = Ok (Ast.Node Ast.Other []) ->
  let a := _analyze_code_structure self code in
  imports a = [] /\ classes a = [] /\ methods a = [] /\ function_calls a = []
  /\ api_calls a = [] /\ frameworks a = [] /\ patterns a = [].
Proof.
  intro Hparse.
  unfold _analyze_code_structure, ValidationEngine._analyze_code_structure.
  rewrite Hparse. cbn. repeat split.
Qed.

End Orchestrator.

(** ** The Temporal validator (validation_engine.py) *)

Section Temporal.

Import ValidationEngine ValidationEngine.TemporalValidator.

Lemma first_success_exists (successful : list TemporalEngine.Pattern) (p : string) :
  match first_success p successful with Some _ => true | None => false end
  = existsb (fun sp => Py.Qlt_bool 0.7
               (_pattern_similarity p (TemporalEngine.code_template sp))) successful.
Proof.
  unfold first_success.
  induction successful as [|sp sps IH]; simpl; [reflexivity|].
  destruct (Py.Qlt_bool 0.7 _); [reflexivity | exact IH].
Qed.

Lemma raised_issues_cons (failed : list TemporalEngine.Pattern) (p : string)
      (ps : list string) :
  Spec.raised_issues (p :: ps) failed
  = (List.length (failures p failed) + Spec.raised_issues ps failed)%nat.
Proof.
  unfold Spec.raised_issues, failures. cbn [map list_sum]. now rewrite length_map.
Qed.

Lemma validated_matches_cons (successful : list TemporalEngine.Pattern) (p : string)
      (ps : list string) :
  Spec.validated_matches (p :: ps) successful
  = ((match first_success p successful with Some _ => 1 | None => 0 end)
     + Spec.validated_matches ps successful)%nat.
Proof.
  unfold Spec.validated_matches. cbn [filter].
  rewrite <- first_success_exists.
  destruct (first_success p successful); reflexivity.
Qed.

Lemma validated_matches_without_success (patterns : list string) :
  Spec.validated_matches patterns [] = 0%nat.
Proof.
  unfold Spec.validated_matches.
  induction patterns as [|p ps IH]; [reflexivity | exact IH].
Qed.

(** The two lists after the loop over the derived patterns. *)
Lemma check_loop (successful failed : list TemporalEngine.Pattern)
      (patterns : list string) (acc : list ValidationIssue * list string) :
  let out := fold_left (check successful failed) patterns acc in
  List.length (fst out)
  = (List.length (fst acc) + Spec.raised_issues patterns failed)%nat
  /\ List.length (snd out)
     = (List.length (snd acc) + Spec.validated_matches patterns successful)%nat.
Proof.
  revert acc. induction patterns as [|p ps IH]; intro acc.
  - cbn. split; lia.
  - cbn [fold_left]. destruct (IH (check successful failed acc p)) as [IHi IHv].
    cbv zeta. rewrite IHi, IHv, raised_issues_cons, validated_matches_cons.
    unfold check, Py.extend, Py.append. cbn [fst snd].
    rewrite length_app.
    destruct (first_success p successful); [rewrite length_app; cbn [List.length]|]; lia.
Qed.

(** C8: the confidence of the Temporal validator is the base 0.8, plus 0.1
    for each validated match (a derived pattern with a success pattern of
    similarity above 0.7), capped at 0.95, minus 0.2 for each issue (a
    derived pattern and a failure pattern of similarity above 0.8), floored
    at 0.2. *)
Theorem temporal_confidence_formula
  (g : AIDGraphitiEngine) (code_intent framework : string)
  (code_analysis : option CodeAnalysis) (r : LayerValidationResult) :
  validate g code_intent framework code_analysis = Ok r ->
  exists successful failed,
    query_successful_patterns g framework 0.8 180 = Ok successful
    /\ query_failed_patterns g framework 180 = Ok failed
    /\ let derived := match code_analysis with Some a => patterns a | None => [] end in
       List.length (validated_items r) = Spec.validated_matches derived successful
       /\ List.length (issues r) = Spec.raised_issues derived failed
       /\ confidence r
          == Spec.temporal_confidence (List.length (validated_items r))
                                      (List.length (issues r)).
Proof.
  unfold validate. intro H.
  apply bind_Ok in H as (successful & Hs & H).
  apply bind_Ok in H as (failed & Hf & H).
  exists successful, failed. split; [exact Hs|]. split; [exact Hf|]. cbv zeta.
  set (derived := match code_analysis with Some a => patterns a | None => [] end).
  assert (Hloop : exists found validated,
             match code_analysis with
             | Some a => fold_left (check successful failed) (patterns a) ([], [])
             | None => ([], [])
             end = (found, validated)
             /\ List.length found = Spec.raised_issues derived failed
             /\ List.length validated = Spec.validated_matches derived successful).
  { subst derived. destruct code_analysis as [a|].
    - pose proof (check_loop successful failed (patterns a) ([], [])) as Hl.
      cbv zeta in Hl.
      destruct (fold_left _ _ _) as [found validated]. exists found, validated.
      cbn in Hl. intuition.
    - exists [], []. repeat split. }
  destruct Hloop as (found & validated & Hfold & Hfound & Hvalidated).
  rewrite Hfold in H. injection H as <-. cbn [validated_items issues confidence].
  split; [exact Hvalidated|]. split; [exact Hfound|].
  unfold Spec.temporal_confidence.
  change (inject_Z (Z.of_nat (List.length validated))) with (Py.len validated).
  change (inject_Z (Z.of_nat (List.length found))) with (Py.len found).
  pose proof (len_nonneg validated) as Hv0.
  pose proof (len_nonneg found) as Hi0.
  assert (Hv : successful = [] -> Py.len validated == 0).
  { intros ->. unfold Py.len. rewrite Hvalidated, validated_matches_without_success.
    reflexivity. }
  assert (Hi : found = [] -> Py.len found == 0) by (intros ->; reflexivity).
  assert (Hi1 : found <> [] -> 1 <= Py.len found).
  { destruct found; [congruence|]. intros _. rewrite len_cons.
    pose proof (len_nonneg found). lra. }
  set (v := Py.len validated) in *. set (i := Py.len found) in *.
  destruct (Q.max_spec 0.2 (Qmin 0.95 (0.8 + 0.1 * v) - 0.2 * i)) as [[? ->] | [? ->]];
    destruct (Q.min_spec 0.95 (0.8 + 0.1 * v)) as [[? Hmin] | [? Hmin]];
    rewrite ?Hmin in *;
    destruct successful as [|sp sps]; destruct found as [|f fs];
    try (specialize (Hv eq_refl)); try (specialize (Hi eq_refl));
    try (assert (1 <= i) by (apply Hi1; discriminate));
    case_min_max; lra.
Qed.

Lemma temporal_confidence_formula_witness :
  exists r,
    validate Scenario.store_with_patterns "create an agent" "PydanticAI"
      (Some (analyze_tree Scenario.runtime (Scenario.expr_statement (Ast.Attribute "Agent" "run_sync"))))
    = Ok r
    /\ List.length (validated_items r) = 1%nat
    /\ List.length (issues r) = 0%nat
    /\ confidence r == Spec.temporal_confidence 1 0.
Proof.
  eexists. split; [reflexivity|].
  destruct (temporal_confidence_formula Scenario.store_with_patterns "create an agent"
              "PydanticAI"
              (Some (analyze_tree Scenario.runtime (Scenario.expr_statement (Ast.Attribute "Agent" "run_sync"))))
              _ eq_refl)
    as (successful & failed & _ & _ & _ & _ & Hconfidence).
  split; [reflexivity|]. split; [reflexivity|]. exact Hconfidence.
Defined.

End Temporal.

(** ** The hallucination detector (detection_engine.py) *)

Section Detector.

Import ValidationEngine ValidationEngine.MultiLayerValidationEngine DetectionEngine.

Lemma class_or_method_critical (h : Hallucination) :
  Spec.class_or_method h = is_critical_type (type h).
Proof.
  unfold Spec.class_or_method.
  destruct (type h); reflexivity.
Qed.

Lemma default_hallucination_threshold
      (ve : engine) (g : AIDGraphitiEngine) (rag : HybridRAGSystem) :
  hallucination_threshold (DetectionEngine.__init__ ve g rag) = 0.3.
Proof. reflexivity. Qed.

(** A call found in [invalid_methods] adds one finding, of type
    non-existent method, to those of the calls before it. *)
Lemma invalid_method_findings_app
      (framework : string) (patterns : FrameworkPatterns)
      (calls : list ApiCall) (call : ApiCall) (a : CodeAnalysis) :
  api_calls a = (calls ++ [call])%list ->
  is_invalid_method patterns call = true ->
  exists finding,
    invalid_method_findings framework patterns a
    = (map (invalid_method_finding framework patterns)
           (filter (is_invalid_method patterns) calls) ++ [finding])%list
    /\ type finding = NON_EXISTENT_METHOD.
Proof.
  intros Hcalls Hinvalid.
  exists (invalid_method_finding framework patterns call).
  unfold invalid_method_findings.
  rewrite Hcalls, filter_app, map_app. cbn [filter]. rewrite Hinvalid.
  split; reflexivity.
Qed.

(** C6: for a non-empty map of validation results, the overall confidence
    is the average of the consensus scores, minus min(0.8, 0.2 times the
    number of findings), minus min(0.5, 0.3 times the number of findings of
    type non-existent class or non-existent method), floored at 0. *)
Theorem overall_confidence_formula
  (validation_results : Py.dict string ValidationResult)
  (hallucinations : list Hallucination) :
  validation_results <> [] ->
  _calculate_confidence_score validation_results hallucinations
  == Spec.overall_confidence (map consensus_score (Py.values validation_results))
                             hallucinations.
Proof.
  intro Hne.
  unfold _calculate_confidence_score, Spec.overall_confidence, Spec.average, Spec.number_of.
  destruct validation_results as [|entry rest]; [congruence|].
  rewrite filter_true.
  rewrite (filter_ext _ _ class_or_method_critical).
  set (scores := map consensus_score (Py.values (entry :: rest))).
  set (n := Py.len hallucinations).
  set (k := Py.len (filter (fun h => is_critical_type (type h)) hallucinations)).
  assert (Hsum : Py.sum scores == fold_right Qplus 0 scores).
  { unfold Py.sum. rewrite fold_left_Qplus. lra. }
  assert (Hlen : Py.len (entry :: rest) = inject_Z (Z.of_nat (List.length scores))).
  { unfold scores, Py.values, Py.len, Py.float_of_nat. now rewrite !length_map. }
  cbv iota. rewrite Hlen.
  change (inject_Z (Z.of_nat (List.length hallucinations))) with n.
  change (inject_Z (Z.of_nat (List.length
            (filter (fun h => is_critical_type (type h)) hallucinations)))) with k.
  eapply Qeq_trans; [apply max_Qmax|].
  apply Q.max_compat; [reflexivity|].
  unfold Qminus. apply Qplus_comp; [apply Qplus_comp|].
  - apply Qdiv_comp; [exact Hsum | reflexivity].
  - apply Qopp_comp. eapply Qeq_trans; [apply min_Qmin|].
    apply Q.min_compat; [reflexivity | ring].
  - apply Qopp_comp. eapply Qeq_trans; [apply min_Qmin|].
    apply Q.min_compat; [reflexivity | ring].
Qed.

Lemma overall_confidence_formula_witness :
  _calculate_confidence_score
    [("PydanticAI", Scenario.validation_result 0.9);
     ("FastAPI", Scenario.validation_result 0.7)]
    [invalid_method_finding "PydanticAI" Scenario.pydantic_patterns Scenario.chat_call]
  == Spec.overall_confidence [0.9; 0.7]
       [invalid_method_finding "PydanticAI" Scenario.pydantic_patterns Scenario.chat_call].
Proof.
  apply (overall_confidence_formula
           [("PydanticAI", Scenario.validation_result 0.9);
            ("FastAPI", Scenario.validation_result 0.7)]
           [invalid_method_finding "PydanticAI" Scenario.pydantic_patterns
              Scenario.chat_call]).
  discriminate.
Defined.

(** C5: with the validation results fixed and their consensus scores in
    [0,1], one more finding of type non-existent method at the end of the
    list makes the overall confidence strictly smaller, or leaves it equal
    when it is at the floor 0. *)
Theorem one_more_invalid_method_lowers_confidence
  (validation_results : Py.dict string ValidationResult)
  (hallucinations : list Hallucination) (finding : Hallucination) :
  Forall (fun v => Spec.in_unit (consensus_score v)) (Py.values validation_results) ->
  type finding = NON_EXISTENT_METHOD ->
  let before := _calculate_confidence_score validation_results hallucinations in
  let after :=
    _calculate_confidence_score validation_results (hallucinations ++ [finding]) in
  after < before \/ (after == before /\ after == 0).
Proof.
  intros Hscores Htype before after. subst before after.
  unfold _calculate_confidence_score.
  destruct validation_results as [|entry rest].
  { right. split; reflexivity. }
  assert (Havg : Spec.in_unit (Py.sum (map consensus_score (Py.values (entry :: rest)))
                               / Py.len (entry :: rest))).
  { replace (Py.len (entry :: rest))
      with (Py.len (map consensus_score (Py.values (entry :: rest))))
      by (unfold Py.len, Py.values; now rewrite !length_map).
    apply average_in_unit; [discriminate|].
    rewrite Forall_map. exact Hscores. }
  set (avg := Py.sum (map consensus_score (Py.values (entry :: rest)))
              / Py.len (entry :: rest)) in *.
  rewrite filter_app. cbn [filter]. rewrite Htype. cbn [is_critical_type].
  pose proof (len_app hallucinations [finding]) as Hn.
  pose proof (len_app (filter (fun h => is_critical_type (type h)) hallucinations) [finding])
    as Hk.
  pose proof (len_nonneg hallucinations) as Hn0.
  pose proof (len_nonneg (filter (fun h => is_critical_type (type h)) hallucinations)) as Hk0.
  change (Py.len [finding]) with 1 in Hn, Hk.
  set (n := Py.len hallucinations) in *.
  set (k := Py.len (filter (fun h => is_critical_type (type h)) hallucinations)) in *.
  set (n' := Py.len (hallucinations ++ [finding])) in *.
  set (k' := Py.len (filter (fun h => is_critical_type (type h)) hallucinations ++ [finding]))
    in *.
  unfold Spec.in_unit in Havg.
  case_min_max; try (left; lra); try (right; split; lra).
Qed.

Lemma one_more_invalid_method_lowers_confidence_witness :
  Forall (fun v => Spec.in_unit (consensus_score v))
         (Py.values [("PydanticAI", Scenario.validation_result 0.9)])
  /\ (_calculate_confidence_score [("PydanticAI", Scenario.validation_result 0.9)]
        [invalid_method_finding "PydanticAI" Scenario.pydantic_patterns Scenario.chat_call]
      < _calculate_confidence_score [("PydanticAI", Scenario.validation_result 0.9)] []
      \/ (_calculate_confidence_score [("PydanticAI", Scenario.validation_result 0.9)]
            [invalid_method_finding "PydanticAI" Scenario.pydantic_patterns Scenario.chat_call]
          == _calculate_confidence_score [("PydanticAI", Scenario.validation_result 0.9)] []
          /\ _calculate_confidence_score [("PydanticAI", Scenario.validation_result 0.9)]
               [invalid_method_finding "PydanticAI" Scenario.pydantic_patterns
                  Scenario.chat_call]
             == 0)).
Proof.
  assert (Hscores : Forall (fun v => Spec.in_unit (consensus_score v))
                           (Py.values [("PydanticAI", Scenario.validation_result 0.9)])).
  { repeat constructor; cbn; lra. }
  split; [exact Hscores|].
  exact (one_more_invalid_method_lowers_confidence
           [("PydanticAI", Scenario.validation_result 0.9)] []
           (invalid_method_finding "PydanticAI" Scenario.pydantic_patterns Scenario.chat_call)
           Hscores eq_refl).
Defined.

(** The shape of every result that [detect_hallucination] returns. *)
Lemma detect_hallucination_returns
  (self : detector) (generated_code : string) (frameworks : list string)
  (code_intent : option string) (r : HallucinationResult) :
  detect_hallucination self generated_code frameworks code_intent = Ok r ->
  exists corrections,
    is_hallucination r
    = (0 <? List.length (detected_hallucinations r))%nat
      && Py.Qlt_bool (confidence_score r) (hallucination_threshold self)
    /\ corrected_code r = fst corrections
    /\ correction_suggestions r = snd corrections
    /\ match detected_hallucinations r with
       | _ :: _ =>
           if Py.Qlt_bool (confidence_score r) (hallucination_threshold self)
           then _generate_corrections self generated_code (detected_hallucinations r)
                                      frameworks = Ok corrections
           else corrections = (None, [])
       | [] => corrections = (None, [])
       end.
Proof.
  unfold detect_hallucination. intro H.
  apply bind_Ok in H as (validation_results & _ & H).
  apply bind_Ok in H as (pattern_hallucinations & _ & H).
  apply bind_Ok in H as (knowledge_hallucinations & _ & H).
  apply bind_Ok in H as (corrections & Hcorr & H).
  injection H as <-. cbn.
  exists corrections. repeat split.
  destruct (_ ++ _ ++ _)%list as [|h hs].
  - now injection Hcorr as <-.
  - destruct (Py.Qlt_bool _ _); [exact Hcorr | now injection Hcorr as <-].
Qed.


(** C4: a returned result is flagged ([is_hallucination] true) exactly
    when at least one hallucination was detected and the overall confidence
    is strictly below the hallucination threshold; without a finding, or
    with a confidence at or above the threshold, it is not flagged. *)
Theorem flagged_iff_findings_and_low_confidence
  (self : detector) (generated_code : string) (frameworks : list string)
  (code_intent : option string) (r : HallucinationResult) :
  detect_hallucination self generated_code frameworks code_intent = Ok r ->
  (is_hallucination r = true
   <-> detected_hallucinations r <> []
       /\ confidence_score r < hallucination_threshold self)
  /\ (detected_hallucinations r = []
      \/ hallucination_threshold self <= confidence_score r
      -> is_hallucination r = false).
Proof.
  intro H. apply detect_hallucination_returns in H as (corrections & Hflag & _).
  rewrite Hflag. clear Hflag. split.
  - rewrite andb_true_iff, Qlt_bool_iff, Nat.ltb_lt.
    destruct (detected_hallucinations r); simpl; split; intros [H1 H2]; split;
      try congruence; try lia; auto.
  - intros [-> | Hle]; [reflexivity|].
    apply Qlt_bool_false_iff in Hle. rewrite Hle. apply andb_false_r.
Qed.

Lemma flagged_iff_findings_and_low_confidence_witness :
  exists r,
    detect_hallucination Scenario.detector "Agent.chat('hi')" ["PydanticAI"] None = Ok r
    /\ is_hallucination r = true
    /\ detected_hallucinations r <> []
    /\ confidence_score r < 0.3.
Proof.
  destruct (detect_hallucination Scenario.detector "Agent.chat('hi')" ["PydanticAI"] None)
    as [r|e] eqn:E; [|vm_compute in E; discriminate].
  exists r. split; [reflexivity|].
  assert (Hflag : is_hallucination r = true)
    by (vm_compute in E; injection E as <-; reflexivity).
  split; [exact Hflag|].
  exact (proj1 (proj1 (flagged_iff_findings_and_low_confidence Scenario.detector
                         "Agent.chat('hi')" ["PydanticAI"] None r E)) Hflag).
Defined.

(** C10: a returned result that is not flagged carries no corrected
    code. *)
Theorem clean_result_has_no_corrected_code
  (self : detector) (generated_code : string) (frameworks : list string)
  (code_intent : option string) (r : HallucinationResult) :
  detect_hallucination self generated_code frameworks code_intent = Ok r ->
  is_hallucination r = false ->
  corrected_code r = None.
Proof.
  intros H Hclean.
  apply detect_hallucination_returns in H as (corrections & Hflag & Hcode & _ & Hcorr).
  rewrite Hcode. rewrite Hflag in Hclean.
  destruct (detected_hallucinations r) as [|h hs].
  - now subst corrections.
  - simpl in Hclean. rewrite Hclean in Hcorr. now subst corrections.
Qed.

Lemma clean_result_has_no_corrected_code_witness :
  exists r,
    detect_hallucination Scenario.detector "Agent.run_sync('hi')" ["PydanticAI"] None = Ok r
    /\ is_hallucination r = false
    /\ corrected_code r = None.
Proof.
  destruct (detect_hallucination Scenario.detector "Agent.run_sync('hi')" ["PydanticAI"] None)
    as [r|e] eqn:E; [|vm_compute in E; discriminate].
  exists r. split; [reflexivity|].
  assert (Hclean : is_hallucination r = false)
    by (vm_compute in E; injection E as <-; reflexivity).
  split; [exact Hclean|].
  exact (clean_result_has_no_corrected_code Scenario.detector "Agent.run_sync('hi')"
           ["PydanticAI"] None r E Hclean).
Defined.




End Detector.

(** * Further properties of the code *)

(** ** Lists, sets and sorting of the runtime *)

Section Containers.

Lemma mem_In (x : string) (xs : list string) : Py.mem x xs = true <-> In x xs.
Proof.
  induction xs as [|y ys IH]; simpl.
  - split; [discriminate | contradiction].
  - rewrite orb_true_iff, IH, String.eqb_eq. reflexivity.
Qed.

Lemma to_set_In (x : string) (xs : list string) : In x (Py.to_set xs) <-> In x xs.
Proof.
  revert x. induction xs as [|y ys IH]; intro x; simpl; [reflexivity|].
  destruct (Py.mem y (Py.to_set ys)) eqn:E.
  - apply mem_In, IH in E. rewrite IH. split; [auto|].
    intros [H | H]; [subst; assumption | assumption].
  - simpl. rewrite IH. reflexivity.
Qed.

Lemma to_set_NoDup (xs : list string) : NoDup (Py.to_set xs).
Proof.
  induction xs as [|y ys IH]; simpl; [constructor|].
  destruct (Py.mem y (Py.to_set ys)) eqn:E; [exact IH|].
  constructor; [|exact IH].
  intro H. apply mem_In in H. congruence.
Qed.

(** The intersection has the same size in both directions. *)
Lemma intersection_length_sym (a b : list string) :
  NoDup a -> NoDup b ->
  List.length (Py.intersection a b) = List.length (Py.intersection b a).
Proof.
  intros Ha Hb. apply Permutation_length.
  apply NoDup_Permutation; unfold Py.intersection.
  - now apply NoDup_filter.
  - now apply NoDup_filter.
  - intro x. rewrite !filter_In, !mem_In. tauto.
Qed.

Lemma union_length (a b : list string) :
  (List.length (Py.union a b) + List.length (Py.intersection b a)
   = List.length a + List.length b)%nat.
Proof.
  unfold Py.union, Py.intersection. rewrite length_app.
  induction b as [|y ys IH]; simpl; [lia|].
  destruct (Py.mem y a); simpl; lia.
Qed.

Lemma union_length_sym (a b : list string) :
  NoDup a -> NoDup b -> List.length (Py.union a b) = List.length (Py.union b a).
Proof.
  intros Ha Hb.
  pose proof (union_length a b). pose proof (union_length b a).
  pose proof (intersection_length_sym a b Ha Hb). lia.
Qed.

Lemma intersection_le_union (a b : list string) :
  (List.length (Py.intersection a b) <= List.length (Py.union a b))%nat.
Proof.
  unfold Py.intersection, Py.union. rewrite length_app.
  pose proof (filter_length_le (fun x => Py.mem x b) a). lia.
Qed.

Lemma intersection_self (a : list string) : Py.intersection a a = a.
Proof.
  unfold Py.intersection. apply forallb_filter_id.
  apply forallb_forall. intros x Hx. now apply mem_In.
Qed.

Lemma union_self (a : list string) : Py.union a a = a.
Proof.
  unfold Py.union.
  assert (H : forall b, (forall x, In x b -> In x a) ->
                        filter (fun x => negb (Py.mem x a)) b = []).
  { induction b as [|y ys IH]; intro Hsub; simpl; [reflexivity|].
    assert (Hy : Py.mem y a = true) by (apply mem_In, Hsub; now left).
    rewrite Hy. simpl. apply IH. intros x Hx. apply Hsub. now right. }
  rewrite H; [apply app_nil_r | auto].
Qed.

End Containers.

(** ** Word overlap *)

Section Jaccard.

Import ValidationEngine.

Lemma union_nonempty (a b : list string) : a <> [] -> (0 < List.length (Py.union a b))%nat.
Proof.
  destruct a; [congruence|]. intros _. unfold Py.union. simpl. lia.
Qed.

Lemma jaccard_in_unit (a b : list string) : Spec.in_unit (Reference.jaccard a b).
Proof.
  unfold Spec.in_unit, Reference.jaccard.
  destruct a as [|x a]; [lra|]. destruct b as [|y b]; [lra|].
  pose proof (intersection_le_union (x :: a) (y :: b)) as Hle.
  assert (Hpos : (0 < List.length (Py.union (x :: a) (y :: b)))%nat)
    by (apply union_nonempty; discriminate).
  set (i := List.length (Py.intersection _ _)) in *.
  set (u := List.length (Py.union _ _)) in *.
  assert (Hu : 0 < inject_Z (Z.of_nat u)).
  { change 0 with (inject_Z 0). rewrite <- Zlt_Qlt. lia. }
  split.
  - apply Qle_shift_div_l; [exact Hu|]. rewrite Qmult_0_l.
    change 0 with (inject_Z 0). rewrite <- Zle_Qle. lia.
  - apply Qle_shift_div_r; [exact Hu|]. rewrite Qmult_1_l.
    rewrite <- Zle_Qle. lia.
Qed.

Lemma jaccard_sym (a b : list string) :
  NoDup a -> NoDup b -> Reference.jaccard a b == Reference.jaccard b a.
Proof.
  intros Ha Hb. unfold Reference.jaccard.
  destruct a as [|x a]; destruct b as [|y b]; try reflexivity.
  rewrite (intersection_length_sym _ _ Ha Hb), (union_length_sym _ _ Ha Hb).
  reflexivity.
Qed.

Lemma jaccard_self (a : list string) : a <> [] -> Reference.jaccard a a == 1.
Proof.
  intro Hne. unfold Reference.jaccard.
  destruct a as [|x a]; [congruence|].
  rewrite intersection_self, union_self.
  apply Qmult_inv_r.
  change 0 with (inject_Z 0). rewrite inject_Z_injective. simpl. lia.
Qed.

(** The three word-overlap similarities of the code are the Jaccard index
    of their sets of tokens. *)
Lemma pattern_similarity_jaccard (pattern1 pattern2 : string) :
  TemporalValidator._pattern_similarity pattern1 pattern2
  == Reference.jaccard (Py.to_set (Py.split (Py.lower pattern1)))
                       (Py.to_set (Py.split (Py.lower pattern2))).
Proof.
  unfold TemporalValidator._pattern_similarity, Reference.jaccard.
  destruct (Py.to_set (Py.split (Py.lower pattern1))) as [|x a] eqn:Ea; [reflexivity|].
  destruct (Py.to_set (Py.split (Py.lower pattern2))) as [|y b] eqn:Eb; [reflexivity|].
  assert (Hpos : (0 < List.length (Py.union (x :: a) (y :: b)))%nat)
    by (apply union_nonempty; discriminate).
  apply Nat.ltb_lt in Hpos. rewrite Hpos. reflexivity.
Qed.

End Jaccard.

(** ** Sorting *)

Section SortingFacts.

Variable A : Type.
Variable key : A -> Q.

Local Abbreviation ascending := (Reference.ascending key).
Local Abbreviation descending := (Reference.descending key).

Lemma insert_asc_perm (x : A) (xs : list A) :
  Permutation (Py.insert_asc key x xs) (x :: xs).
Proof.
  induction xs as [|y ys IH]; simpl; [reflexivity|].
  destruct (Qle_bool (key y) (key x)); [|reflexivity].
  rewrite IH. apply perm_swap.
Qed.

Lemma insert_desc_perm (x : A) (xs : list A) :
  Permutation (Py.insert_desc key x xs) (x :: xs).
Proof.
  induction xs as [|y ys IH]; simpl; [reflexivity|].
  destruct (Qle_bool (key x) (key y)); [|reflexivity].
  rewrite IH. apply perm_swap.
Qed.

Lemma insert_asc_sorted (x : A) (xs : list A) :
  StronglySorted ascending xs -> StronglySorted ascending (Py.insert_asc key x xs).
Proof.
  induction 1 as [|y ys Hs IH Hy]; simpl.
  - repeat constructor.
  - destruct (Qle_bool (key y) (key x)) eqn:E.
    + apply Qle_bool_iff in E. constructor; [exact IH|].
      apply (Permutation_Forall (Permutation_sym (insert_asc_perm x ys))).
      constructor; assumption.
    + assert (Hlt : key x < key y).
      { apply Qnot_le_lt. intro Hle. apply Qle_bool_iff in Hle. congruence. }
      constructor; [constructor; assumption|].
      constructor; [unfold Reference.ascending; lra|].
      eapply Forall_impl; [|exact Hy]. unfold Reference.ascending. intros z Hz. lra.
Qed.

Lemma insert_desc_sorted (x : A) (xs : list A) :
  StronglySorted descending xs -> StronglySorted descending (Py.insert_desc key x xs).
Proof.
  induction 1 as [|y ys Hs IH Hy]; simpl.
  - repeat constructor.
  - destruct (Qle_bool (key x) (key y)) eqn:E.
    + apply Qle_bool_iff in E. constructor; [exact IH|].
      apply (Permutation_Forall (Permutation_sym (insert_desc_perm x ys))).
      constructor; assumption.
    + assert (Hlt : key y < key x).
      { apply Qnot_le_lt. intro Hle. apply Qle_bool_iff in Hle. congruence. }
      constructor; [constructor; assumption|].
      constructor; [unfold Reference.descending; lra|].
      eapply Forall_impl; [|exact Hy]. unfold Reference.descending. intros z Hz. lra.
Qed.

Lemma sorted_perm (xs : list A) : Permutation (Py.sorted key xs) xs.
Proof.
  unfold Py.sorted.
  assert (H : forall acc, Permutation (fold_left (fun acc x => Py.insert_asc key x acc) xs acc)
                                      (acc ++ xs)).
  { induction xs as [|x xs' IH]; intro acc; simpl.
    - now rewrite app_nil_r.
    - rewrite IH, insert_asc_perm. apply Permutation_middle. }
  apply (H []).
Qed.

Lemma sorted_reverse_perm (xs : list A) : Permutation (Py.sorted_reverse key xs) xs.
Proof.
  unfold Py.sorted_reverse.
  assert (H : forall acc, Permutation (fold_left (fun acc x => Py.insert_desc key x acc) xs acc)
                                      (acc ++ xs)).
  { induction xs as [|x xs' IH]; intro acc; simpl.
    - now rewrite app_nil_r.
    - rewrite IH, insert_desc_perm. apply Permutation_middle. }
  apply (H []).
Qed.

Lemma sorted_sorted (xs : list A) : StronglySorted ascending (Py.sorted key xs).
Proof.
  unfold Py.sorted.
  assert (H : forall acc, StronglySorted ascending acc ->
                          StronglySorted ascending
                            (fold_left (fun acc x => Py.insert_asc key x acc) xs acc)).
  { induction xs as [|x xs' IH]; intros acc Hacc; simpl; [exact Hacc|].
    apply IH, insert_asc_sorted, Hacc. }
  apply H. constructor.
Qed.

Lemma sorted_reverse_sorted (xs : list A) :
  StronglySorted descending (Py.sorted_reverse key xs).
Proof.
  unfold Py.sorted_reverse.
  assert (H : forall acc, StronglySorted descending acc ->
                          StronglySorted descending
                            (fold_left (fun acc x => Py.insert_desc key x acc) xs acc)).
  { induction xs as [|x xs' IH]; intros acc Hacc; simpl; [exact Hacc|].
    apply IH, insert_desc_sorted, Hacc. }
  apply H. constructor.
Qed.

(** Stability: elements with equal keys keep their order. *)
Lemma insert_asc_stable (k : Q) (x : A) (xs : list A) :
  StronglySorted ascending xs ->
  Reference.with_key key k (Py.insert_asc key x xs)
  = (Reference.with_key key k xs ++ (if Qeq_bool (key x) k then [x] else []))%list.
Proof.
  unfold Reference.with_key.
  induction 1 as [|y ys Hs IH Hy]; simpl.
  - destruct (Qeq_bool (key x) k); reflexivity.
  - destruct (Qle_bool (key y) (key x)) eqn:E.
    + simpl. rewrite IH. destruct (Qeq_bool (key y) k); reflexivity.
    + assert (Hlt : key x < key y).
      { apply Qnot_le_lt. intro Hle. apply Qle_bool_iff in Hle. congruence. }
      cbn [filter]. destruct (Qeq_bool (key x) k) eqn:Ex; [|now rewrite app_nil_r].
      apply Qeq_bool_iff in Ex.
      assert (Hnone : forall zs, Forall (fun z => key y <= key z) zs ->
                                 filter (fun a => Qeq_bool (key a) k) zs = []).
      { induction 1 as [|z zs Hz _ IHz]; simpl; [reflexivity|].
        destruct (Qeq_bool (key z) k) eqn:Ez; [|exact IHz].
        apply Qeq_bool_iff in Ez. lra. }
      assert (Hyk : Qeq_bool (key y) k = false).
      { destruct (Qeq_bool (key y) k) eqn:Ey; [|reflexivity].
        apply Qeq_bool_iff in Ey. lra. }
      rewrite Hyk, (Hnone ys Hy). reflexivity.
Qed.

Lemma sorted_stable (k : Q) (xs : list A) :
  Reference.with_key key k (Py.sorted key xs) = Reference.with_key key k xs.
Proof.
  unfold Py.sorted.
  assert (H : forall acc, StronglySorted ascending acc ->
                          Reference.with_key key k
                            (fold_left (fun acc x => Py.insert_asc key x acc) xs acc)
                          = (Reference.with_key key k acc ++ Reference.with_key key k xs)%list).
  { induction xs as [|x xs' IH]; intros acc Hacc; simpl.
    - now rewrite app_nil_r.
    - rewrite IH by (apply insert_asc_sorted, Hacc).
      rewrite insert_asc_stable by exact Hacc.
      rewrite <- app_assoc. f_equal.
      unfold Reference.with_key. simpl. destruct (Qeq_bool (key x) k); reflexivity. }
  apply (H []). constructor.
Qed.

End SortingFacts.

(** ** More on the orchestrator *)

Section OrchestratorMore.

Import ValidationEngine ValidationEngine.MultiLayerValidationEngine.

Lemma weight_of_range (layer_name : string) : 0 <= weight_of layer_name <= 0.25.
Proof.
  unfold weight_of, layer_weights. cbn.
  repeat match goal with
         | |- context [if ?b then _ else _] => destruct b
         end; lra.
Qed.

(** The loop of the weighted sum keeps the sum between 0 and the total
    weight. *)
Lemma accumulate_bounds (layer_results : Py.dict string LayerValidationResult)
      (init : Q * Q * Py.dict string Q) :
  Forall (fun item => Spec.in_unit (confidence (snd item))) layer_results ->
  0 <= fst (fst init) <= snd (fst init) ->
  0 <= fst (fst (fold_left accumulate layer_results init))
    <= snd (fst (fold_left accumulate layer_results init)).
Proof.
  intro H. revert init.
  induction H as [|[layer_name result] rest Hitem _ IH]; intros [[ws tw] bd] Hacc.
  - exact Hacc.
  - cbn [fold_left accumulate]. apply IH.
    pose proof (weight_of_range layer_name) as Hw.
    unfold Spec.in_unit in Hitem. cbn [fst snd] in *.
    split; nra.
Qed.

(** X1: whatever layers the map of layer results holds, if every
    recorded confidence lies in [0,1] then so does the consensus score of
    the final result, which is the value of [_calculate_consensus_score]. *)
Theorem consensus_score_in_unit_for_any_layers
  (self : engine) (layer_results : Py.dict string LayerValidationResult)
  (code_intent framework : string) :
  Forall (fun item => Spec.in_unit (confidence (snd item))) layer_results ->
  Spec.in_unit (consensus_score
                  (_calculate_final_result self layer_results code_intent framework))
  /\ _calculate_consensus_score layer_results
     = consensus_score (_calculate_final_result self layer_results code_intent framework).
Proof.
  intro H. split; [|unfold _calculate_consensus_score, _calculate_final_result;
                     destruct (fold_left _ _ _) as [[ws tw] bd]; reflexivity].
  unfold _calculate_final_result.
  match goal with
  | |- context [fold_left accumulate layer_results ?init] =>
      pose proof (accumulate_bounds layer_results init H) as Hb;
      destruct (fold_left accumulate layer_results init) as [[ws tw] bd]
  end.
  cbn [consensus_score fst snd] in *. unfold Spec.in_unit.
  assert (Hb' : 0 <= ws <= tw) by (apply Hb; lra).
  destruct (Qlt_bool_cases 0 tw) as [[-> Hpos] | [-> _]]; [|lra].
  split.
  - apply Qle_shift_div_l; [exact Hpos | lra].
  - apply Qle_shift_div_r; [exact Hpos | lra].
Qed.

Lemma consensus_score_in_unit_for_any_layers_witness :
  Spec.in_unit
    (consensus_score
       (_calculate_final_result Scenario.engine
          [ (value STRUCTURAL, Scenario.layer_result STRUCTURAL 1);
            ("custom", Scenario.layer_result MEMORY 0.8) ]
          "create an agent" "PydanticAI")).
Proof.
  apply (consensus_score_in_unit_for_any_layers Scenario.engine
           [ (value STRUCTURAL, Scenario.layer_result STRUCTURAL 1);
             ("custom", Scenario.layer_result MEMORY 0.8) ]
           "create an agent" "PydanticAI").
  repeat constructor; cbn; lra.
Defined.

(** X2: the overall issues of the final result are the issues of all the
    layers, reordered: no issue is lost or added, they are in the order
    critical, high, medium, low, info, and issues of the same severity
    keep the order in which the layers reported them. *)
Theorem overall_issues_sorted_by_severity
  (self : engine) (layer_results : Py.dict string LayerValidationResult)
  (code_intent framework : string) :
  let all_issues := flat_map issues (Py.values layer_results) in
  let sorted_issues :=
    overall_issues (_calculate_final_result self layer_results code_intent framework) in
  Permutation sorted_issues all_issues
  /\ StronglySorted (Reference.ascending (fun x => severity_order (severity x))) sorted_issues
  /\ forall s,
       Reference.with_key (fun x => severity_order (severity x)) (severity_order s)
                          sorted_issues
       = Reference.with_key (fun x => severity_order (severity x)) (severity_order s)
                            all_issues.
Proof.
  cbv zeta. unfold _calculate_final_result.
  destruct (fold_left accumulate layer_results (0.0, 0.0, [])) as [[ws tw] bd].
  cbn [overall_issues]. split; [apply sorted_perm|]. split; [apply sorted_sorted|].
  intro s. apply sorted_stable.
Qed.

End OrchestratorMore.

Section ConsensusMore.

Import ValidationEngine ValidationEngine.MultiLayerValidationEngine.

Lemma sum_nonneg (xs : list Q) : Forall (fun x => 0 <= x) xs -> 0 <= Py.sum xs.
Proof.
  induction 1 as [|x xs Hx _ IH].
  - unfold Py.sum. simpl. lra.
  - rewrite sum_cons. lra.
Qed.

Lemma heron_positive (steps : nat) (x guess : Q) :
  0 <= x -> 0 < guess -> 0 < Scenario.heron steps x guess.
Proof.
  revert guess. induction steps as [|n IH]; intros guess Hx Hg; cbn [Scenario.heron];
    [exact Hg|].
  apply IH; [exact Hx|].
  assert (H : 0 <= x / guess) by (apply Qle_shift_div_l; [exact Hg | lra]).
  assert (H2 : 0 < (guess + x / guess) / 2) by (apply Qlt_shift_div_l; lra).
  pose proof (Qred_correct ((guess + x / guess) / 2)) as E.
  set (q := (guess + x / guess) / 2) in *. set (q' := Qred q) in *. lra.
Qed.

Lemma scenario_sqrt_nonneg (x : Q) : 0 <= x -> 0 <= sqrt Scenario.runtime x.
Proof.
  intro Hx. apply Qlt_le_weak. apply heron_positive; [exact Hx | lra].
Qed.

(** The deviation that the consensus validator computes is the root of a
    number that is not negative. *)
Lemma std_dev_nonneg (rt : Runtime) (values : list Q) :
  (forall x, 0 <= x -> 0 <= sqrt rt x) ->
  0 <= ConsensusValidator._calculate_std_dev rt values.
Proof.
  intro Hsqrt. unfold ConsensusValidator._calculate_std_dev.
  destruct values as [|v vs]; [lra|].
  apply Hsqrt.
  set (mean := Py.sum (v :: vs) / Py.len (v :: vs)).
  assert (Hlen : 0 < Py.len (v :: vs)).
  { rewrite len_cons. pose proof (len_nonneg vs). lra. }
  apply Qle_shift_div_l; [exact Hlen|]. rewrite Qmult_0_l.
  apply sum_nonneg. apply Forall_map, Forall_forall. intros x _. cbv beta.
  set (y := x - mean). nra.
Qed.

Lemma critical_issues_exist (results : list LayerValidationResult) :
  match flat_map (fun result => filter (fun issue => is_critical (severity issue))
                                       (issues result)) results with
  | [] => false
  | _ :: _ => true
  end
  = existsb (fun result => existsb (fun issue => is_critical (severity issue))
                                   (issues result)) results.
Proof.
  induction results as [|r rs IH]; simpl; [reflexivity|].
  rewrite <- IH. clear IH.
  induction (issues r) as [|i rest IHi]; simpl; [reflexivity|].
  destruct (is_critical (severity i)); simpl; [reflexivity | exact IHi].
Qed.

Lemma consensus_confidence_in_unit
      (rt : Runtime) (code_intent framework : string) (code_analysis : option CodeAnalysis)
      (layer_results : Py.dict string LayerValidationResult) :
  (forall x, 0 <= x -> 0 <= sqrt rt x) ->
  Spec.in_unit
    (confidence (ConsensusValidator.validate rt code_intent framework code_analysis
                                             layer_results)).
Proof.
  intro Hsqrt. unfold ConsensusValidator.validate.
  pose proof (std_dev_nonneg rt (map confidence (Py.values layer_results)) Hsqrt) as Hstd.
  set (std := ConsensusValidator._calculate_std_dev rt _) in *.
  cbn [confidence]. unfold Spec.in_unit. case_min_max; lra.
Qed.

(** X4: the consensus layer reports a confidence in [0,1] and at most
    two issues; it raises a critical issue exactly when some layer result
    holds a critical issue.  The square root of the runtime is only assumed
    not to be negative. *)
Theorem consensus_layer_reports
  (rt : Runtime) (code_intent framework : string) (code_analysis : option CodeAnalysis)
  (layer_results : Py.dict string LayerValidationResult) :
  (forall x, 0 <= x -> 0 <= sqrt rt x) ->
  let r := ConsensusValidator.validate rt code_intent framework code_analysis layer_results in
  Spec.in_unit (confidence r)
  /\ (List.length (issues r) <= 2)%nat
  /\ existsb (fun issue => is_critical (severity issue)) (issues r)
     = existsb (fun result => existsb (fun issue => is_critical (severity issue))
                                      (issues result))
               (Py.values layer_results).
Proof.
  intros Hsqrt r. subst r.
  split; [now apply consensus_confidence_in_unit|].
  unfold ConsensusValidator.validate.
  rewrite <- critical_issues_exist.
  set (std := ConsensusValidator._calculate_std_dev rt _).
  cbn [issues].
  destruct (flat_map _ _) as [|c cs]; destruct (Py.Qlt_bool 0.3 std);
    (split; [cbn; lia | reflexivity]).
Qed.

Lemma consensus_layer_reports_witness :
  Spec.in_unit
    (confidence
       (ConsensusValidator.validate Scenario.runtime "create an agent" "PydanticAI" None
          [ (value STRUCTURAL, Scenario.layer_result STRUCTURAL 1);
            (value MEMORY, Scenario.layer_result MEMORY 0) ])).
Proof.
  exact (proj1 (consensus_layer_reports Scenario.runtime "create an agent" "PydanticAI" None
                  [ (value STRUCTURAL, Scenario.layer_result STRUCTURAL 1);
                    (value MEMORY, Scenario.layer_result MEMORY 0) ]
                  scenario_sqrt_nonneg)).
Defined.

(** The result of [validate_code_generation], spelled out. *)
Lemma validate_code_generation_result (self : engine) (code_intent framework : string)
      (generated_code : option string) :
  let ca := analysis_of self generated_code in
  let s := recorded self STRUCTURAL (structural self) code_intent framework ca in
  let t := recorded self TEMPORAL (temporal self) code_intent framework ca in
  let d := recorded self DOCUMENTATION (documentation self) code_intent framework ca in
  let m := recorded self MEMORY (memory self) code_intent framework ca in
  let ty := recorded self TYPE_SAFETY (type_safety self) code_intent framework ca in
  let c := ConsensusValidator.validate (rt self) code_intent framework ca
             [ (value STRUCTURAL, s); (value TEMPORAL, t); (value DOCUMENTATION, d);
               (value MEMORY, m); (value TYPE_SAFETY, ty) ] in
  validate_code_generation self code_intent framework generated_code
  = Ok (set_result_time
          (_calculate_final_result self (Spec.six_layers s t d m ty c) code_intent framework)
          (total_seconds (rt self))).
Proof. reflexivity. Qed.

Lemma six_layers_score (self : engine) (code_intent framework : string)
      (s t d m ty c : LayerValidationResult) :
  consensus_score
    (_calculate_final_result self (Spec.six_layers s t d m ty c) code_intent framework)
  == confidence s * 0.25 + confidence t * 0.20 + confidence d * 0.20
     + confidence m * 0.15 + confidence ty * 0.15 + confidence c * 0.05.
Proof.
  unfold _calculate_final_result, Spec.six_layers.
  cbn [fold_left accumulate consensus_score].
  change (weight_of (value STRUCTURAL)) with 0.25.
  change (weight_of (value TEMPORAL)) with 0.20.
  change (weight_of (value DOCUMENTATION)) with 0.20.
  change (weight_of (value MEMORY)) with 0.15.
  change (weight_of (value TYPE_SAFETY)) with 0.15.
  change (weight_of (value CONSENSUS)) with 0.05.
  change (Py.Qlt_bool 0 (0.0 + 0.25 + 0.20 + 0.20 + 0.15 + 0.15 + 0.05)) with true.
  cbv iota. field.
Qed.

(** What is recorded for a layer has the confidence that the validator
    returned, or 0.0 when it raised. *)
Lemma recorded_confidence (self : engine) (l : ValidationLayer) (v : validator)
      (code_intent framework : string) (ca : option CodeAnalysis) :
  confidence (recorded self l v code_intent framework ca)
  = match v code_intent framework ca with
    | Ok r => confidence r
    | Raise _ => 0.0
    end.
Proof.
  unfold recorded, _run_validation_layer.
  destruct (v code_intent framework ca); reflexivity.
Qed.

(** X3: when one of the five validators raises, the orchestrator still
    returns a result; if the other layers report confidences of at most 1,
    its consensus score is at most 0.85, so that no validated approach is
    produced under a threshold above 0.85 (the default is 0.92). *)
Theorem failed_layer_caps_consensus_score
  (self : engine) (code_intent framework : string) (generated_code : option string)
  (l : ValidationLayer) (v : validator) (e : exn) :
  (forall x, 0 <= x -> 0 <= sqrt (rt self) x) ->
  (forall l' v' r, In (l', v') (validators self) ->
                   v' code_intent framework (analysis_of self generated_code) = Ok r ->
                   confidence r <= 1) ->
  In (l, v) (validators self) ->
  v code_intent framework (analysis_of self generated_code) = Raise e ->
  exists res,
    validate_code_generation self code_intent framework generated_code = Ok res
    /\ consensus_score res <= 0.85
    /\ (0.85 < confidence_threshold self -> validated_approach res = None).
Proof.
  intros Hsqrt Hconf Hin Hraise.
  eexists. split; [apply validate_code_generation_result|].
  cbv zeta.
  set (ca := analysis_of self generated_code) in *.
  set (s := recorded self STRUCTURAL _ _ _ _).
  set (t := recorded self TEMPORAL _ _ _ _).
  set (d := recorded self DOCUMENTATION _ _ _ _).
  set (m := recorded self MEMORY _ _ _ _).
  set (ty := recorded self TYPE_SAFETY _ _ _ _).
  set (c := ConsensusValidator.validate _ _ _ _ _).
  assert (Hc : confidence c <= 1).
  { apply (consensus_confidence_in_unit (rt self)). exact Hsqrt. }
  assert (Hrec : forall l' v', In (l', v') (validators self) ->
                               confidence (recorded self l' v' code_intent framework ca) <= 1).
  { intros l' v' Hin'. rewrite recorded_confidence.
    destruct (v' code_intent framework ca) as [r|e'] eqn:E; [|lra].
    exact (Hconf l' v' r Hin' E). }
  assert (Hzero : confidence (recorded self l v code_intent framework ca) = 0.0).
  { rewrite recorded_confidence, Hraise. reflexivity. }
  assert (Hs : confidence s <= 1) by (apply Hrec; cbn; auto).
  assert (Ht : confidence t <= 1) by (apply Hrec; cbn; auto).
  assert (Hd : confidence d <= 1) by (apply Hrec; cbn; auto).
  assert (Hm : confidence m <= 1) by (apply Hrec; cbn; auto 6).
  assert (Hty : confidence ty <= 1) by (apply Hrec; cbn; auto 7).
  assert (Hscore : consensus_score
                     (set_result_time
                        (_calculate_final_result self (Spec.six_layers s t d m ty c)
                                                 code_intent framework)
                        (total_seconds (rt self))) <= 0.85).
  { cbn [set_result_time consensus_score]. rewrite six_layers_score.
    unfold validators in Hin. simpl in Hin.
    repeat (destruct Hin as [Hin | Hin];
            [ inversion Hin; subst l v; clear Hin;
              first [ assert (Hz : confidence s = 0.0) by exact Hzero
                    | assert (Hz : confidence t = 0.0) by exact Hzero
                    | assert (Hz : confidence d = 0.0) by exact Hzero
                    | assert (Hz : confidence m = 0.0) by exact Hzero
                    | assert (Hz : confidence ty = 0.0) by exact Hzero ];
              rewrite Hz; lra | ]).
    contradiction. }
  split; [exact Hscore|].
  intro Hthreshold.
  set (res := _calculate_final_result self _ _ _) in *.
  cbn [set_result_time validated_approach consensus_score] in *.
  subst res. unfold _calculate_final_result in *.
  destruct (fold_left accumulate _ _) as [[ws tw] bd].
  cbn [validated_approach consensus_score] in *.
  destruct (Qle_bool (confidence_threshold self) _) eqn:E; [|reflexivity].
  apply Qle_bool_iff in E. lra.
Qed.

Lemma failed_layer_caps_consensus_score_witness :
  exists res,
    validate_code_generation Scenario.unavailable_engine "create an agent" "PydanticAI"
      (Some "Agent.run_sync('hi')") = Ok res
    /\ consensus_score res <= 0.85
    /\ validated_approach res = None.
Proof.
  destruct (failed_layer_caps_consensus_score Scenario.unavailable_engine "create an agent"
              "PydanticAI" (Some "Agent.run_sync('hi')") TEMPORAL
              (temporal Scenario.unavailable_engine) "ServiceUnavailable"
              scenario_sqrt_nonneg)
    as (res & Hres & Hscore & Happroach).
  - intros l' v' r Hin Hok. cbn in Hin.
    repeat (destruct Hin as [Hin | Hin];
            [ injection Hin as <- <-; vm_compute in Hok;
              first [ discriminate Hok
                    | injection Hok as <-; cbn; unfold Qle; cbn; lia ] | ]).
    contradiction.
  - cbn. auto.
  - reflexivity.
  - exists res. split; [exact Hres|]. split; [exact Hscore|].
    apply Happroach. cbn. lra.
Defined.

End ConsensusMore.

(** ** More on the validators *)

Section ValidatorsMore.

Import ValidationEngine.

Lemma ratio_in_unit (a b : nat) : (a <= b)%nat -> (0 < b)%nat ->
  Spec.in_unit (Py.float_of_nat a / Py.float_of_nat b).
Proof.
  intros Hab Hb. unfold Spec.in_unit, Py.float_of_nat.
  assert (H0 : 0 < inject_Z (Z.of_nat b)).
  { change 0 with (inject_Z 0). rewrite <- Zlt_Qlt. lia. }
  split.
  - apply Qle_shift_div_l; [exact H0|]. rewrite Qmult_0_l.
    change 0 with (inject_Z 0). rewrite <- Zle_Qle. lia.
  - apply Qle_shift_div_r; [exact H0|]. rewrite Qmult_1_l.
    rewrite <- Zle_Qle. lia.
Qed.

(** The two lists after the loop of the Structural validator. *)
Lemma structural_loop (g : AIDGraphitiEngine) (framework : string) (calls : list ApiCall)
      (acc : list ValidationIssue * list string) :
  let out := fold_left (StructuralValidator.check g framework) calls acc in
  (List.length (fst out) + List.length (snd out)
   = List.length (fst acc) + List.length (snd acc) + List.length calls)%nat
  /\ (Forall (fun i => issue_layer i = STRUCTURAL /\ severity i = CRITICAL
                       /\ issue_type i = "non_existent_api") (fst acc) ->
      Forall (fun i => issue_layer i = STRUCTURAL /\ severity i = CRITICAL
                       /\ issue_type i = "non_existent_api") (fst out)).
Proof.
  revert acc. induction calls as [|c cs IH]; intro acc; cbn [fold_left].
  - cbv zeta. split; [cbn; lia | auto].
  - destruct (IH (StructuralValidator.check g framework acc c)) as [IHlen IHall].
    cbv zeta. split.
    + rewrite IHlen. unfold StructuralValidator.check, Py.append.
      destruct (StructuralValidator.exists_ _); cbn [fst snd List.length];
        rewrite length_app; cbn [List.length]; lia.
    + intro Hacc. apply IHall.
      unfold StructuralValidator.check, Py.append.
      destruct (StructuralValidator.exists_ _); cbn [fst snd]; [exact Hacc|].
      apply Forall_app. split; [exact Hacc|].
      constructor; [|constructor]. cbn. auto.
Qed.

(** X5: the structural layer always returns: every API call of the
    analysis is counted once, as a validated item or as a critical
    [non_existent_api] issue, and the confidence is the share of validated
    calls (0.8 when there is no call to check), a number of [0,1]. *)
Theorem structural_validator_accounts_for_every_call
  (g : AIDGraphitiEngine) (code_intent framework : string)
  (code_analysis : option CodeAnalysis) :
  exists r,
    StructuralValidator.validate g code_intent framework code_analysis = Ok r
    /\ Spec.in_unit (confidence r)
    /\ (List.length (issues r) + List.length (validated_items r)
        = List.length (calls_of code_analysis))%nat
    /\ Forall (fun i => issue_layer i = STRUCTURAL /\ severity i = CRITICAL
                        /\ issue_type i = "non_existent_api") (issues r)
    /\ confidence r
       == match calls_of code_analysis with
          | [] => 0.8
          | _ :: _ => Py.len (validated_items r) / Py.len (calls_of code_analysis)
          end.
Proof.
  unfold StructuralValidator.validate.
  pose proof (structural_loop g framework (calls_of code_analysis) ([], [])) as Hloop.
  cbv zeta in Hloop.
  destruct (fold_left _ _ _) as [found validated].
  cbn [fst snd List.length] in Hloop. destruct Hloop as [Hlen Hall].
  eexists. split; [reflexivity|]. cbn [confidence issues validated_items].
  split.
  - destruct (calls_of code_analysis) as [|c cs].
    + unfold Spec.in_unit. lra.
    + apply ratio_in_unit; cbn [List.length] in *; lia.
  - split; [lia|]. split; [apply Hall; constructor|].
    destruct (calls_of code_analysis); reflexivity.
Qed.

Lemma structural_loop_outage (g : AIDGraphitiEngine) (framework : string) (e : exn)
      (calls : list ApiCall) (acc : list ValidationIssue * list string) :
  (forall c, In c calls -> match_method g framework (object c) (method c) = Raise e) ->
  snd (fold_left (StructuralValidator.check g framework) calls acc) = snd acc.
Proof.
  revert acc. induction calls as [|c cs IH]; intros acc Hdown; cbn [fold_left];
    [reflexivity|].
  rewrite IH by (intros c' Hc'; apply Hdown; now right).
  unfold StructuralValidator.check, StructuralValidator._validate_api_call.
  rewrite (Hdown c) by now left. reflexivity.
Qed.

(** X6: when the knowledge graph fails on every lookup, the structural
    layer does not fail: it reports every API call as an issue, validates
    none and returns confidence 0. *)
Theorem structural_validator_fails_closed_on_outage
  (g : AIDGraphitiEngine) (code_intent framework : string) (a : CodeAnalysis) (e : exn) :
  api_calls a <> [] ->
  (forall c, In c (api_calls a) ->
             match_method g framework (object c) (method c) = Raise e) ->
  exists r,
    StructuralValidator.validate g code_intent framework (Some a) = Ok r
    /\ confidence r == 0
    /\ validated_items r = []
    /\ List.length (issues r) = List.length (api_calls a).
Proof.
  intros Hne Hdown.
  unfold StructuralValidator.validate. cbn [calls_of].
  pose proof (structural_loop g framework (api_calls a) ([], [])) as Hloop.
  pose proof (structural_loop_outage g framework e (api_calls a) ([], []) Hdown) as Hnone.
  cbv zeta in Hloop.
  destruct (fold_left _ _ _) as [found validated].
  cbn [fst snd List.length] in *. subst validated. destruct Hloop as [Hlen _].
  eexists. split; [reflexivity|]. cbn [confidence issues validated_items].
  split.
  - destruct (api_calls a) as [|c cs]; [congruence|].
    unfold Py.len at 1. cbn [List.length Py.float_of_nat Z.of_nat inject_Z].
    unfold Qdiv. apply Qmult_0_l.
  - split; [reflexivity|]. cbn [List.length] in Hlen. lia.
Qed.

Lemma structural_validator_fails_closed_on_outage_witness :
  exists r,
    StructuralValidator.validate Examples.unreachable_store "create an agent" "PydanticAI"
      (Some (analyze_tree Scenario.runtime (Scenario.expr_statement (Ast.Attribute "Agent" "run_sync"))))
    = Ok r
    /\ confidence r == 0.
Proof.
  destruct (structural_validator_fails_closed_on_outage Examples.unreachable_store
              "create an agent" "PydanticAI"
              (analyze_tree Scenario.runtime (Scenario.expr_statement (Ast.Attribute "Agent" "run_sync")))
              "ServiceUnavailable")
    as (r & Hr & Hzero & _).
  - discriminate.
  - intros c _. reflexivity.
  - exists r. split; assumption.
Defined.

End ValidatorsMore.

Section ValidatorsRanges.

Import ValidationEngine.

(** X7: a result of the temporal layer has a confidence between 0.2
    and 0.95, and all its issues are of the temporal layer with severity
    high. *)
Theorem temporal_confidence_range
  (g : AIDGraphitiEngine) (code_intent framework : string)
  (code_analysis : option CodeAnalysis) (r : LayerValidationResult) :
  TemporalValidator.validate g code_intent framework code_analysis = Ok r ->
  0.2 <= confidence r <= 0.95
  /\ Forall (fun i => issue_layer i = TEMPORAL /\ severity i = HIGH) (issues r).
Proof.
  unfold TemporalValidator.validate. intro H.
  apply bind_Ok in H as (successful & _ & H).
  apply bind_Ok in H as (failed & _ & H).
  assert (Hhigh : forall derived acc,
             Forall (fun i => issue_layer i = TEMPORAL /\ severity i = HIGH) (fst acc) ->
             Forall (fun i => issue_layer i = TEMPORAL /\ severity i = HIGH)
                    (fst (fold_left (TemporalValidator.check successful failed) derived acc))).
  { induction derived as [|p ps IH]; intros acc Hacc; cbn [fold_left]; [exact Hacc|].
    apply IH. unfold TemporalValidator.check, Py.extend. cbn [fst].
    apply Forall_app. split; [exact Hacc|].
    unfold TemporalValidator.failures. apply Forall_map, Forall_forall.
    intros fp _. cbn. auto. }
  assert (Hfound : Forall (fun i => issue_layer i = TEMPORAL /\ severity i = HIGH)
                     (fst (match code_analysis with
                           | Some a => fold_left (TemporalValidator.check successful failed)
                                                 (patterns a) ([], [])
                           | None => ([], [])
                           end))).
  { destruct code_analysis; [apply Hhigh|]; constructor. }
  destruct (match code_analysis with Some _ => _ | None => _ end) as [found validated].
  injection H as <-. cbn [confidence issues fst] in *.
  split; [|exact Hfound].
  pose proof (len_nonneg validated). pose proof (len_nonneg found).
  destruct successful; destruct found; case_min_max; lra.
Qed.

Lemma temporal_confidence_range_witness :
  exists r,
    TemporalValidator.validate Scenario.store_with_patterns "create an agent" "PydanticAI"
      (Some (analyze_tree Scenario.runtime (Scenario.expr_statement (Ast.Attribute "Agent" "chat"))))
    = Ok r
    /\ 0.2 <= confidence r <= 0.95.
Proof.
  eexists. split; [reflexivity|].
  apply (temporal_confidence_range Scenario.store_with_patterns "create an agent"
           "PydanticAI"
           (Some (analyze_tree Scenario.runtime (Scenario.expr_statement (Ast.Attribute "Agent" "chat"))))
           _ eq_refl).
Defined.

(** X8: the type-safety layer always returns; its confidence is 0.8
    plus 0.1 per validated item minus 0.1 per issue, between 0.6 and 0.9,
    with at most two issues, and it is 0.8 without issues when there is no
    syntax tree to inspect. *)
Theorem type_safety_confidence
  (code_intent framework : string) (code_analysis : option CodeAnalysis) :
  exists r,
    TypeSafetyValidator.validate code_intent framework code_analysis = Ok r
    /\ confidence r
       == 0.8 + 0.1 * Py.len (validated_items r) - 0.1 * Py.len (issues r)
    /\ 0.6 <= confidence r <= 0.9
    /\ (List.length (issues r) <= 2)%nat
    /\ match code_analysis with
       | Some {| ast_tree := Some _ |} => True
       | _ => confidence r == 0.8 /\ issues r = []
       end.
Proof.
  unfold TypeSafetyValidator.validate.
  destruct code_analysis as [[? ? ? ? ? ? ? [tree|]]|].
  - destruct (TypeSafetyValidator._check_type_annotations tree);
      destruct (TypeSafetyValidator._check_error_handling tree);
      destruct (TypeSafetyValidator._check_async_consistency tree);
      (eexists; split; [reflexivity|]);
      cbn; repeat split; try lia; try (vm_compute; congruence).
  - eexists. split; [reflexivity|].
    cbn. repeat split; try lia; try (vm_compute; congruence).
  - eexists. split; [reflexivity|].
    cbn. repeat split; try lia; try (vm_compute; congruence).
Qed.

(** The two lists after the loop of the Documentation validator. *)
Lemma documentation_loop (rag : HybridRAGSystem) (framework : string) (calls : list ApiCall)
      (acc out : list ValidationIssue * list string) :
  Py.for_each (DocumentationValidator.check rag framework) calls acc = Ok out ->
  (List.length (fst out) + List.length (snd out)
   = List.length (fst acc) + List.length (snd acc) + List.length calls)%nat.
Proof.
  revert acc. induction calls as [|c cs IH]; intros acc H; cbn [Py.for_each] in H.
  - injection H as <-. cbn. lia.
  - apply bind_Ok in H as (mid & Hmid & H). apply IH in H. rewrite H.
    unfold DocumentationValidator.check in Hmid.
    apply bind_Ok in Hmid as (validation & _ & Hmid).
    destruct (is_valid validation); injection Hmid as <-;
      unfold Py.append; cbn [fst snd List.length]; rewrite length_app;
      cbn [List.length]; lia.
Qed.

(** X9: a result of the documentation layer counts every API call once,
    as validated or as an issue; its confidence is the confidence of the
    search when there is no call, and otherwise the mean of the search
    confidence and the share of validated calls, so that it lies in [0,1]
    whenever the search confidence does. *)
Theorem documentation_confidence
  (rag : HybridRAGSystem) (code_intent framework : string)
  (code_analysis : option CodeAnalysis) (r : LayerValidationResult) :
  DocumentationValidator.validate rag code_intent framework code_analysis = Ok r ->
  exists search_result,
    hybrid_search rag (framework ++ " " ++ code_intent) framework 5 = Ok search_result
    /\ (List.length (issues r) + List.length (validated_items r)
        = List.length (calls_of code_analysis))%nat
    /\ confidence r
       == match calls_of code_analysis with
          | [] => search_confidence search_result
          | _ :: _ =>
              (search_confidence search_result
               + Py.len (validated_items r) / Py.len (calls_of code_analysis)) / 2
          end
    /\ (Spec.in_unit (search_confidence search_result) -> Spec.in_unit (confidence r)).
Proof.
  unfold DocumentationValidator.validate. intro H.
  apply bind_Ok in H as (search_result & Hsearch & H).
  apply bind_Ok in H as ([found validated] & Hloop & H).
  apply documentation_loop in Hloop. cbn [fst snd List.length] in Hloop.
  injection H as <-. cbn [confidence issues validated_items].
  exists search_result. split; [exact Hsearch|]. split; [lia|].
  split; [destruct (calls_of code_analysis); reflexivity|].
  intro Hunit. destruct (calls_of code_analysis) as [|c cs]; [exact Hunit|].
  assert (Hratio : Spec.in_unit (Py.len validated / Py.len (c :: cs))).
  { apply ratio_in_unit; cbn [List.length] in *; lia. }
  unfold Spec.in_unit in *.
  set (rate := Py.len validated / Py.len (c :: cs)) in *.
  split.
  - apply Qle_shift_div_l; lra.
  - apply Qle_shift_div_r; lra.
Qed.

Lemma documentation_confidence_witness :
  exists r,
    DocumentationValidator.validate (Scenario.rag 0.9) "create an agent" "PydanticAI"
      (Some (analyze_tree Scenario.runtime (Scenario.expr_statement (Ast.Attribute "Agent" "run_sync"))))
    = Ok r
    /\ Spec.in_unit (confidence r).
Proof.
  eexists. split; [reflexivity|].
  destruct (documentation_confidence (Scenario.rag 0.9) "create an agent" "PydanticAI"
              (Some (analyze_tree Scenario.runtime (Scenario.expr_statement (Ast.Attribute "Agent" "run_sync"))))
              _ eq_refl)
    as (search_result & Hsearch & _ & _ & Hunit).
  apply Hunit. injection Hsearch as <-. unfold Spec.in_unit. cbn. lra.
Defined.

End ValidatorsRanges.

(** ** The code analysers *)

Section Analysers.

Import ValidationEngine.

Lemma nodes_forest_cons (t : Ast.ast) (ts : list Ast.ast) :
  flat_map Reference.nodes (t :: ts)
  = (t :: flat_map Reference.nodes (Ast.children_of t) ++ flat_map Reference.nodes ts)%list.
Proof.
  destruct t as [k cs]. reflexivity.
Qed.

(** The walk yields every node of the tree exactly once. *)
Lemma walk_queue_nodes (n : nat) (todo : list Ast.ast) :
  (Ast.forest_size todo <= n)%nat ->
  Permutation (Ast.walk_queue n todo) (flat_map Reference.nodes todo).
Proof.
  revert todo. induction n as [|n IH]; intros todo H.
  - destruct todo as [|t rest]; [reflexivity|].
    rewrite forest_size_cons in H. lia.
  - destruct todo as [|t rest]; [reflexivity|].
    cbn [Ast.walk_queue]. rewrite nodes_forest_cons.
    apply perm_skip. rewrite IH.
    + rewrite flat_map_app. apply Permutation_app_comm.
    + rewrite forest_size_cons in H. rewrite forest_size_app. lia.
Qed.

Lemma walk_nodes (t : Ast.ast) : Permutation (Ast.walk t) (Reference.nodes t).
Proof.
  unfold Ast.walk. rewrite walk_queue_nodes.
  - cbn [flat_map]. now rewrite app_nil_r.
  - unfold Ast.forest_size. cbn [map list_sum fold_right]. lia.
Qed.

Local Abbreviation named := (fun c : ApiCall => (@Ok string (object c), method c)).

Local Abbreviation well_shaped function_calls :=
  (fun c : ApiCall =>
     full_call c = (object c ++ "." ++ method c)%string
     /\ line c = None
     /\ In (full_call c) function_calls).

Lemma forallb_perm {A : Type} (f : A -> bool) (xs ys : list A) :
  Permutation xs ys -> forallb f xs = forallb f ys.
Proof.
  induction 1 as [|x xs ys _ IH|x y xs|xs ys zs _ IH1 _ IH2]; cbn [forallb].
  - reflexivity.
  - now rewrite IH.
  - destruct (f x), (f y); reflexivity.
  - now rewrite IH1.
Qed.

(** What one visit of the orchestrator's analyser adds to the call sites,
    and when it raises. *)
Lemma visit_effect (rt : Runtime) (acc : Collected) (node : Ast.ast) :
  match visit rt acc node with
  | Ok acc' =>
      forallb (Reference.renders rt) (Reference.attribute_call node) = true
      /\ map named (c_api_calls acc')
         = (map named (c_api_calls acc)
            ++ map (fun call => (receiver_name rt (fst call), snd call))
                   (Reference.attribute_call node))%list
      /\ (Forall (well_shaped (c_function_calls acc)) (c_api_calls acc) ->
          Forall (well_shaped (c_function_calls acc')) (c_api_calls acc'))
  | Raise _ =>
      forallb (Reference.renders rt) (Reference.attribute_call node) = false
  end.
Proof.
  assert (Hgrow : forall (more : list string) (calls : list ApiCall),
             Forall (well_shaped (c_function_calls acc)) calls ->
             Forall (well_shaped (c_function_calls acc ++ more)%list) calls).
  { intros more calls H. eapply Forall_impl; [|exact H].
    intros c (H1 & H2 & H3). repeat split; auto. apply in_or_app. now left. }
  unfold visit, Reference.attribute_call, Reference.renders.
  destruct node as [[names | [[|ch m]|] names | name | name returns annotations | name
                     | [value_src method_name | id |] lineno | | |] cs];
    cbn [Ast.kind_of fst snd forallb map];
    try (cbn [c_api_calls c_function_calls]; rewrite ?app_nil_r;
         repeat split; auto; fail).
  - destruct (receiver_name rt value_src) as [obj_name|e]; cbn [Py.bind andb];
      [|reflexivity].
    cbn [c_api_calls c_function_calls]. unfold Py.append. rewrite map_app.
    split; [reflexivity|]. split; [reflexivity|].
    intro H. apply Forall_app. split; [now apply Hgrow|].
    constructor; [|constructor]. cbn [full_call object method line].
    repeat split. apply in_or_app. right. now left.
  - cbn [c_api_calls c_function_calls]. rewrite app_nil_r.
    split; [reflexivity|]. split; [reflexivity|]. unfold Py.append. apply Hgrow.
Qed.

Lemma visits_effect (rt : Runtime) (ns : list Ast.ast) :
  forall acc : Collected,
    match Py.for_each (visit rt) ns acc with
    | Ok acc' =>
        forallb (Reference.renders rt) (flat_map Reference.attribute_call ns) = true
        /\ map named (c_api_calls acc')
           = (map named (c_api_calls acc)
              ++ map (fun call => (receiver_name rt (fst call), snd call))
                     (flat_map Reference.attribute_call ns))%list
        /\ (Forall (well_shaped (c_function_calls acc)) (c_api_calls acc) ->
            Forall (well_shaped (c_function_calls acc')) (c_api_calls acc'))
    | Raise _ =>
        forallb (Reference.renders rt) (flat_map Reference.attribute_call ns) = false
    end.
Proof.
  induction ns as [|node ns IH]; intro acc; cbn [Py.for_each flat_map].
  - rewrite app_nil_r. repeat split; auto.
  - pose proof (visit_effect rt acc node) as Hstep.
    rewrite forallb_app, map_app.
    destruct (visit rt acc node) as [mid|e]; cbn [Py.bind];
      [|now rewrite Hstep].
    destruct Hstep as (Hr & Hcalls & Hshape). rewrite Hr. cbn [andb].
    specialize (IH mid).
    destruct (Py.for_each (visit rt) ns mid) as [acc'|e]; [|exact IH].
    destruct IH as (Hr' & Hcalls' & Hshape').
    split; [exact Hr'|]. split; [now rewrite Hcalls', Hcalls, app_assoc | auto].
Qed.

Lemma detect_frameworks_known (imports : list string) :
  Forall (fun f => In f ["PydanticAI"; "FastAPI"; "Django"]) (detect_frameworks imports)
  /\ (List.length (detect_frameworks imports) <= List.length imports)%nat.
Proof.
  unfold detect_frameworks.
  induction imports as [|imp imports [IHknown IHlen]]; cbn [flat_map].
  - split; [constructor | cbn; lia].
  - rewrite length_app. split.
    + apply Forall_app. split; [|exact IHknown].
      destruct (Py.contains_str "pydantic_ai" imp);
        [constructor; [cbn; auto | constructor]|].
      destruct (Py.contains_str "fastapi" imp);
        [constructor; [cbn; auto | constructor]|].
      destruct (Py.contains_str "django" imp);
        [constructor; [cbn; auto | constructor] | constructor].
    + destruct (Py.contains_str "pydantic_ai" imp); [cbn [List.length]; lia|].
      destruct (Py.contains_str "fastapi" imp); [cbn [List.length]; lia|].
      destruct (Py.contains_str "django" imp); cbn [List.length]; lia.
Qed.

(** X10: when every receiver of a call through an attribute can be named
    (by [ast.unparse], or as "unknown" where the module has none), the
    analysis of a parsed tree records exactly those calls of the tree, each
    under the name of its receiver (as a multiset: the walk is breadth
    first), carries the tree, names one pattern per such call, gives no
    line to the calls, records the full name of each of them among the
    function calls too, and only names frameworks among PydanticAI, FastAPI
    and Django, at most one per import; when [ast.unparse] raises on some
    receiver, the analysis is the empty analysis. *)
Theorem analysis_collects_every_attribute_call (rt : Runtime) (tree : Ast.ast) :
  let a := analyze_tree rt tree in
  if forallb (Reference.renders rt) (Reference.attribute_calls tree)
  then
    Permutation (map named (api_calls a))
                (map (fun call => (receiver_name rt (fst call), snd call))
                     (Reference.attribute_calls tree))
    /\ ast_tree a = Some tree
    /\ patterns a
       = map (fun c => (object c ++ "." ++ method c ++ " pattern")%string) (api_calls a)
    /\ Forall (fun c => full_call c = (object c ++ "." ++ method c)%string
                        /\ line c = None
                        /\ In (full_call c) (function_calls a))
              (api_calls a)
    /\ Forall (fun f => In f ["PydanticAI"; "FastAPI"; "Django"]) (frameworks a)
    /\ (List.length (frameworks a) <= List.length (imports a))%nat
  else a = empty_analysis.
Proof.
  cbv zeta. unfold analyze_tree, Reference.attribute_calls.
  rewrite <- (forallb_perm (Reference.renders rt) _ _
                (Permutation_flat_map Reference.attribute_call (walk_nodes tree))).
  pose proof (visits_effect rt (Ast.walk tree) nothing_collected) as H.
  destruct (Py.for_each (visit rt) (Ast.walk tree) nothing_collected) as [acc|e];
    [|now rewrite H].
  destruct H as (-> & Hcalls & Hshape).
  cbn [api_calls patterns function_calls frameworks imports ast_tree].
  split.
  - rewrite Hcalls. cbn [c_api_calls nothing_collected map app].
    apply Permutation_map, Permutation_flat_map, walk_nodes.
  - split; [reflexivity|]. split; [reflexivity|].
    split; [apply Hshape; constructor|].
    apply detect_frameworks_known.
Qed.

End Analysers.

Section AnalysersAgree.

Import ValidationEngine DetectionEngine.

Local Abbreviation pair_of := (fun c : ApiCall => (object c, method c)).

Local Abbreviation named := (fun c : ApiCall => (@Ok string (object c), method c)).

(** As long as the analyser of the validation engine does not raise, the
    two loops collect the same names. *)
Lemma visits_agree (rt : Runtime) (ns : list Ast.ast) :
  has_unparse rt = true ->
  forall acc acc' : Collected,
    c_classes acc' = c_classes acc ->
    c_methods acc' = c_methods acc ->
    c_function_calls acc' = c_function_calls acc ->
    map pair_of (c_api_calls acc') = map pair_of (c_api_calls acc) ->
    match Py.for_each (ValidationEngine.visit rt) ns acc with
    | Ok v =>
        let d := fold_left (DetectionEngine.visit rt) ns acc' in
        c_classes d = c_classes v
        /\ c_methods d = c_methods v
        /\ c_function_calls d = c_function_calls v
        /\ map pair_of (c_api_calls d) = map pair_of (c_api_calls v)
    | Raise _ => True
    end.
Proof.
  intro Hunparse.
  induction ns as [|node ns IH]; intros acc acc' Hc Hm Hf Ha;
    cbn [Py.for_each fold_left].
  - cbv zeta. auto.
  - destruct (ValidationEngine.visit rt acc node) as [mid|e] eqn:E; cbn [Py.bind];
      [|exact I].
    apply IH; revert E;
      unfold DetectionEngine.visit, ValidationEngine.visit,
        DetectionEngine.receiver_name, ValidationEngine.receiver_name;
      rewrite Hunparse;
      destruct node as [[names | [[|ch m]|] names | name | name returns annotations | name
                         | [value_src method_name | id |] lineno | | |] cs];
      cbn [Ast.kind_of];
      try (destruct (unparse rt value_src) as [obj_name|e']; cbn [Py.bind];
           [|discriminate]);
      intro E; injection E as <-;
      cbn [c_classes c_methods c_function_calls c_api_calls];
      unfold Py.append; rewrite ?map_app; cbn [map object method];
      rewrite ?Hc, ?Hm, ?Hf, ?Ha; reflexivity.
Qed.

Lemma filter_perm {A : Type} (f : A -> bool) (xs ys : list A) :
  Permutation xs ys -> Permutation (filter f xs) (filter f ys).
Proof.
  induction 1 as [|x xs ys _ IH|x y xs|xs ys zs _ IH1 _ IH2]; cbn [filter].
  - constructor.
  - destruct (f x); [now constructor | exact IH].
  - destruct (f x), (f y); try reflexivity. apply perm_swap.
  - now rewrite IH1.
Qed.

(** The detector's loop records the calls whose receiver can be named, and
    skips the others. *)
Lemma detector_visits_effect (rt : Runtime) (ns : list Ast.ast) :
  has_unparse rt = true ->
  forall acc : Collected,
    map named (c_api_calls (fold_left (DetectionEngine.visit rt) ns acc))
    = (map named (c_api_calls acc)
       ++ map (fun call => (unparse rt (fst call), snd call))
              (filter (Reference.renders rt) (flat_map Reference.attribute_call ns)))%list.
Proof.
  intro Hunparse.
  induction ns as [|node ns IH]; intro acc; cbn [fold_left flat_map].
  - now rewrite app_nil_r.
  - rewrite IH, filter_app, map_app, app_assoc. f_equal.
    unfold DetectionEngine.visit, DetectionEngine.receiver_name,
      Reference.attribute_call, Reference.renders, ValidationEngine.receiver_name.
    rewrite Hunparse.
    destruct node as [[names | [[|ch m]|] names | name | name returns annotations | name
                       | [value_src method_name | id |] lineno | | |] cs];
      cbn [Ast.kind_of filter map fst snd c_api_calls]; rewrite ?app_nil_r;
      try reflexivity.
    destruct (unparse rt value_src) as [obj_name|e] eqn:E;
      cbn [c_api_calls map fst snd]; [|now rewrite app_nil_r].
    unfold Py.append. rewrite map_app, E. reflexivity.
Qed.

(** X11: where the [ast] module has [unparse], on a text that does not
    parse both analysers return the empty analysis; on a text that parses,
    the detector's analysis carries the tree, names no pattern and records
    exactly the calls through an attribute whose receiver [ast.unparse]
    can render; if [ast.unparse] succeeds on the receiver of every such
    call, the analyser of the validation engine finds the same classes,
    methods and function calls, the same receiver and method for every API
    call, and the same tree; if it raises on one of them, the validation
    engine's analysis is the empty analysis, while the detector only skips
    that call. *)
Theorem analysers_agree (self : detector) (code : string) :
  has_unparse (runtime self) = true ->
  let d := DetectionEngine._analyze_code_structure self code in
  let v := ValidationEngine._analyze_code_structure (runtime self) code in
  match ast_parse (runtime self) code with
  | Raise _ => d = empty_analysis /\ v = empty_analysis
  | Ok tree =>
      ast_tree d = Some tree
      /\ patterns d = []
      /\ Permutation
           (map named (api_calls d))
           (map (fun call => (unparse (runtime self) (fst call), snd call))
                (filter (Reference.renders (runtime self)) (Reference.attribute_calls tree)))
      /\ if forallb (Reference.renders (runtime self)) (Reference.attribute_calls tree)
         then classes d = classes v
              /\ methods d = methods v
              /\ function_calls d = function_calls v
              /\ map pair_of (api_calls d) = map pair_of (api_calls v)
              /\ ast_tree v = Some tree
         else v = empty_analysis
  end.
Proof.
  intro Hunparse. cbv zeta.
  unfold DetectionEngine._analyze_code_structure, ValidationEngine._analyze_code_structure.
  destruct (ast_parse (runtime self) code) as [tree|e]; [|split; reflexivity].
  split; [reflexivity|]. split; [reflexivity|]. split.
  { cbn [api_calls]. rewrite (detector_visits_effect _ _ Hunparse).
    cbn [c_api_calls nothing_collected map app].
    apply Permutation_map, filter_perm.
    unfold Reference.attribute_calls. apply Permutation_flat_map, walk_nodes. }
  unfold analyze_tree, Reference.attribute_calls.
  rewrite <- (forallb_perm (Reference.renders (runtime self)) _ _
                (Permutation_flat_map Reference.attribute_call (walk_nodes tree))).
  pose proof (visits_effect (runtime self) (Ast.walk tree) nothing_collected) as Heff.
  pose proof (visits_agree (runtime self) (Ast.walk tree) Hunparse
                nothing_collected nothing_collected eq_refl eq_refl eq_refl eq_refl)
    as Hagree.
  destruct (Py.for_each (ValidationEngine.visit (runtime self)) (Ast.walk tree)
                        nothing_collected) as [acc|e]; [|now rewrite Heff].
  destruct Heff as (-> & _). destruct Hagree as (Hc & Hm & Hf & Ha).
  cbn [classes methods function_calls api_calls ast_tree]. auto.
Qed.

Lemma analysers_agree_witness :
  classes (DetectionEngine._analyze_code_structure Scenario.detector "Agent.chat('hi')")
  = classes (ValidationEngine._analyze_code_structure (runtime Scenario.detector)
               "Agent.chat('hi')")
  /\ map pair_of
         (api_calls (DetectionEngine._analyze_code_structure Scenario.detector
                       "Agent.chat('hi')"))
     = [("Agent", "chat")].
Proof.
  pose proof (analysers_agree Scenario.detector "Agent.chat('hi')" eq_refl) as H.
  cbv zeta in H.
  change (ast_parse (runtime Scenario.detector) "Agent.chat('hi')")
    with (@Ok Ast.ast (Scenario.expr_statement (Ast.Attribute "Agent" "chat"))) in H.
  cbv iota in H. destruct H as (_ & _ & _ & H).
  change (forallb (Reference.renders (runtime Scenario.detector))
            (Reference.attribute_calls
               (Scenario.expr_statement (Ast.Attribute "Agent" "chat"))))
    with true in H.
  cbv iota in H. destruct H as (Hc & _ & _ & Ha & _).
  split; [exact Hc|]. rewrite Ha. reflexivity.
Defined.

Lemma list_ascii_length (s : string) :
  List.length (list_ascii_of_string s) = String.length s.
Proof.
  induction s as [|c s IH]; simpl; congruence.
Qed.

Lemma no_char_in_empty (cs : list ascii) :
  filter (fun c => Py.char_in c EmptyString) cs = [].
Proof.
  induction cs as [|c cs IH]; simpl; [reflexivity | exact IH].
Qed.

(** X12: the character similarity of two names is at least 0 and less
    than 2; it is at most 1 when the first name, in lower case, is not
    longer than the second in lower case. *)
Theorem string_similarity_bounds (s1 s2 : string) :
  0 <= _string_similarity s1 s2 < 2
  /\ ((String.length (Py.lower s1) <= String.length (Py.lower s2))%nat ->
      _string_similarity s1 s2 <= 1).
Proof.
  unfold _string_similarity.
  destruct (String.eqb (Py.lower s1) (Py.lower s2)); [split; [lra | intros _; lra]|].
  pose proof (filter_length_le (fun c => Py.char_in c (Py.lower s2))
                               (list_ascii_of_string (Py.lower s1))) as Hle.
  rewrite list_ascii_length in Hle.
  assert (Hzero : String.length (Py.lower s2) = 0%nat ->
                  List.length (filter (fun c => Py.char_in c (Py.lower s2))
                                      (list_ascii_of_string (Py.lower s1))) = 0%nat).
  { intro H. destruct (Py.lower s2); [|discriminate]. now rewrite no_char_in_empty. }
  set (common := List.length (filter _ _)) in *.
  set (l1 := String.length (Py.lower s1)) in *.
  set (l2 := String.length (Py.lower s2)) in *.
  destruct (Nat.ltb_spec 0 (l1 + l2)) as [Hpos | Hnone]; [|split; [lra | intros _; lra]].
  unfold Py.float_of_nat.
  assert (Ht : 0 < inject_Z (Z.of_nat (l1 + l2))).
  { change 0 with (inject_Z 0). rewrite <- Zlt_Qlt. lia. }
  assert (Hc0 : 0 <= inject_Z (Z.of_nat common)).
  { change 0 with (inject_Z 0). rewrite <- Zle_Qle. lia. }
  assert (Hc1 : inject_Z (Z.of_nat common) <= inject_Z (Z.of_nat l1))
    by (rewrite <- Zle_Qle; lia).
  assert (Hsum : inject_Z (Z.of_nat (l1 + l2))
                 == inject_Z (Z.of_nat l1) + inject_Z (Z.of_nat l2)).
  { rewrite Nat2Z.inj_add, inject_Z_plus. reflexivity. }
  assert (Hl2 : 0 <= inject_Z (Z.of_nat l2)).
  { change 0 with (inject_Z 0). rewrite <- Zle_Qle. lia. }
  assert (Hstrict : 2 * inject_Z (Z.of_nat common) < 2 * inject_Z (Z.of_nat (l1 + l2))).
  { destruct (Nat.eq_dec l2 0) as [E | E].
    - rewrite (Hzero E). change (inject_Z (Z.of_nat 0)) with 0. lra.
    - assert (1 <= inject_Z (Z.of_nat l2)).
      { change 1 with (inject_Z 1). rewrite <- Zle_Qle. lia. }
      lra. }
  split; [split|].
  - apply Qle_shift_div_l; [exact Ht | lra].
  - apply Qlt_shift_div_r; [exact Ht | lra].
  - intro Hlen. apply Qle_shift_div_r; [exact Ht|].
    assert (inject_Z (Z.of_nat l1) <= inject_Z (Z.of_nat l2)) by (rewrite <- Zle_Qle; lia).
    lra.
Qed.

Lemma string_similarity_bounds_witness :
  (String.length (Py.lower "execute") <= String.length (Py.lower "run_sync"))%nat
  /\ _string_similarity "execute" "run_sync" <= 1.
Proof.
  assert (H : (String.length (Py.lower "execute")
               <= String.length (Py.lower "run_sync"))%nat) by (cbn; lia).
  split; [exact H|].
  exact (proj2 (string_similarity_bounds "execute" "run_sync") H).
Defined.

Lemma most_similar_member (bound : Q) (incorrect : string) (valid : list string) :
  match most_similar bound incorrect valid with
  | Some x => In x valid
  | None => valid = []
  end.
Proof.
  unfold most_similar.
  destruct (find _ valid) as [x|] eqn:E.
  - apply find_some in E. tauto.
  - destruct valid; cbn; auto.
Qed.

(** X13: a suggested class, method or import is never invented: it is
    one of the valid names given, or for a method the entry of the alias
    table, or for an import the fixed PydanticAI import; nothing is
    suggested only when no valid name is given. *)
Theorem suggestions_come_from_the_valid_names
  (incorrect : string) (valid : list string) :
  match _find_correct_class incorrect valid with
  | Some x => In x valid
  | None => valid = []
  end
  /\ match _find_correct_method incorrect valid with
     | Some x => In x valid \/ Py.get String.eqb method_mappings incorrect = Some x
     | None => valid = []
     end
  /\ match _find_correct_import incorrect valid with
     | Some x => In x valid \/ x = "from pydantic_ai import Agent"
     | None => valid = []
     end.
Proof.
  split; [apply most_similar_member|]. split.
  - unfold _find_correct_method.
    destruct (Py.get String.eqb method_mappings incorrect) as [m|]; [now right|].
    pose proof (most_similar_member 0.6 incorrect valid) as H.
    destruct (most_similar 0.6 incorrect valid); auto.
  - unfold _find_correct_import.
    destruct (Py.contains_str "PydanticAgent" incorrect); [now right|].
    pose proof (most_similar_member 0.5 incorrect valid) as H.
    destruct (most_similar 0.5 incorrect valid); auto.
Qed.

End AnalysersAgree.

Section DetectorRules.

Import ValidationEngine ValidationEngine.MultiLayerValidationEngine DetectionEngine.

(** X14: every finding of the framework rules belongs to a requested
    framework that the rule table knows, and is justified by the code: an
    invalid class defined in the code (0.95), an API call of the analysis
    listed as invalid for its receiver (0.98, with the call's line), an
    import of the analysis (0.9), or a listed hallucination pattern that
    occurs in the text (0.92, without a correction). *)
Theorem framework_findings_provenance
  (self : detector) (code : string) (code_analysis : CodeAnalysis)
  (frameworks : list string) :
  Forall (fun h =>
    exists framework patterns,
      In framework frameworks
      /\ Py.get String.eqb (framework_patterns self) framework = Some patterns
      /\ h_framework h = Some framework
      /\ ((type h = NON_EXISTENT_CLASS
           /\ In (incorrect_usage h) (classes code_analysis)
           /\ Py.mem (incorrect_usage h) (invalid_classes patterns) = true
           /\ h_confidence h = 0.95)
          \/ (type h = NON_EXISTENT_METHOD
              /\ (exists api_call,
                     In api_call (api_calls code_analysis)
                     /\ is_invalid_method patterns api_call = true
                     /\ incorrect_usage h = (object api_call ++ "." ++ method api_call)%string
                     /\ line_number h = line api_call)
              /\ h_confidence h = 0.98)
          \/ (type h = INCORRECT_IMPORT
              /\ In (incorrect_usage h) (imports code_analysis)
              /\ h_confidence h = 0.9)
          \/ (type h = INCORRECT_USAGE_PATTERN
              /\ In (incorrect_usage h) (common_hallucinations patterns)
              /\ Py.contains_str (incorrect_usage h) code = true
              /\ correct_usage h = None
              /\ h_confidence h = 0.92)))
    (_detect_framework_hallucinations self code code_analysis frameworks).
Proof.
  apply Forall_forall. intros h Hin.
  unfold _detect_framework_hallucinations in Hin.
  apply in_flat_map in Hin as (framework & Hf & Hin).
  destruct (Py.get String.eqb (framework_patterns self) framework) as [patterns|] eqn:E;
    [|contradiction].
  exists framework, patterns. split; [exact Hf|]. split; [exact E|].
  rewrite !in_app_iff in Hin. destruct Hin as [Hin | [Hin | [Hin | Hin]]].
  - unfold invalid_class_findings in Hin.
    apply in_map_iff in Hin as (c & <- & Hc). apply filter_In in Hc as [Hc Hm].
    cbn. split; [reflexivity|]. left. auto.
  - unfold invalid_method_findings in Hin.
    apply in_map_iff in Hin as (c & <- & Hc). apply filter_In in Hc as [Hc Hm].
    cbn. split; [reflexivity|]. right. left.
    split; [reflexivity|]. split; [|reflexivity]. exists c. auto.
  - unfold invalid_import_findings in Hin.
    apply in_map_iff in Hin as (c & <- & Hc). apply filter_In in Hc as [Hc Hm].
    cbn. split; [reflexivity|]. right. right. left. auto.
  - unfold common_pattern_findings in Hin.
    apply in_map_iff in Hin as (c & <- & Hc). apply filter_In in Hc as [Hc Hm].
    cbn. split; [reflexivity|]. right. right. right. auto.
Qed.

Lemma mem_true_In (x : string) (xs : list string) : Py.mem x xs = true -> In x xs.
Proof.
  induction xs as [|y ys IH]; cbn; [discriminate|].
  intro H. apply orb_true_iff in H as [H | H].
  - left. now apply String.eqb_eq.
  - right. auto.
Qed.

(** X15: with the built-in rule tables, the invalid-method rule fires
    only on a call whose receiver is written [Agent] or [FastAPI], and the
    finding then proposes the same receiver with one of the valid methods
    of that class. *)
Theorem builtin_invalid_method_rule
  (framework : string) (patterns : FrameworkPatterns) (api_call : ApiCall) :
  In (framework, patterns) _load_framework_patterns ->
  is_invalid_method patterns api_call = true ->
  (object api_call = "Agent" \/ object api_call = "FastAPI")
  /\ exists m,
       In m (lookup_methods (valid_methods patterns) (object api_call))
       /\ correct_usage (invalid_method_finding framework patterns api_call)
          = Some (object api_call ++ "." ++ m)%string.
Proof.
  intros Hin Hinvalid.
  destruct api_call as [o m f l].
  unfold is_invalid_method, lookup_methods in Hinvalid. cbn [object method] in *.
  destruct Hin as [E | [E | []]]; injection E as <- <-;
    cbn [invalid_methods Py.get] in Hinvalid.
  - destruct (String.eqb "Agent" o) eqn:Eo; [|discriminate].
    apply String.eqb_eq in Eo. subst o.
    apply mem_true_In in Hinvalid.
    split; [now left|].
    cbn in Hinvalid.
    repeat (destruct Hinvalid as [<- | Hinvalid];
            [eexists; split; [|vm_compute; reflexivity]; cbn; auto 10|]).
    contradiction.
  - destruct (String.eqb "FastAPI" o) eqn:Eo; [|discriminate].
    apply String.eqb_eq in Eo. subst o.
    apply mem_true_In in Hinvalid.
    split; [now right|].
    cbn in Hinvalid.
    repeat (destruct Hinvalid as [<- | Hinvalid];
            [eexists; split; [|vm_compute; reflexivity]; cbn; auto 10|]).
    contradiction.
Qed.

Lemma builtin_invalid_method_rule_witness :
  exists m,
    In m ["run"; "run_sync"; "stream"; "__init__"]
    /\ correct_usage (invalid_method_finding "PydanticAI" Scenario.pydantic_patterns
                        Scenario.chat_call)
       = Some ("Agent" ++ "." ++ m)%string.
Proof.
  exact (proj2 (builtin_invalid_method_rule "PydanticAI" Scenario.pydantic_patterns
                  Scenario.chat_call (or_introl eq_refl) eq_refl)).
Defined.

End DetectorRules.

Section DetectorFlow.

Import ValidationEngine ValidationEngine.MultiLayerValidationEngine DetectionEngine.

Lemma for_each_raises {A S : Type} (body : S -> A -> outcome S) (xs : list A) (x : A) :
  In x xs -> (forall acc, exists e, body acc x = Raise e) ->
  forall acc, exists e, Py.for_each body xs acc = Raise e.
Proof.
  intros Hin Hraise. induction xs as [|y ys IH]; [contradiction|].
  intro acc. cbn [Py.for_each].
  destruct Hin as [-> | Hin].
  - destruct (Hraise acc) as [e ->]. exists e. reflexivity.
  - destruct (body acc y) as [acc'|e]; simpl; [apply IH, Hin | eauto].
Qed.

Lemma for_each_returns {A S : Type} (body : S -> A -> outcome S) (xs : list A) :
  (forall acc x, exists acc', body acc x = Ok acc') ->
  forall acc, exists r, Py.for_each body xs acc = Ok r.
Proof.
  intro Hok. induction xs as [|x xs IH]; intro acc; cbn [Py.for_each]; [eauto|].
  destruct (Hok acc x) as [acc' ->]. simpl. apply IH.
Qed.

Lemma for_each_invariant {A S : Type} (body : S -> A -> outcome S) (xs : list A)
      (P : list A -> S -> Prop) :
  (forall done acc x acc', P done acc -> body acc x = Ok acc' -> P (done ++ [x])%list acc') ->
  forall done acc r, P done acc -> Py.for_each body xs acc = Ok r -> P (done ++ xs)%list r.
Proof.
  intro Hstep. induction xs as [|x xs IH]; intros done acc r HP H; cbn [Py.for_each] in H.
  - injection H as <-. now rewrite app_nil_r.
  - apply bind_Ok in H as (acc' & Hbody & H).
    change (x :: xs) with ([x] ++ xs)%list. rewrite app_assoc.
    apply (IH _ acc'); [eapply Hstep; eassumption | exact H].
Qed.

Lemma validate_frameworks_returns (self : detector) (generated_code code_intent : string)
      (frameworks : list string) :
  exists validation_results,
    validate_frameworks self generated_code code_intent frameworks = Ok validation_results.
Proof.
  apply for_each_returns. intros acc x. eexists. reflexivity.
Qed.

(** X16: when the consensus scores of the validation results lie in
    [0,1], so does the overall confidence; and three findings of which two
    are of a non-existent class or method bring it to 0. *)
Theorem confidence_score_range
  (validation_results : Py.dict string ValidationResult)
  (hallucinations : list Hallucination) :
  Forall (fun v => Spec.in_unit (consensus_score v)) (Py.values validation_results) ->
  let score := _calculate_confidence_score validation_results hallucinations in
  Spec.in_unit score
  /\ ((3 <= List.length hallucinations)%nat ->
      (2 <= List.length (filter (fun h => is_critical_type (type h)) hallucinations))%nat ->
      score == 0).
Proof.
  intros Hscores score. subst score. unfold _calculate_confidence_score.
  destruct validation_results as [|entry rest]; [split; [split; lra | intros; lra]|].
  set (vr := entry :: rest) in *.
  assert (Havg : Spec.in_unit (Py.sum (map consensus_score (Py.values vr)) / Py.len vr)).
  { replace (Py.len vr) with (Py.len (map consensus_score (Py.values vr)))
      by (unfold Py.len, Py.values; now rewrite !length_map).
    apply average_in_unit; [discriminate|].
    apply Forall_map. exact Hscores. }
  destruct Havg as [Hlo Hhi].
  set (avg := Py.sum _ / Py.len vr) in *.
  pose proof (len_nonneg hallucinations) as Hn.
  pose proof (len_nonneg (filter (fun h => is_critical_type (type h)) hallucinations)) as Hc.
  split.
  - unfold Spec.in_unit. case_min_max; lra.
  - intros H3 H2.
    assert (3 <= Py.len hallucinations).
    { unfold Py.len, Py.float_of_nat. change 3 with (inject_Z 3). rewrite <- Zle_Qle. lia. }
    assert (2 <= Py.len (filter (fun h => is_critical_type (type h)) hallucinations)).
    { unfold Py.len, Py.float_of_nat. change 2 with (inject_Z 2). rewrite <- Zle_Qle. lia. }
    case_min_max; lra.
Qed.

Lemma confidence_score_range_witness :
  Spec.in_unit
    (_calculate_confidence_score [("PydanticAI", Scenario.validation_result 0.9)] []).
Proof.
  apply (confidence_score_range [("PydanticAI", Scenario.validation_result 0.9)] []).
  constructor; [|constructor]. unfold Spec.in_unit. cbn. lra.
Defined.

(** X17: asked about no framework at all, the detector returns a result
    with confidence 0 that is not flagged: no finding, no corrected code,
    no suggestion and an empty breakdown. *)
Theorem no_frameworks_no_verdict
  (self : detector) (generated_code : string) (code_intent : option string) :
  exists r,
    detect_hallucination self generated_code [] code_intent = Ok r
    /\ is_hallucination r = false
    /\ confidence_score r = 0.0
    /\ detected_hallucinations r = []
    /\ corrected_code r = None
    /\ correction_suggestions r = []
    /\ validation_breakdown r = [].
Proof.
  eexists. split; [reflexivity|]. cbn. repeat split.
Qed.

(** X18: the detector does not isolate a failure of the pattern store:
    when the query for failed patterns raises for one of the requested
    frameworks, the whole detection raises. *)
Theorem detection_fails_when_pattern_query_fails
  (self : detector) (generated_code : string) (frameworks : list string)
  (code_intent : option string) (framework : string) (e : Py.exn) :
  In framework frameworks ->
  query_failed_patterns (graphiti_engine self) framework 365 = Raise e ->
  exists e', detect_hallucination self generated_code frameworks code_intent = Raise e'.
Proof.
  intros Hin Hraise. unfold detect_hallucination.
  destruct (validate_frameworks_returns self generated_code
              (match code_intent with
               | Some (String c i) => String c i
               | _ => "code validation"
               end) frameworks) as [vr ->].
  cbn [Py.bind].
  unfold _detect_pattern_hallucinations.
  match goal with
  | |- context [Py.for_each ?body frameworks []] =>
      destruct (for_each_raises body frameworks framework Hin) with (acc := @nil Hallucination)
        as [e' He']
  end.
  - intro acc. exists e. cbv beta. rewrite Hraise. reflexivity.
  - exists e'. rewrite He'. reflexivity.
Qed.

Lemma detection_fails_when_pattern_query_fails_witness :
  exists e',
    detect_hallucination Examples.unavailable_detector "Agent.chat('hi')" ["PydanticAI"] None
    = Raise e'.
Proof.
  exact (detection_fails_when_pattern_query_fails Examples.unavailable_detector
           "Agent.chat('hi')" ["PydanticAI"] None "PydanticAI" "ServiceUnavailable"
           (or_introl eq_refl) eq_refl).
Defined.

End DetectorFlow.

Section Corrections.

Import ValidationEngine ValidationEngine.MultiLayerValidationEngine DetectionEngine.

Lemma prefix_app (old s : string) :
  String.prefix old s = true -> exists t, s = (old ++ t)%string.
Proof.
  revert s. induction old as [|c old IH]; intros s H.
  - exists s. reflexivity.
  - destruct s as [|d s]; [discriminate|]. cbn in H.
    destruct (Ascii.ascii_dec c d) as [<- |]; [|discriminate].
    destruct (IH s H) as [t ->]. exists t. reflexivity.
Qed.

Lemma replace_from_skip (old new a t : string) :
  Py.replace_from old new (a ++ t) (String.length a) = Py.replace_from old new t 0.
Proof.
  induction a as [|c a IH]; [reflexivity|]. cbn. exact IH.
Qed.

Lemma string_length_app (a b : string) :
  String.length (a ++ b) = (String.length a + String.length b)%nat.
Proof.
  induction a as [|c a IH]; cbn; [reflexivity | now rewrite IH].
Qed.

Lemma replace_from_same (c0 : ascii) (old' : string) (n : nat) (s : string) :
  (String.length s <= n)%nat ->
  Py.replace_from (String c0 old') (String c0 old') s 0 = s.
Proof.
  revert s. induction n as [|n IH]; intros s Hlen.
  - destruct s; [reflexivity | cbn in Hlen; lia].
  - destruct s as [|c rest]; [reflexivity|].
    cbn [Py.replace_from].
    destruct (String.prefix (String c0 old') (String c rest)) eqn:E.
    + apply prefix_app in E as [t E].
      cbn in E. injection E as -> ->.
      cbn [String.length]. rewrite Nat.sub_succ, Nat.sub_0_r.
      rewrite replace_from_skip, IH; [reflexivity|].
      cbn in Hlen. rewrite string_length_app in Hlen. lia.
    + f_equal. apply IH. cbn in Hlen. lia.
Qed.

Lemma intersperse_empty (s : string) : Py.intersperse "" s = s.
Proof.
  induction s as [|c s IH]; cbn; [reflexivity | now rewrite IH].
Qed.

Lemma replace_same (s old : string) : Py.replace s old old = s.
Proof.
  unfold Py.replace. destruct old as [|c old].
  - apply intersperse_empty.
  - apply (replace_from_same c old (String.length s)). lia.
Qed.

(** What one suggestion says about the finding it was made from. *)
Lemma apply_correction_fold (original : string) (all : list Hallucination) :
  forall (hs : list Hallucination) (acc : string * list CorrectionSuggestion),
    incl hs all ->
    let P := fun (k : nat) (a : string * list CorrectionSuggestion) =>
      (List.length (snd a) <= k)%nat
      /\ (snd a = [] -> fst a = original)
      /\ Forall (fun s =>
                   original_code s <> s_corrected_code s
                   /\ exists h, In h all
                        /\ original_code s = incorrect_usage h
                        /\ correct_usage h = Some (s_corrected_code s)
                        /\ explanation s = h_description h
                        /\ s_confidence s = h_confidence h) (snd a) in
    forall k, P k acc -> P (k + List.length hs)%nat (fold_left apply_correction hs acc).
Proof.
  induction hs as [|h hs IH]; intros acc Hincl P k HP.
  - cbn. rewrite Nat.add_0_r. exact HP.
  - cbn [fold_left List.length].
    replace (k + S (List.length hs))%nat with (S k + List.length hs)%nat by lia.
    apply IH; [intros x Hx; apply Hincl; now right|].
    destruct HP as (Hlen & Hnil & Hall). unfold apply_correction.
    destruct (correct_usage h) as [[|c u]|] eqn:Eu;
      [repeat split; auto | | repeat split; auto].
    destruct (String.eqb (Py.replace (fst acc) (incorrect_usage h) (String c u)) (fst acc))
      eqn:E; cbn [negb fst snd].
    + apply String.eqb_eq in E. rewrite E. repeat split; auto.
    + unfold Py.append. rewrite length_app. cbn [List.length].
      split; [lia|]. split; [intro H; now apply app_eq_nil in H as [_ H]|].
      apply Forall_app. split; [exact Hall|]. constructor; [|constructor].
      cbn. split.
      * intro Hsame. rewrite Hsame, replace_same, String.eqb_refl in E. discriminate.
      * exists h. split; [apply Hincl; now left|]. auto.
Qed.

Lemma sorted_reverse_In {A : Type} (key : A -> Q) (xs : list A) (x : A) :
  In x (Py.sorted_reverse key xs) -> In x xs.
Proof.
  intro H. eapply Permutation_in; [|exact H].
  apply sorted_reverse_perm.
Qed.

(** X19: the correction step makes at most one suggestion per finding;
    every suggestion replaces the incorrect usage of a finding by the
    correct usage of that finding, which differs from it, and carries the
    finding's description and confidence; without any suggestion the code
    returned is the original code. *)
Theorem corrections_come_from_findings
  (self : detector) (original : string) (hallucinations : list Hallucination)
  (frameworks : list string) (corrected : option string)
  (suggestions : list CorrectionSuggestion) :
  _generate_corrections self original hallucinations frameworks
  = Ok (corrected, suggestions) ->
  (List.length suggestions <= List.length hallucinations)%nat
  /\ (suggestions = [] -> corrected = Some original)
  /\ Forall (fun s =>
               original_code s <> s_corrected_code s
               /\ exists h, In h hallucinations
                    /\ original_code s = incorrect_usage h
                    /\ correct_usage h = Some (s_corrected_code s)
                    /\ explanation s = h_description h
                    /\ s_confidence s = h_confidence h) suggestions.
Proof.
  unfold _generate_corrections.
  pose proof (apply_correction_fold original hallucinations
                (Py.sorted_reverse h_confidence hallucinations) (original, [])
                (fun x => sorted_reverse_In h_confidence hallucinations x) 0%nat) as H.
  cbv beta zeta in H.
  rewrite (Permutation_length (sorted_reverse_perm _ h_confidence hallucinations)) in H.
  destruct (fold_left apply_correction _ _) as [code suggested].
  cbn [fst snd] in H.
  destruct H as (Hlen & Hnil & Hall); [cbn; repeat split; auto|].
  cbn [Nat.add] in Hlen.
  destruct (String.eqb code original) eqn:E; cbn [negb].
  - apply String.eqb_eq in E. subst code. intro Hr. injection Hr as <- <-. auto.
  - intro Hr. apply bind_Ok in Hr as (v & _ & Hr).
    assert (Hs : suggestions = suggested)
      by (destruct (Py.Qlt_bool (consensus_score v) 0.8); now injection Hr).
    subst suggested. split; [exact Hlen|]. split; [|exact Hall].
    intro Hempty. apply Hnil in Hempty. subst code.
    rewrite String.eqb_refl in E. discriminate.
Qed.

Lemma corrections_come_from_findings_witness :
  exists corrected suggestions,
    _generate_corrections Scenario.detector "Agent.chat('hi')"
      [invalid_method_finding "PydanticAI" Scenario.pydantic_patterns Scenario.chat_call]
      ["PydanticAI"] = Ok (corrected, suggestions)
    /\ (List.length suggestions <= 1)%nat.
Proof.
  destruct (_generate_corrections Scenario.detector "Agent.chat('hi')"
              [invalid_method_finding "PydanticAI" Scenario.pydantic_patterns
                 Scenario.chat_call] ["PydanticAI"])
    as [[corrected suggestions]|e] eqn:E; [|vm_compute in E; discriminate].
  exists corrected, suggestions. split; [reflexivity|].
  exact (proj1 (corrections_come_from_findings Scenario.detector "Agent.chat('hi')"
                  [invalid_method_finding "PydanticAI" Scenario.pydantic_patterns
                     Scenario.chat_call] ["PydanticAI"] corrected suggestions E)).
Defined.

End Corrections.

Section KnowledgeFindings.

Import ValidationEngine ValidationEngine.MultiLayerValidationEngine DetectionEngine.

Local Abbreviation reports framework api_call h :=
  (type h = NON_EXISTENT_METHOD
   /\ incorrect_usage h = full_call api_call
   /\ h_framework h = Some framework
   /\ line_number h = line api_call).


Lemma cross_check_effect (self : detector) (framework : string)
      (hallucinations : list Hallucination) (api_call : ApiCall) :
  match validate_api_usage (rag_system self) (full_call api_call) framework with
  | Raise e => cross_check self framework hallucinations api_call = Raise e
  | Ok _ =>
      exists added,
        cross_check self framework hallucinations api_call = Ok (hallucinations ++ added)%list
        /\ (List.length added <= 2)%nat
        /\ Forall (fun h => reports framework api_call h) added
        /\ (exists_ (_check_structural_existence self api_call framework) = false ->
            exists h, In h added
              /\ h_confidence h = 0.95
              /\ correct_usage h
                 = suggestion (_check_structural_existence self api_call framework)
              /\ evidence h = Some ["Not found in validated API structure"])
  end.
Proof.
  unfold cross_check.
  destruct (validate_api_usage (rag_system self) (full_call api_call) framework) as [v|e];
    [|reflexivity].
  cbn [Py.bind]. unfold Py.append.
  destruct (negb (is_valid v) || Py.Qlt_bool (rag_confidence v) 0.5);
    destruct (exists_ (_check_structural_existence self api_call framework)).
  - eexists [_]. split; [reflexivity|]. split; [cbn; lia|]. split.
    + repeat constructor.
    + discriminate.
  - eexists [_; _]. split; [now rewrite <- app_assoc|]. split; [cbn; lia|]. split.
    + repeat constructor.
    + intros _. eexists. split; [right; left; reflexivity|]. cbn. auto.
  - exists []. split; [now rewrite app_nil_r|]. split; [cbn; lia|]. split.
    + constructor.
    + discriminate.
  - eexists [_]. split; [reflexivity|]. split; [cbn; lia|]. split.
    + repeat constructor.
    + intros _. eexists. split; [left; reflexivity|]. cbn. auto.
Qed.

Lemma cross_check_loop (self : detector) (framework : string) (api_calls : list ApiCall) :
  forall (hallucinations r : list Hallucination),
    Py.for_each (cross_check self framework) api_calls hallucinations = Ok r ->
    exists added,
      r = (hallucinations ++ added)%list
      /\ (List.length added <= 2 * List.length api_calls)%nat
      /\ Forall (fun h => exists api_call,
                   In api_call api_calls /\ reports framework api_call h) added
      /\ forall api_call,
           In api_call api_calls ->
           exists_ (_check_structural_existence self api_call framework) = false ->
           exists h, In h added
             /\ reports framework api_call h
             /\ h_confidence h = 0.95
             /\ correct_usage h
                = suggestion (_check_structural_existence self api_call framework)
             /\ evidence h = Some ["Not found in validated API structure"].
Proof.
  induction api_calls as [|api_call rest IH]; intros hallucinations r H;
    cbn [Py.for_each] in H.
  - injection H as <-. exists []. rewrite app_nil_r.
    repeat split; [cbn; lia | constructor | contradiction].
  - apply bind_Ok in H as (mid & Hstep & H).
    pose proof (cross_check_effect self framework hallucinations api_call) as Heff.
    destruct (validate_api_usage (rag_system self) (full_call api_call) framework)
      as [v|e]; [|congruence].
    destruct Heff as (added1 & Heq & Hlen1 & Hall1 & Hgraph1).
    rewrite Heq in Hstep. injection Hstep as <-.
    destruct (IH _ _ H) as (added2 & -> & Hlen2 & Hall2 & Hgraph2).
    exists (added1 ++ added2)%list. rewrite app_assoc.
    split; [reflexivity|]. split; [rewrite length_app; cbn [List.length]; lia|]. split.
    + apply Forall_app. split.
      * eapply Forall_impl; [|exact Hall1]. intros h Hh. exists api_call. split; [now left|].
        exact Hh.
      * eapply Forall_impl; [|exact Hall2]. intros h (c & Hc & Hh). exists c.
        split; [now right | exact Hh].
    + intros c [<- | Hc] Hmissing.
      * destruct (Hgraph1 Hmissing) as (h & Hin & Hh).
        exists h. split; [apply in_or_app; now left|].
        split; [|exact Hh].
        rewrite Forall_forall in Hall1. exact (Hall1 h Hin).
      * destruct (Hgraph2 c Hc Hmissing) as (h & Hin & Hh).
        exists h. split; [apply in_or_app; now right | exact Hh].
Qed.

Lemma knowledge_loop (self : detector) (api_calls : list ApiCall) (frameworks : list string) :
  forall (hallucinations r : list Hallucination),
    Py.for_each (fun hallucinations framework =>
                   Py.for_each (cross_check self framework) api_calls hallucinations)
                frameworks hallucinations = Ok r ->
    exists added,
      r = (hallucinations ++ added)%list
      /\ (List.length added <= 2 * (List.length frameworks * List.length api_calls))%nat
      /\ Forall (fun h => exists framework api_call,
                   In framework frameworks /\ In api_call api_calls
                   /\ reports framework api_call h) added
      /\ forall framework api_call,
           In framework frameworks ->
           In api_call api_calls ->
           exists_ (_check_structural_existence self api_call framework) = false ->
           exists h, In h added
             /\ reports framework api_call h
             /\ h_confidence h = 0.95
             /\ correct_usage h
                = suggestion (_check_structural_existence self api_call framework)
             /\ evidence h = Some ["Not found in validated API structure"].
Proof.
  induction frameworks as [|framework rest IH]; intros hallucinations r H;
    cbn [Py.for_each] in H.
  - injection H as <-. exists []. rewrite app_nil_r.
    repeat split; [cbn; lia | constructor | contradiction].
  - apply bind_Ok in H as (mid & Hstep & H).
    apply cross_check_loop in Hstep as (added1 & -> & Hlen1 & Hall1 & Hgraph1).
    destruct (IH _ _ H) as (added2 & -> & Hlen2 & Hall2 & Hgraph2).
    exists (added1 ++ added2)%list. rewrite app_assoc.
    split; [reflexivity|]. split; [rewrite length_app; cbn [List.length]; lia|]. split.
    + apply Forall_app. split.
      * eapply Forall_impl; [|exact Hall1]. intros h (c & Hc & Hh).
        exists framework, c. split; [now left|]. split; assumption.
      * eapply Forall_impl; [|exact Hall2]. intros h (f & c & Hf & Hc & Hh).
        exists f, c. split; [now right|]. split; assumption.
    + intros f c [<- | Hf] Hc Hmissing.
      * destruct (Hgraph1 c Hc Hmissing) as (h & Hin & Hh).
        exists h. split; [apply in_or_app; now left | exact Hh].
      * destruct (Hgraph2 f c Hf Hc Hmissing) as (h & Hin & Hh).
        exists h. split; [apply in_or_app; now right | exact Hh].
Qed.

Lemma cross_check_blocks (self : detector) (framework : string)
      (api_calls : list ApiCall) :
  forall (hallucinations r : list Hallucination),
    Py.for_each (cross_check self framework) api_calls hallucinations = Ok r ->
    exists blocks : list (list Hallucination),
      r = (hallucinations ++ List.concat blocks)%list
      /\ Forall2 (fun api_call block =>
                    (List.length block <= 2)%nat
                    /\ Forall (fun h => reports framework api_call h) block)
                 api_calls blocks.
Proof.
  induction api_calls as [|api_call rest IH]; intros hallucinations r H;
    cbn [Py.for_each] in H.
  - injection H as <-. exists []. cbn [List.concat]. rewrite app_nil_r.
    split; [reflexivity | constructor].
  - apply bind_Ok in H as (mid & Hstep & H).
    pose proof (cross_check_effect self framework hallucinations api_call) as Heff.
    destruct (validate_api_usage (rag_system self) (full_call api_call) framework)
      as [v|e]; [|congruence].
    destruct Heff as (added & Heq & Hlen & Hall & _).
    rewrite Heq in Hstep. injection Hstep as <-.
    destruct (IH _ _ H) as (blocks & -> & Hblocks).
    exists (added :: blocks). cbn [List.concat]. rewrite app_assoc.
    split; [reflexivity|]. constructor; [split; assumption | exact Hblocks].
Qed.

Lemma knowledge_blocks (self : detector) (api_calls : list ApiCall)
      (frameworks : list string) :
  forall (hallucinations r : list Hallucination),
    Py.for_each (fun hallucinations framework =>
                   Py.for_each (cross_check self framework) api_calls hallucinations)
                frameworks hallucinations = Ok r ->
    exists blocks : list (list (list Hallucination)),
      r = (hallucinations ++ List.concat (map (@List.concat Hallucination) blocks))%list
      /\ Forall2 (fun framework per_call =>
                    Forall2 (fun api_call block =>
                               (List.length block <= 2)%nat
                               /\ Forall (fun h => reports framework api_call h) block)
                            api_calls per_call)
                 frameworks blocks.
Proof.
  induction frameworks as [|framework rest IH]; intros hallucinations r H;
    cbn [Py.for_each] in H.
  - injection H as <-. exists []. cbn [map List.concat]. rewrite app_nil_r.
    split; [reflexivity | constructor].
  - apply bind_Ok in H as (mid & Hstep & H).
    apply cross_check_blocks in Hstep as (per_call & -> & Hper_call).
    destruct (IH _ _ H) as (blocks & -> & Hblocks).
    exists (per_call :: blocks). cbn [map List.concat]. rewrite app_assoc.
    split; [reflexivity|]. constructor; assumption.
Qed.

(** X20: the cross-validation against the knowledge sources reports, for
    every requested framework in turn and every API call in turn, a block
    of at most two findings, and nothing else; every finding of the block
    is of type non-existent method and names the full call, the line and
    the framework of its turn.  In all there are at most two findings per
    framework and API call. *)
Theorem knowledge_findings_shape
  (self : detector) (code : string) (code_analysis : CodeAnalysis)
  (frameworks : list string) (hallucinations : list Hallucination) :
  _detect_knowledge_hallucinations self code code_analysis frameworks = Ok hallucinations ->
  (exists blocks : list (list (list Hallucination)),
      hallucinations = List.concat (map (@List.concat Hallucination) blocks)
      /\ Forall2 (fun framework per_call =>
                    Forall2 (fun api_call block =>
                               (List.length block <= 2)%nat
                               /\ Forall (fun h =>
                                            type h = NON_EXISTENT_METHOD
                                            /\ incorrect_usage h = full_call api_call
                                            /\ h_framework h = Some framework
                                            /\ line_number h = line api_call) block)
                            (api_calls code_analysis) per_call)
                 frameworks blocks)
  /\ (List.length hallucinations
      <= 2 * (List.length frameworks * List.length (api_calls code_analysis)))%nat.
Proof.
  intro H. unfold _detect_knowledge_hallucinations in H. split.
  - apply knowledge_blocks in H as (blocks & -> & Hblocks).
    exists blocks. split; [reflexivity | exact Hblocks].
  - apply knowledge_loop in H as (added & -> & Hlen & _). exact Hlen.
Qed.

Lemma knowledge_findings_shape_witness :
  exists hallucinations,
    _detect_knowledge_hallucinations Scenario.detector "Agent.chat('hi')"
      (_analyze_code_structure Scenario.detector "Agent.chat('hi')") ["PydanticAI"]
    = Ok hallucinations
    /\ (List.length hallucinations <= 2)%nat.
Proof.
  destruct (_detect_knowledge_hallucinations Scenario.detector "Agent.chat('hi')"
              (_analyze_code_structure Scenario.detector "Agent.chat('hi')") ["PydanticAI"])
    as [hallucinations|e] eqn:E; [|vm_compute in E; discriminate].
  exists hallucinations. split; [reflexivity|].
  exact (proj2 (knowledge_findings_shape Scenario.detector "Agent.chat('hi')"
                  (_analyze_code_structure Scenario.detector "Agent.chat('hi')")
                  ["PydanticAI"] hallucinations E)).
Defined.

Lemma knowledge_loop_returns (self : detector) (api_calls : list ApiCall)
      (frameworks : list string) :
  (forall framework api_call,
      In framework frameworks -> In api_call api_calls ->
      exists v, validate_api_usage (rag_system self) (full_call api_call) framework = Ok v) ->
  forall hallucinations,
  exists r,
    Py.for_each (fun hallucinations framework =>
                   Py.for_each (cross_check self framework) api_calls hallucinations)
                frameworks hallucinations = Ok r.
Proof.
  induction frameworks as [|framework rest IH]; intros Hrag hallucinations;
    cbn [Py.for_each]; [eauto|].
  assert (Hinner : forall calls, incl calls api_calls ->
            forall acc, exists r, Py.for_each (cross_check self framework) calls acc = Ok r).
  { induction calls as [|c calls IHc]; intros Hincl acc; cbn [Py.for_each]; [eauto|].
    pose proof (cross_check_effect self framework acc c) as Heff.
    destruct (Hrag framework c (or_introl eq_refl) (Hincl c (or_introl eq_refl))) as [v Hv].
    rewrite Hv in Heff. destruct Heff as (added & -> & _). cbn [Py.bind].
    apply IHc. intros x Hx. apply Hincl. now right. }
  destruct (Hinner api_calls (incl_refl _) hallucinations) as [mid ->]. cbn [Py.bind].
  apply IH. intros f c Hf Hc. apply Hrag; [now right | exact Hc].
Qed.

(** X21: an unreachable knowledge graph is not an error for the
    cross-validation but turns every API call into a finding: when the
    documentation answers and the graph lookup raises, the step returns,
    and for every requested framework and every API call there is a
    finding of type non-existent method with confidence 0.95 and no
    correction. *)
Theorem graph_outage_reports_every_call
  (self : detector) (code : string) (code_analysis : CodeAnalysis)
  (frameworks : list string) :
  (forall framework api_call,
      In framework frameworks -> In api_call (api_calls code_analysis) ->
      (exists v, validate_api_usage (rag_system self) (full_call api_call) framework = Ok v)
      /\ exists e, match_method (graphiti_engine self) framework
                     (object api_call) (method api_call) = Raise e) ->
  exists hallucinations,
    _detect_knowledge_hallucinations self code code_analysis frameworks = Ok hallucinations
    /\ forall framework api_call,
         In framework frameworks -> In api_call (api_calls code_analysis) ->
         exists h, In h hallucinations
           /\ type h = NON_EXISTENT_METHOD
           /\ incorrect_usage h = full_call api_call
           /\ h_framework h = Some framework
           /\ h_confidence h = 0.95
           /\ correct_usage h = None.
Proof.
  intro Hout. unfold _detect_knowledge_hallucinations.
  destruct (knowledge_loop_returns self (api_calls code_analysis) frameworks
              (fun f c Hf Hc => proj1 (Hout f c Hf Hc)) []) as [r Hr].
  exists r. split; [exact Hr|].
  apply knowledge_loop in Hr as (added & -> & _ & _ & Hgraph).
  intros f c Hf Hc.
  destruct (Hout f c Hf Hc) as [_ [e He]].
  assert (Hex : _check_structural_existence self c f
                = {| exists_ := false; suggestion := None; error := Some e |}).
  { unfold _check_structural_existence. now rewrite He. }
  destruct (Hgraph f c Hf Hc) as (h & Hin & (Ht & Hu & Hfw & _) & Hconf & Hcorr & _).
  { now rewrite Hex. }
  exists h. rewrite Hex in Hcorr. cbn in Hcorr. auto 7.
Qed.

Lemma graph_outage_reports_every_call_witness :
  exists hallucinations,
    _detect_knowledge_hallucinations Examples.unreachable_detector "Agent.run_sync('hi')"
      (_analyze_code_structure Examples.unreachable_detector "Agent.run_sync('hi')")
      ["PydanticAI"]
    = Ok hallucinations
    /\ hallucinations <> [].
Proof.
  destruct (graph_outage_reports_every_call Examples.unreachable_detector
              "Agent.run_sync('hi')"
              (_analyze_code_structure Examples.unreachable_detector "Agent.run_sync('hi')")
              ["PydanticAI"]) as (hallucinations & E & Hall).
  - intros f c _ _. split; eexists; reflexivity.
  - exists hallucinations. split; [exact E|].
    destruct (Hall "PydanticAI"
                {| object := "Agent"; method := "run_sync"; full_call := "Agent.run_sync";
                   line := Some 1%Z |} (or_introl eq_refl) (or_introl eq_refl))
      as (h & Hin & _).
    intro Hnil. rewrite Hnil in Hin. exact Hin.
Defined.

End KnowledgeFindings.

Section PatternStore.

Import TemporalEngine.

Lemma run_update_effect (items : list set_item) (pattern_id : string) (ps : list Pattern) :
  fst (run_update items pattern_id ps)
  = map (fun p => if String.eqb (id p) pattern_id then cypher_set items p else p) ps
  /\ snd (run_update items pattern_id ps)
     = map (fun p => success_rate (cypher_set items p))
           (filter (fun p => String.eqb (id p) pattern_id) ps).
Proof.
  induction ps as [|p ps [IH1 IH2]]; [split; reflexivity|].
  cbn [run_update map filter].
  destruct (run_update items pattern_id ps) as [rest records]. cbn [fst snd] in *.
  destruct (String.eqb (id p) pattern_id); cbn [fst snd map]; subst; split; reflexivity.
Qed.

Lemma cypher_set_keeps_id (success : bool) (now : Q) (p : Pattern) :
  id (cypher_set (update_query success now) p) = id p.
Proof. destruct success; reflexivity. Qed.

(** X22: [update_pattern_usage] keeps the ids and the order of the
    stored patterns and changes only the patterns with the given id, whose
    counter grows by one and whose last use becomes the store's time; it
    returns nothing exactly when no pattern has that id, and the store is
    then unchanged. *)
Theorem update_pattern_usage_touches_only_that_id
  (st : Store) (pattern_id : string) (success : bool) :
  let st' := fst (update_pattern_usage st pattern_id success) in
  let returned := snd (update_pattern_usage st pattern_id success) in
  map id (patterns st') = map id (patterns st)
  /\ Forall2 (fun p p' =>
                if String.eqb (id p) pattern_id
                then usage_count p' = (usage_count p + 1)%Z /\ last_used p' = now st
                else p' = p)
             (patterns st) (patterns st')
  /\ (returned = None <-> Forall (fun p => id p <> pattern_id) (patterns st))
  /\ (returned = None -> patterns st' = patterns st).
Proof.
  cbv zeta. unfold update_pattern_usage.
  destruct (run_update_effect (update_query success (now st)) pattern_id (patterns st))
    as [Hps Hrecords].
  destruct (run_update _ pattern_id (patterns st)) as [ps records].
  cbn [fst snd patterns] in *. subst ps records.
  assert (Hnone : single (map (fun p => success_rate
                                          (cypher_set (update_query success (now st)) p))
                              (filter (fun p => String.eqb (id p) pattern_id) (patterns st)))
                  = None
                  <-> Forall (fun p => id p <> pattern_id) (patterns st)).
  { induction (patterns st) as [|p ps IH]; cbn [filter map].
    - split; [constructor | reflexivity].
    - destruct (String.eqb (id p) pattern_id) eqn:E; cbn [map single].
      + split; [discriminate|]. intro H. inversion H as [|? ? Hp _]; subst.
        apply String.eqb_eq in E. contradiction.
      + rewrite IH. apply String.eqb_neq in E. split; intro H.
        * now constructor.
        * now inversion H. }
  split; [|split; [|split; [exact Hnone|]]].
  - rewrite map_map. apply map_ext. intro p.
    destruct (String.eqb (id p) pattern_id); [apply cypher_set_keeps_id | reflexivity].
  - clear Hnone. induction (patterns st) as [|p ps IH]; cbn [map]; [constructor|].
    constructor; [|exact IH].
    destruct (String.eqb (id p) pattern_id); [|reflexivity].
    destruct (update_query_effect success (now st) p) as (Hc & Hl & _). auto.
  - intro H. apply Hnone in H. clear Hnone.
    induction H as [|p ps Hp _ IH]; [reflexivity|]. cbn [map].
    apply String.eqb_neq in Hp. rewrite Hp, IH. reflexivity.
Qed.

(** X23: on a store whose patterns have a rate in [0,1] and a counter
    that is not negative, [update_pattern_usage] keeps it so; a success
    never lowers a rate, a failure never raises one, and the returned rate
    lies in [0,1]. *)
Theorem update_pattern_usage_keeps_rates
  (st : Store) (pattern_id : string) (success : bool) :
  Forall Reference.well_formed (patterns st) ->
  Forall Reference.well_formed (patterns (fst (update_pattern_usage st pattern_id success)))
  /\ Forall2 (fun p p' =>
                if success then success_rate p <= success_rate p'
                else success_rate p' <= success_rate p)
             (patterns st) (patterns (fst (update_pattern_usage st pattern_id success)))
  /\ match snd (update_pattern_usage st pattern_id success) with
     | Some new_success_rate => Spec.in_unit new_success_rate
     | None => True
     end.
Proof.
  intro Hwf. unfold update_pattern_usage.
  destruct (run_update_effect (update_query success (now st)) pattern_id (patterns st))
    as [Hps Hrecords].
  destruct (run_update _ pattern_id (patterns st)) as [ps records].
  cbn [fst snd patterns] in *. subst ps records.
  split; [|split].
  - induction Hwf as [|p ps [Hrate Hcount] _ IH]; cbn [map]; [constructor|].
    constructor; [|exact IH].
    destruct (String.eqb (id p) pattern_id); [|now split].
    split; [now apply update_query_rate_in_unit|].
    destruct (update_query_effect success (now st) p) as (-> & _). lia.
  - induction Hwf as [|p ps [Hrate Hcount] _ IH]; cbn [map]; [constructor|].
    constructor; [|exact IH].
    destruct (String.eqb (id p) pattern_id); [|destruct success; lra].
    destruct (update_query_effect success (now st) p) as (_ & _ & Hnew).
    unfold Spec.in_unit in Hrate.
    assert (Hc : 0 <= inject_Z (usage_count p)).
    { change 0 with (inject_Z 0). now rewrite <- Zle_Qle. }
    rewrite !inject_Z_plus in Hnew. change (inject_Z 1) with 1 in Hnew.
    set (c := inject_Z (usage_count p)) in *. set (x := success_rate p) in *.
    destruct success; rewrite Hnew.
    + apply Qle_shift_div_l; [lra | nra].
    + apply Qle_shift_div_r; [lra | nra].
  - induction Hwf as [|p ps [Hrate Hcount] _ IH]; cbn [filter map]; [exact I|].
    destruct (String.eqb (id p) pattern_id); cbn [map single]; [|exact IH].
    now apply update_query_rate_in_unit.
Qed.

Lemma update_pattern_usage_keeps_rates_witness :
  Forall Reference.well_formed
    (patterns (fst (update_pattern_usage Scenario.pattern_store
                      "pattern_PydanticAI_sync_run_1" false))).
Proof.
  apply (update_pattern_usage_keeps_rates Scenario.pattern_store
           "pattern_PydanticAI_sync_run_1" false).
  constructor; [|constructor].
  split; [unfold Spec.in_unit; cbn; lra | cbn; lia].
Defined.

End PatternStore.

Section QueryConfidence.

Import TemporalEngine TemporalQuery.

Lemma query_confidence_fold {A : Type} (add : Q * nat -> A -> Q * nat) (term : A -> Q) :
  (forall acc x, add acc x = (fst acc + term x, S (snd acc))) ->
  forall (xs : list A) (acc : Q * nat),
    Forall (fun x => Spec.in_unit (term x)) xs ->
    0 <= fst acc <= Py.float_of_nat (snd acc) ->
    let r := fold_left add xs acc in
    0 <= fst r <= Py.float_of_nat (snd r)
    /\ snd r = (snd acc + List.length xs)%nat.
Proof.
  intros Hadd xs. induction xs as [|x xs IH]; intros acc Hall Hacc; cbn [fold_left].
  - cbv zeta. split; [exact Hacc | cbn; lia].
  - inversion Hall as [|? ? Hx Hxs]; subst.
    destruct (IH (add acc x) Hxs) as [Hr Hn].
    + rewrite Hadd. cbn [fst snd]. unfold Py.float_of_nat in *.
      rewrite Nat2Z.inj_succ, <- Z.add_1_r, inject_Z_plus. change (inject_Z 1) with 1.
      unfold Spec.in_unit in Hx. lra.
    + cbv zeta. split; [exact Hr|]. rewrite Hn, Hadd. cbn [snd List.length]. lia.
Qed.

(** X24: the confidence of a temporal query lies in [0,1] when the
    confidences of the entities and relationships do and the patterns have
    a rate in [0,1] and a counter that is not negative. *)
Theorem query_confidence_in_unit
  (entities : list TemporalEntity) (relationships : list TemporalRelationship)
  (patterns : list Pattern) :
  Forall (fun e => Spec.in_unit (e_confidence e)) entities ->
  Forall (fun r => Spec.in_unit (r_confidence r)) relationships ->
  Forall Reference.well_formed patterns ->
  Spec.in_unit (_calculate_query_confidence entities relationships patterns).
Proof.
  intros He Hr Hp.
  assert (Hterm : Forall (fun p => Spec.in_unit
                            (Py.min ((success_rate p + inject_Z (usage_count p) / 100) / 2)
                                    1.0)) patterns).
  { eapply Forall_impl; [|exact Hp]. intros p [[Hlo Hhi] Hc].
    assert (0 <= inject_Z (usage_count p)).
    { change 0 with (inject_Z 0). now rewrite <- Zle_Qle. }
    unfold Spec.in_unit.
    set (c := inject_Z (usage_count p)) in *. set (x := success_rate p) in *.
    assert (Hdiv : (x + c / 100) / 2 == x * (1 # 2) + c * (1 # 200)) by field.
    case_min_max; lra. }
  assert (Hgoal : let acc := fold_left add_entity entities (0.0, O) in
                  let acc := fold_left add_relationship relationships acc in
                  let acc := fold_left add_pattern patterns acc in
                  Spec.in_unit (if (0 <? snd acc)%nat
                                then fst acc / Py.float_of_nat (snd acc) else 0.0)).
  { cbv zeta.
    destruct (query_confidence_fold add_entity e_confidence (fun _ _ => eq_refl)
                entities (0.0, O) He) as [H1 _].
    { cbn [fst snd]. unfold Py.float_of_nat. change (inject_Z (Z.of_nat 0)) with 0. lra. }
    destruct (query_confidence_fold add_relationship r_confidence (fun _ _ => eq_refl)
                relationships _ Hr H1) as [H2 _].
    destruct (query_confidence_fold add_pattern
                (fun p => Py.min ((success_rate p + inject_Z (usage_count p) / 100) / 2) 1.0)
                (fun _ _ => eq_refl) patterns _ Hterm H2) as [H3 _].
    set (acc := fold_left add_pattern _ _) in *.
    unfold Spec.in_unit.
    destruct (Nat.ltb_spec 0 (snd acc)) as [Hpos|]; [|lra].
    assert (0 < Py.float_of_nat (snd acc)).
    { unfold Py.float_of_nat. change 0 with (inject_Z 0). rewrite <- Zlt_Qlt. lia. }
    split; [apply Qle_shift_div_l | apply Qle_shift_div_r]; lra. }
  unfold _calculate_query_confidence.
  destruct entities, relationships, patterns; exact Hgoal.
Qed.

Lemma query_confidence_in_unit_witness :
  Spec.in_unit (_calculate_query_confidence [] [] [Scenario.success_pattern]).
Proof.
  apply (query_confidence_in_unit [] [] [Scenario.success_pattern]);
    constructor; [|constructor].
  split; [unfold Spec.in_unit; cbn; lra | cbn; lia].
Defined.

End QueryConfidence.

Section Search.

Import HybridSearch.

Local Abbreviation by_score := (Reference.descending relevance_score).

Lemma add_score_fold (results : list SearchResult) :
  forall acc : Q * Q,
    Forall (fun r => 0 <= relevance_score r) results ->
    0 <= fst acc ->
    let r := fold_left add_score results acc in
    0 <= fst r /\ snd acc + Py.len results <= snd r.
Proof.
  induction results as [|x xs IH]; intros acc Hall Hacc; cbn [fold_left].
  - cbv zeta. split; [exact Hacc|].
    unfold Py.len, Py.float_of_nat. change (inject_Z (Z.of_nat (List.length (@nil SearchResult))))
      with 0. lra.
  - inversion Hall as [|? ? Hx Hxs]; subst.
    assert (Hw : 1 <= type_weight x).
    { unfold type_weight. destruct (String.eqb (result_type x) "graph"); [lra|].
      destruct (String.eqb (result_type x) "vector"); lra. }
    destruct (IH (add_score acc x) Hxs) as [H1 H2].
    + unfold add_score. cbn [fst]. nra.
    + cbv zeta. split; [exact H1|]. rewrite len_cons.
      unfold add_score in H2 at 1. cbn [snd] in H2. lra.
Qed.

(** X25: the confidence of a non-empty list of search results whose
    scores are not negative is at least 0.1 and at most 1. *)
Theorem search_confidence_range (results : list SearchResult) :
  results <> [] ->
  Forall (fun r => 0 <= relevance_score r) results ->
  0.1 <= _calculate_search_confidence results <= 1.
Proof.
  intros Hne Hall. unfold _calculate_search_confidence.
  destruct results as [|x xs]; [congruence|].
  destruct (add_score_fold (x :: xs) (0.0, 0.0) Hall) as [Hscore Hweight]; [cbn; lra|].
  destruct (fold_left add_score (x :: xs) (0.0, 0.0)) as [total_score total_weight].
  cbn [fst snd] in *.
  assert (Hlen : 1 <= Py.len (x :: xs)) by (rewrite len_cons; pose proof (len_nonneg xs); lra).
  assert (Htypes : 1 <= Py.len (Py.to_set (map result_type (x :: xs)))).
  { cbn [map Py.to_set].
    destruct (Py.mem (result_type x) (Py.to_set (map result_type xs))) eqn:E.
    - destruct (Py.to_set (map result_type xs)) as [|t ts]; [discriminate|].
      rewrite len_cons. pose proof (len_nonneg ts). lra.
    - rewrite len_cons. pose proof (len_nonneg (Py.to_set (map result_type xs))). lra. }
  destruct (Qlt_bool_cases 0 total_weight) as [[-> Hpos] | [-> Hneg]]; [|lra].
  assert (Hbase : 0 <= total_score / total_weight)
    by (apply Qle_shift_div_l; [exact Hpos | lra]).
  case_min_max; lra.
Qed.

Lemma search_confidence_range_witness :
  0.1 <= _calculate_search_confidence [Examples.graph_hit; Examples.vector_hit] <= 1.
Proof.
  apply (search_confidence_range [Examples.graph_hit; Examples.vector_hit]).
  - discriminate.
  - repeat constructor; cbn; lra.
Defined.

Lemma sorted_snoc {A : Type} (R : A -> A -> Prop) (u : list A) (x : A) :
  StronglySorted R u -> Forall (fun a => R a x) u -> StronglySorted R (u ++ [x]).
Proof.
  induction 1 as [|a u Hu IH Ha]; intro Hx; cbn.
  - repeat constructor.
  - inversion Hx as [|? ? Hax Hux]; subst.
    constructor; [now apply IH|].
    apply Forall_app. split; [exact Ha | now constructor].
Qed.

Lemma pairs_snoc {A : Type} (R : A -> A -> Prop) (u : list A) (x : A) :
  ForallOrdPairs R u -> Forall (fun a => R a x) u -> ForallOrdPairs R (u ++ [x]).
Proof.
  induction 1 as [|a u Ha Hu IH]; intro Hx; cbn.
  - repeat constructor.
  - inversion Hx as [|? ? Hax Hux]; subst.
    constructor; [|now apply IH].
    apply Forall_app. split; [exact Ha | now constructor].
Qed.

Lemma keep_unique_fold (xs : list SearchResult) :
  forall u : list SearchResult,
    StronglySorted by_score xs ->
    Forall (fun a => Forall (fun x => relevance_score x <= relevance_score a) xs) u ->
    StronglySorted by_score u ->
    ForallOrdPairs (fun a b => is_duplicate_of b a = false) u ->
    let out := fold_left keep_unique xs u in
    StronglySorted by_score out
    /\ ForallOrdPairs (fun a b => is_duplicate_of b a = false) out
    /\ incl out (u ++ xs)
    /\ incl u out
    /\ forall x, In x xs ->
         In x out
         \/ exists kept, In kept out /\ is_duplicate_of x kept = true
                         /\ relevance_score x <= relevance_score kept.
Proof.
  induction xs as [|x xs IH]; intros u Hxs Hge Hu Hpairs; cbn [fold_left].
  - cbv zeta. rewrite app_nil_r. repeat split; auto using incl_refl. contradiction.
  - inversion Hxs as [|? ? Hxs' Hx]; subst.
    assert (Hge' : Forall (fun a => Forall (fun y => relevance_score y <= relevance_score a) xs)
                          u).
    { eapply Forall_impl; [|exact Hge]. intros a Ha. now inversion Ha. }
    cbv zeta.
    destruct (find (is_duplicate_of x) u) as [existing|] eqn:E.
    + pose proof E as Hfound. apply find_some in E as [Hin Hdup].
      assert (Hle : relevance_score x <= relevance_score existing).
      { rewrite Forall_forall in Hge. specialize (Hge existing Hin). now inversion Hge. }
      apply Qlt_bool_false_iff in Hle.
      assert (Hk : keep_unique u x = u) by (unfold keep_unique; now rewrite Hfound, Hle).
      rewrite Hk.
      destruct (IH u Hxs' Hge' Hu Hpairs) as (H1 & H2 & H3 & H4 & H5).
      cbv zeta. split; [exact H1|]. split; [exact H2|]. split; [|split; [exact H4|]].
      * intros y Hy. apply H3 in Hy. apply in_app_or in Hy as [Hy | Hy];
          apply in_or_app; [now left | right; now right].
      * intros y [<- | Hy]; [|now apply H5].
        right. exists existing. split; [now apply H4|]. split; [exact Hdup|].
        now apply Qlt_bool_false_iff.
    + assert (Hnone : Forall (fun a => is_duplicate_of x a = false) u).
      { apply Forall_forall. intros a Ha. exact (find_none _ _ E a Ha). }
      assert (Hk : keep_unique u x = (u ++ [x])%list) by (unfold keep_unique; now rewrite E).
      rewrite Hk.
      destruct (IH (u ++ [x])%list Hxs') as (H1 & H2 & H3 & H4 & H5).
      * apply Forall_app. split; [exact Hge'|]. constructor; [|constructor]. exact Hx.
      * apply sorted_snoc; [exact Hu|].
        eapply Forall_impl; [|exact Hge]. intros a Ha. now inversion Ha.
      * apply pairs_snoc; assumption.
      * cbv zeta. split; [exact H1|]. split; [exact H2|]. split; [|split].
        -- intros y Hy. apply H3 in Hy. rewrite <- app_assoc in Hy. exact Hy.
        -- intros y Hy. apply H4. apply in_or_app. now left.
        -- intros y [<- | Hy]; [|now apply H5].
           left. apply H4. apply in_or_app. right. now left.
Qed.

(** X26: the combined search results are ranked by decreasing score;
    no kept result was similar (above 0.8) to one kept before it; every
    kept result is a weighted vector or graph result; and every weighted
    result that is dropped is similar to a kept result that scores at
    least as high. *)
Theorem combined_results_are_ranked_and_distinct
  (vector_results graph_results : list SearchResult) :
  let all_results :=
    (map (weighted 0.7) vector_results ++ map (weighted 0.8) graph_results)%list in
  let combined := _combine_search_results vector_results graph_results in
  StronglySorted by_score combined
  /\ ForallOrdPairs (fun kept later =>
                       _calculate_content_similarity (content later) (content kept) <= 0.8)
                    combined
  /\ incl combined all_results
  /\ forall result, In result all_results ->
       In result combined
       \/ exists kept, In kept combined
            /\ 0.8 < _calculate_content_similarity (content result) (content kept)
            /\ relevance_score result <= relevance_score kept.
Proof.
  cbv zeta. unfold _combine_search_results, Py.extend.
  set (all_results := (map (weighted 0.7) vector_results
                       ++ map (weighted 0.8) graph_results)%list).
  destruct (keep_unique_fold (Py.sorted_reverse relevance_score all_results) [])
    as (H1 & H2 & H3 & _ & H5);
    [apply sorted_reverse_sorted | constructor | constructor | constructor |].
  split; [exact H1|]. split; [|split].
  - clear -H2. induction H2 as [|a l Ha _ IH]; constructor; [|exact IH].
    eapply Forall_impl; [|exact Ha]. intros b Hb. now apply Qlt_bool_false_iff.
  - intros y Hy. apply H3 in Hy. cbn [app] in Hy.
    eapply Permutation_in; [apply sorted_reverse_perm | exact Hy].
  - intros y Hy.
    destruct (H5 y) as [Hin | (kept & Hin & Hdup & Hle)].
    + eapply Permutation_in; [apply Permutation_sym, sorted_reverse_perm | exact Hy].
    + now left.
    + right. exists kept. split; [exact Hin|]. split; [|exact Hle].
      now apply Qlt_bool_iff.
Qed.

Lemma max_confidence_in_unit (first : ApiStructure) (rest : list ApiStructure) :
  Forall (fun item => Spec.in_unit (item_confidence item)) (first :: rest) ->
  Spec.in_unit (max_confidence first rest).
Proof.
  unfold max_confidence. intro H. inversion H as [|? ? Hfirst Hrest]; subst. clear H.
  revert Hfirst. generalize (item_confidence first) as best.
  induction Hrest as [|x xs Hx _ IH]; intros best Hbest; cbn [fold_left]; [exact Hbest|].
  apply IH. unfold Spec.in_unit in *. case_min_max; lra.
Qed.

(** X27: when the documentation search and the graph query answer,
    [validate_api_usage] returns: the call is valid exactly when the graph
    or the documentation knows it; an invalid call has confidence 0 and an
    issue; a search confidence below 0.7 is reported as an issue, and only
    then; at most three examples are kept; and the confidence is in [0,1]
    when the search confidence and the graph confidences are. *)
Theorem api_usage_verdict
  (self : backends) (api_call framework : string)
  (search_result : HybridSearchResult) (structure : list ApiStructure) :
  hybrid_search self (framework ++ " " ++ api_call ++ " usage example")%string framework 5
  = Ok search_result ->
  match_api self framework (last_segment api_call) = Ok structure ->
  exists r,
    validate_api_usage self api_call framework = Ok r
    /\ api_structure r = structure
    /\ (is_valid r = true <-> structure <> [] \/ api_references search_result <> [])
    /\ (is_valid r = false -> v_confidence r == 0 /\ issues r <> [])
    /\ (hs_confidence search_result < 0.7 <->
        In "Low confidence in documentation match" (issues r))
    /\ (List.length (documentation_examples r) <= 3)%nat
    /\ (Spec.in_unit (hs_confidence search_result) ->
        Forall (fun item => Spec.in_unit (item_confidence item)) structure ->
        Spec.in_unit (v_confidence r)).
Proof.
  intros Hsearch Hgraph. unfold validate_api_usage. rewrite Hsearch, Hgraph. cbn [Py.bind].
  assert (Hthree : (List.length (firstn 3 (results search_result)) <= 3)%nat)
    by apply firstn_le_length.
  destruct structure as [|item rest].
  - destruct (api_references search_result) as [|ref refs];
      destruct (Qlt_bool_cases (hs_confidence search_result) 0.7) as [[-> Hlow] | [-> Hhigh]];
      eexists; (split; [reflexivity|]);
      cbn [is_valid v_confidence api_structure issues documentation_examples suggestions];
      unfold Py.append; (split; [reflexivity|]).
    + split; [split; [discriminate | intros [H | H]; congruence]|].
      split; [intros _; split; [lra | discriminate]|].
      split; [split; [intros _; cbn; auto | intros _; exact Hlow]|].
      split; [exact Hthree|]. intros _ _. unfold Spec.in_unit. lra.
    + split; [split; [discriminate | intros [H | H]; congruence]|].
      split; [intros _; split; [lra | discriminate]|].
      split; [split; [intro H; lra | cbn; intros [H | []]; discriminate]|].
      split; [exact Hthree|]. intros _ _. unfold Spec.in_unit. lra.
    + split; [split; [intros _; right; discriminate | reflexivity]|].
      split; [discriminate|].
      split; [split; [intros _; cbn; auto | intros _; exact Hlow]|].
      split; [exact Hthree|]. intros [H0 H1] _. unfold Spec.in_unit. lra.
    + split; [split; [intros _; right; discriminate | reflexivity]|].
      split; [discriminate|].
      split; [split; [intro H; lra | cbn; intros []]|].
      split; [exact Hthree|]. intros [H0 H1] _. unfold Spec.in_unit. lra.
  - destruct (Qlt_bool_cases (hs_confidence search_result) 0.7) as [[-> Hlow] | [-> Hhigh]];
      eexists; (split; [reflexivity|]);
      cbn [is_valid v_confidence api_structure issues documentation_examples suggestions];
      unfold Py.append; (split; [reflexivity|]).
    + split; [split; [intros _; left; discriminate | reflexivity]|].
      split; [discriminate|].
      split; [split; [intros _; cbn; auto | intros _; exact Hlow]|].
      split; [exact Hthree|]. intros _ Hitems.
      apply max_confidence_in_unit in Hitems. unfold Spec.in_unit in *. lra.
    + split; [split; [intros _; left; discriminate | reflexivity]|].
      split; [discriminate|].
      split; [split; [intro H; lra | cbn; intros []]|].
      split; [exact Hthree|]. intros _ Hitems.
      now apply max_confidence_in_unit in Hitems.
Qed.

Lemma api_usage_verdict_witness :
  exists r,
    validate_api_usage Examples.documentation "Agent.run_sync" "PydanticAI" = Ok r
    /\ is_valid r = true.
Proof.
  destruct (api_usage_verdict Examples.documentation "Agent.run_sync" "PydanticAI" _ _
              eq_refl eq_refl) as (r & Hr & _ & Hvalid & _).
  exists r. split; [exact Hr|]. apply Hvalid. left. discriminate.
Defined.

End Search.

Section Similarities.

Import ValidationEngine DetectionEngine.

Lemma to_set_empty (xs : list string) : Py.to_set xs = [] <-> xs = [].
Proof.
  split; [|now intros ->].
  destruct xs as [|x xs]; [reflexivity|]. cbn [Py.to_set].
  destruct (Py.mem x (Py.to_set xs)) eqn:E; [|discriminate].
  intro H. rewrite H in E. discriminate.
Qed.

Lemma content_similarity_jaccard (content1 content2 : string) :
  HybridSearch._calculate_content_similarity content1 content2
  == Reference.jaccard (Py.to_set (Py.split (Py.lower content1)))
                       (Py.to_set (Py.split (Py.lower content2))).
Proof.
  unfold HybridSearch._calculate_content_similarity, Reference.jaccard.
  destruct (Py.to_set (Py.split (Py.lower content1))) as [|x a] eqn:Ea; [reflexivity|].
  destruct (Py.to_set (Py.split (Py.lower content2))) as [|y b] eqn:Eb; [reflexivity|].
  assert (Hpos : (0 < List.length (Py.union (x :: a) (y :: b)))%nat)
    by (apply union_nonempty; discriminate).
  apply Nat.ltb_lt in Hpos. rewrite Hpos. reflexivity.
Qed.

Lemma token_similarity_jaccard (code1 code2 : string) :
  _calculate_pattern_similarity code1 code2
  == Reference.jaccard (Py.to_set (Py.findall_words (Py.lower code1)))
                       (Py.to_set (Py.findall_words (Py.lower code2))).
Proof.
  unfold _calculate_pattern_similarity, Reference.jaccard.
  destruct (Py.to_set (Py.findall_words (Py.lower code1))) as [|x a] eqn:Ea; [reflexivity|].
  destruct (Py.to_set (Py.findall_words (Py.lower code2))) as [|y b] eqn:Eb; [reflexivity|].
  assert (Hpos : (0 < List.length (Py.union (x :: a) (y :: b)))%nat)
    by (apply union_nonempty; discriminate).
  apply Nat.ltb_lt in Hpos. rewrite Hpos. reflexivity.
Qed.

Lemma jaccard_laws (words : string -> list string) (s1 s2 : string) :
  Spec.in_unit (Reference.jaccard (Py.to_set (words s1)) (Py.to_set (words s2)))
  /\ Reference.jaccard (Py.to_set (words s1)) (Py.to_set (words s2))
     == Reference.jaccard (Py.to_set (words s2)) (Py.to_set (words s1))
  /\ Reference.jaccard (Py.to_set (words s1)) (Py.to_set (words s1))
     == match words s1 with [] => 0 | _ => 1 end.
Proof.
  split; [apply jaccard_in_unit|]. split; [apply jaccard_sym; apply to_set_NoDup|].
  destruct (words s1) as [|w ws] eqn:E; [apply Qeq_refl|].
  apply jaccard_self. intro H. apply (proj1 (to_set_empty _)) in H. discriminate H.
Qed.

(** X28: the word-set similarities of the temporal layer, of the search
    and of the detector lie in [0,1], are symmetric, and of a text with
    itself are 1, or 0 when the text has no word. *)
Theorem word_similarities_are_symmetric_ratios (s1 s2 : string) :
  (Spec.in_unit (TemporalValidator._pattern_similarity s1 s2)
   /\ TemporalValidator._pattern_similarity s1 s2
      == TemporalValidator._pattern_similarity s2 s1
   /\ TemporalValidator._pattern_similarity s1 s1
      == match Py.split (Py.lower s1) with [] => 0 | _ => 1 end)
  /\ (Spec.in_unit (HybridSearch._calculate_content_similarity s1 s2)
      /\ HybridSearch._calculate_content_similarity s1 s2
         == HybridSearch._calculate_content_similarity s2 s1
      /\ HybridSearch._calculate_content_similarity s1 s1
         == match Py.split (Py.lower s1) with [] => 0 | _ => 1 end)
  /\ (Spec.in_unit (_calculate_pattern_similarity s1 s2)
      /\ _calculate_pattern_similarity s1 s2 == _calculate_pattern_similarity s2 s1
      /\ _calculate_pattern_similarity s1 s1
         == match Py.findall_words (Py.lower s1) with [] => 0 | _ => 1 end).
Proof.
  unfold Spec.in_unit.
  rewrite !pattern_similarity_jaccard, !content_similarity_jaccard, !token_similarity_jaccard.
  split; [|split].
  - apply (jaccard_laws (fun s => Py.split (Py.lower s))).
  - apply (jaccard_laws (fun s => Py.split (Py.lower s))).
  - apply (jaccard_laws (fun s => Py.findall_words (Py.lower s))).
Qed.

End Similarities.
